(** * WebGPU volume raycaster: the frame loop and its GPU resources

    A shallow embedding of the two entry scripts of the repository,
    [src/src/volume-raycaster.js] (module [VolumeRaycaster]) and
    [src/unnamed/part_000] (module [Part000]), over a small model of the
    part of the WebGPU device interface that the scripts call
    (module [Gpu]).

    JavaScript numbers and 32-bit floats are kept abstract (class
    [Numbers]); the two npm libraries the scripts import, gl-matrix and
    arcball_camera, are interfaces (classes [GlMatrix], [ArcballCamera]). *)

From Stdlib Require Import ZArith QArith Lia.
From stdpp Require Import base option list gmap strings.

Local Open Scope nat_scope.

(** ** Numbers and the imported libraries *)

(** JavaScript numbers.  Only subtraction is applied to them by the
    scripts themselves (in [controller.mousemove]); [zero] is the value
    of a freshly allocated typed-array cell. *)
Class Numbers := {
  num : Type;
  zero : num;
  sub : num → num → num;
}.

(** gl-matrix: [mat4.create()] gives a [Float32Array] of 16 cells and
    [mat4.mul(out, a, b)] overwrites the 16 cells of [out], so the result
    has 16 cells whatever the operands are. *)
Class GlMatrix `{Numbers} := {
  mat4_create : list num;
  mat4_mul : list num → list num → list num;
  mat4_create_length : length mat4_create = 16;
  mat4_mul_length : ∀ a b, length (mat4_mul a b) = 16;
}.

(** arcball_camera: the object behind [camera]; [camera_matrix c] is the
    field [camera.camera], [eyePos] returns a three-element array. *)
Class ArcballCamera `{Numbers} := {
  Camera : Type;
  camera_matrix : Camera → list num;
  eyePos : Camera → list num;
  rotate : Camera → num * num → num * num → Camera;
  pan : Camera → num * num → Camera;
  zoom : Camera → num → Camera;
  eyePos_length : ∀ c, length (eyePos c) = 3;
}.

(** ** Errors and the state-and-error monad *)

Inductive Error :=
| TypeError          (* a property read on null or undefined *)
| RangeError         (* TypedArray.prototype.set past the end *)
| OperationError     (* buffer mapping misuse *)
| ValidationError    (* a device call rejected by validation *)
| AssetError.        (* an asset that does not load or decode *)

Definition M (S A : Type) : Type := S → Error + (A * S).

Definition ret {S A} (a : A) : M S A := λ s, inr (a, s).
Definition bind {S A B} (m : M S A) (k : A → M S B) : M S B :=
  λ s, match m s with
       | inl e => inl e
       | inr (a, s') => k a s'
       end.
Definition throw {S A} (e : Error) : M S A := λ _, inl e.
Definition get {S} : M S S := λ s, inr (s, s).
Definition gets {S A} (f : S → A) : M S A := λ s, inr (f s, s).
Definition modify {S} (f : S → S) : M S unit := λ s, inr (tt, f s).

Notation "x <- m ;; k" := (bind m (λ x, k))
  (at level 100, m at next level, right associativity).
Notation "m ;; k" := (bind m (λ _, k))
  (at level 100, right associativity).

(** Running a computation of a component on the whole state. *)
Definition zoomM {S T A} (proj : S → T) (inj : T → S → S) (m : M T A) : M S A :=
  λ s, match m (proj s) with
       | inl e => inl e
       | inr (a, t) => inr (a, inj t s)
       end.

(** Total and partial correctness of a computation: it returns and its
    result satisfies [Q]; if it returns, its result satisfies [Q]. *)
Definition wp {S A} (m : M S A) (Q : A → S → Prop) (s : S) : Prop :=
  match m s with
  | inr (a, s') => Q a s'
  | inl _ => False
  end.

Definition wlp {S A} (m : M S A) (Q : A → S → Prop) (s : S) : Prop :=
  match m s with
  | inr (a, s') => Q a s'
  | inl _ => True
  end.

(** ** Typed arrays *)

(** [target.set(src, off)]: copies [src] into [target] from cell [off];
    a [RangeError] (here [None]) when it does not fit. *)
Definition ta_set {A} (target src : list A) (off : nat) : option (list A) :=
  if decide (off + length src ≤ length target)
  then Some (take off target ++ src ++ drop (off + length src) target)
  else None.

(** ** The device

    The part of the WebGPU interface the scripts use: buffers with their
    mapping state, textures, bind groups, one command encoder with one
    render pass, and a queue that executes what is submitted in the order
    it was recorded. *)
Module Gpu.

Inductive Usage :=
| VERTEX | INDEX | UNIFORM | STORAGE | COPY_SRC | COPY_DST | MAP_WRITE
| TEXTURE_BINDING | RENDER_ATTACHMENT.

#[global] Instance Usage_eq_dec : EqDecision Usage.
Proof. solve_decision. Defined.

Inductive MapState := Unmapped | Pending | Mapped.

#[global] Instance MapState_eq_dec : EqDecision MapState.
Proof. solve_decision. Defined.

(** A bound resource: [{buffer: b}], [texture.createView()], a sampler. *)
Inductive Resource :=
| BufferBinding (b : nat)
| TextureView (t : nat)
| Sampler (s : nat).

Record Entry := { binding : nat; resource : Resource }.

(** The colour attachment of [renderPassDesc]: the view of the current
    surface texture ([None] is [undefined]) and the clear value. *)
Record ColorAttachment := { view : option nat; clearValue : list Q }.

Inductive PassCmd :=
| SetPipeline (p : nat)
| SetBindGroup (index bg : nat)
| SetVertexBuffer (slot b : nat)
| SetIndexBuffer (b : nat) (format : string)
| Draw (vertexCount instanceCount firstVertex firstInstance : nat)
| DrawIndexed (indexCount instanceCount firstIndex : nat) (baseVertex : Z)
              (firstInstance : nat).

Inductive Cmd :=
| CopyBufferToBuffer (src srcOffset dst dstOffset size : nat)
| CopyBufferToTexture (src bytesPerRow rowsPerImage dst : nat) (size : list nat)
| RenderPass (att : ColorAttachment) (cmds : list PassCmd).

(** The calls made on the device, in the order they are made. *)
Inductive Call :=
| c_createBuffer (id size : nat) (usage : list Usage) (mappedAtCreation : bool)
| c_mapAsync (id : nat)
| c_mapResolved (id : nat)
| c_getMappedRange (id : nat)
| c_set (id off len : nat)
| c_unmap (id : nat)
| c_createTexture (id : nat)
| c_destroy (id : nat)
| c_copyExternalImageToTexture (id : nat)
| c_createBindGroup (id : nat)
| c_createSampler (id : nat)
| c_createRenderPipeline (id : nat)
| c_createCommandEncoder
| c_copyBufferToBuffer (src srcOffset dst dstOffset size : nat)
| c_copyBufferToTexture (src dst : nat)
| c_getCurrentTexture (v : nat)
| c_beginRenderPass (att : ColorAttachment)
| c_pass (c : PassCmd)
| c_end
| c_submit (cmds : list Cmd).

Record Texture := {
  tex_size : list nat;
  tex_format : string;
  tex_dimension : string;
  tex_destroyed : bool;
}.

Section Device.
Context `{Numbers}.

(** What a buffer holds: nothing written yet (all zero), or the cells
    last written through a typed view. *)
Inductive Data :=
| Zeroed
| F32 (l : list num)
| U16 (l : list Z)
| U8 (l : list Z).

Record Buffer := {
  buf_size : nat;
  buf_usage : list Usage;
  buf_map : MapState;
  buf_data : Data;
}.

(** What one draw of a render pass is executed with. *)
Record Observation := {
  obs_clear : list Q;
  obs_pipeline : option nat;
  obs_bindings : option (list Entry);
  obs_uniform : option (list num);
  obs_vertexBuffer : option nat;
  obs_indexBuffer : option nat;
  obs_draw : PassCmd;
}.

Record Device := {
  next_id : nat;
  buffers : gmap nat Buffer;
  textures : gmap nat Texture;
  bindGroups : gmap nat (list Entry);
  encoder : list Cmd;
  pass : option (ColorAttachment * list PassCmd);
  surface : nat;
  calls : list Call;
  presented : list Observation;
}.

Definition set_next_id (n : nat) (d : Device) : Device :=
  {| next_id := n; buffers := buffers d; textures := textures d;
     bindGroups := bindGroups d; encoder := encoder d; pass := pass d;
     surface := surface d; calls := calls d; presented := presented d |}.
Definition set_buffers (b : gmap nat Buffer) (d : Device) : Device :=
  {| next_id := next_id d; buffers := b; textures := textures d;
     bindGroups := bindGroups d; encoder := encoder d; pass := pass d;
     surface := surface d; calls := calls d; presented := presented d |}.
Definition set_textures (t : gmap nat Texture) (d : Device) : Device :=
  {| next_id := next_id d; buffers := buffers d; textures := t;
     bindGroups := bindGroups d; encoder := encoder d; pass := pass d;
     surface := surface d; calls := calls d; presented := presented d |}.
Definition set_bindGroups (g : gmap nat (list Entry)) (d : Device) : Device :=
  {| next_id := next_id d; buffers := buffers d; textures := textures d;
     bindGroups := g; encoder := encoder d; pass := pass d;
     surface := surface d; calls := calls d; presented := presented d |}.
Definition set_encoder (e : list Cmd) (d : Device) : Device :=
  {| next_id := next_id d; buffers := buffers d; textures := textures d;
     bindGroups := bindGroups d; encoder := e; pass := pass d;
     surface := surface d; calls := calls d; presented := presented d |}.
Definition set_pass (p : option (ColorAttachment * list PassCmd)) (d : Device) : Device :=
  {| next_id := next_id d; buffers := buffers d; textures := textures d;
     bindGroups := bindGroups d; encoder := encoder d; pass := p;
     surface := surface d; calls := calls d; presented := presented d |}.
Definition set_surface (n : nat) (d : Device) : Device :=
  {| next_id := next_id d; buffers := buffers d; textures := textures d;
     bindGroups := bindGroups d; encoder := encoder d; pass := pass d;
     surface := n; calls := calls d; presented := presented d |}.
Definition set_calls (c : list Call) (d : Device) : Device :=
  {| next_id := next_id d; buffers := buffers d; textures := textures d;
     bindGroups := bindGroups d; encoder := encoder d; pass := pass d;
     surface := surface d; calls := c; presented := presented d |}.
Definition set_presented (o : list Observation) (d : Device) : Device :=
  {| next_id := next_id d; buffers := buffers d; textures := textures d;
     bindGroups := bindGroups d; encoder := encoder d; pass := pass d;
     surface := surface d; calls := calls d; presented := o |}.

Definition empty_device : Device :=
  {| next_id := 0; buffers := ∅; textures := ∅; bindGroups := ∅;
     encoder := []; pass := None; surface := 0; calls := []; presented := [] |}.

Definition log (c : Call) : M Device unit :=
  modify (λ d, set_calls (calls d ++ [c]) d).

Definition fresh : M Device nat :=
  id <- gets next_id;;
  modify (set_next_id (S id));;
  ret id.

Definition the_buffer (id : nat) : M Device Buffer :=
  d <- get;;
  match buffers d !! id with
  | Some b => ret b
  | None => throw ValidationError
  end.

Definition put_buffer (id : nat) (b : Buffer) : M Device unit :=
  modify (λ d, set_buffers (<[id := b]> (buffers d)) d).

(** The cells of a buffer seen through a [Float32Array]. *)
Definition f32_view (b : Buffer) : option (list num) :=
  match buf_data b with
  | Zeroed => Some (replicate (buf_size b / 4) zero)
  | F32 l => Some l
  | _ => None
  end.

(** *** Buffers *)

(** [device.createBuffer({size, usage, mappedAtCreation})].  A buffer
    mapped at creation must have a size that is a multiple of 4. *)
Definition createBuffer (size : nat) (usage : list Usage) (mappedAtCreation : bool)
  : M Device nat :=
  if mappedAtCreation && negb (size mod 4 =? 0) then throw RangeError
  else
    id <- fresh;;
    put_buffer id {| buf_size := size; buf_usage := usage;
                     buf_map := if mappedAtCreation then Mapped else Unmapped;
                     buf_data := Zeroed |};;
    log (c_createBuffer id size usage mappedAtCreation);;
    ret id.

(** [buffer.mapAsync(GPUMapMode.WRITE)]: the call itself; the promise is
    settled later by [mapResolved]. *)
Definition mapAsync (id : nat) : M Device unit :=
  b <- the_buffer id;;
  if decide (buf_map b = Unmapped ∧ MAP_WRITE ∈ buf_usage b) then
    put_buffer id {| buf_size := buf_size b; buf_usage := buf_usage b;
                     buf_map := Pending; buf_data := buf_data b |};;
    log (c_mapAsync id)
  else throw OperationError.

Definition mapResolved (id : nat) : M Device unit :=
  b <- the_buffer id;;
  if decide (buf_map b = Pending) then
    put_buffer id {| buf_size := buf_size b; buf_usage := buf_usage b;
                     buf_map := Mapped; buf_data := buf_data b |};;
    log (c_mapResolved id)
  else throw OperationError.

(** [buffer.getMappedRange()]: only on a mapped buffer. *)
Definition getMappedRange (id : nat) : M Device unit :=
  b <- the_buffer id;;
  if decide (buf_map b = Mapped) then log (c_getMappedRange id)
  else throw OperationError.

(** [map.set(src, off)] on [map = new Float32Array(buffer.getMappedRange())]:
    the view aliases the buffer, so the write lands in the buffer. *)
Definition map_set (id : nat) (src : list num) (off : nat) : M Device unit :=
  b <- the_buffer id;;
  if decide (buf_map b = Mapped) then
    match f32_view b with
    | Some cells =>
        match ta_set cells src off with
        | Some cells' =>
            put_buffer id {| buf_size := buf_size b; buf_usage := buf_usage b;
                             buf_map := Mapped; buf_data := F32 cells' |};;
            log (c_set id off (length src))
        | None => throw RangeError
        end
    | None => throw TypeError
    end
  else throw TypeError.

(** The same through a [Uint8Array] or a [Uint16Array], always written
    from cell 0 of a buffer that was just created. *)
Definition map_set_bytes (id : nat) (wrap : list Z → Data) (width : nat)
  (src : list Z) : M Device unit :=
  b <- the_buffer id;;
  if decide (buf_map b = Mapped) then
    if decide (length src * width ≤ buf_size b) then
      put_buffer id {| buf_size := buf_size b; buf_usage := buf_usage b;
                       buf_map := Mapped; buf_data := wrap src |};;
      log (c_set id 0 (length src))
    else throw RangeError
  else throw TypeError.

Definition unmap (id : nat) : M Device unit :=
  b <- the_buffer id;;
  put_buffer id {| buf_size := buf_size b; buf_usage := buf_usage b;
                   buf_map := Unmapped; buf_data := buf_data b |};;
  log (c_unmap id).

(** *** Textures and bind groups *)

(** [device.createTexture({size, format, dimension, usage})]: every
    extent must be positive. *)
Definition createTexture (size : list nat) (format dimension : string)
  : M Device nat :=
  if decide (Forall (λ n, 0 < n) size) then
    id <- fresh;;
    modify (λ d, set_textures
      (<[id := {| tex_size := size; tex_format := format;
                  tex_dimension := dimension; tex_destroyed := false |}]>
         (textures d)) d);;
    log (c_createTexture id);;
    ret id
  else throw ValidationError.

Definition resource_ok (d : Device) (r : Resource) : bool :=
  match r with
  | BufferBinding b => bool_decide (is_Some (buffers d !! b))
  | TextureView t =>
      match textures d !! t with
      | Some tx => negb (tex_destroyed tx)
      | None => false
      end
  | Sampler _ => true
  end.

(** [device.createBindGroup({layout, entries})]: the entries are read
    when the call is made; the bind group created is a new object that
    holds them from then on.  [slots] is the number of bindings of the
    layout, which the entries must fill in order. *)
Definition createBindGroup (slots : nat) (entries : list Entry) : M Device nat :=
  d <- get;;
  if bool_decide (map binding entries = seq 0 slots)
     && forallb (λ e, resource_ok d (resource e)) entries then
    id <- fresh;;
    modify (λ d, set_bindGroups (<[id := entries]> (bindGroups d)) d);;
    log (c_createBindGroup id);;
    ret id
  else throw ValidationError.

Definition createSampler : M Device nat :=
  id <- fresh;; log (c_createSampler id);; ret id.

(** [device.createRenderPipeline(...)]: the pipeline is built once from
    constants of the script; only its handle matters below. *)
Definition createRenderPipeline : M Device nat :=
  id <- fresh;; log (c_createRenderPipeline id);; ret id.

(** [device.queue.copyExternalImageToTexture(src, dst, size)] *)
Definition copyExternalImageToTexture (dst : nat) : M Device unit :=
  log (c_copyExternalImageToTexture dst).

(** *** Recording commands *)

Definition createCommandEncoder : M Device unit :=
  modify (set_encoder []);;
  modify (set_pass None);;
  log c_createCommandEncoder.

Definition copyBufferToBuffer (src srcOffset dst dstOffset size : nat) : M Device unit :=
  modify (λ d, set_encoder
    (encoder d ++ [CopyBufferToBuffer src srcOffset dst dstOffset size]) d);;
  log (c_copyBufferToBuffer src srcOffset dst dstOffset size).

Definition copyBufferToTexture (src bytesPerRow rowsPerImage dst : nat)
  (size : list nat) : M Device unit :=
  modify (λ d, set_encoder
    (encoder d ++ [CopyBufferToTexture src bytesPerRow rowsPerImage dst size]) d);;
  log (c_copyBufferToTexture src dst).

(** [context.getCurrentTexture().createView()] *)
Definition getCurrentTextureView : M Device nat :=
  v <- gets surface;;
  modify (set_surface (S v));;
  log (c_getCurrentTexture v);;
  ret v.

Definition beginRenderPass (att : ColorAttachment) : M Device unit :=
  p <- gets pass;;
  match p, view att with
  | None, Some _ => modify (set_pass (Some (att, [])));; log (c_beginRenderPass att)
  | None, None => throw TypeError
  | Some _, _ => throw ValidationError
  end.

Definition pass_cmd (c : PassCmd) : M Device unit :=
  p <- gets pass;;
  match p with
  | Some (att, cs) => modify (set_pass (Some (att, cs ++ [c])));; log (c_pass c)
  | None => throw ValidationError
  end.

Definition setPipeline (p : nat) := pass_cmd (SetPipeline p).
Definition setBindGroup (i bg : nat) := pass_cmd (SetBindGroup i bg).
Definition setVertexBuffer (slot b : nat) := pass_cmd (SetVertexBuffer slot b).
Definition setIndexBuffer (b : nat) (format : string) := pass_cmd (SetIndexBuffer b format).
Definition draw (vertexCount instanceCount firstVertex firstInstance : nat) :=
  pass_cmd (Draw vertexCount instanceCount firstVertex firstInstance).

(** [renderPass.endPass()] of the older interface, [renderPass.end()] of
    the newer one. *)
Definition endPass : M Device unit :=
  p <- gets pass;;
  match p with
  | Some (att, cs) =>
      modify (λ d, set_encoder (encoder d ++ [RenderPass att cs]) d);;
      modify (set_pass None);;
      log c_end
  | None => throw ValidationError
  end.

(** *** Executing what is submitted *)

(** The alignment the device demands of [bytesPerRow] in a copy from a
    buffer to a texture (the scripts' own note: "bytes per row must be
    multiple of 256"). *)
Definition bytesPerRowAlignment : nat := 256.

(** The bytes a copy of [w × h × dp] one-byte texels reads from the
    buffer with the given row and image pitch. *)
Definition requiredBytes (bytesPerRow rowsPerImage w h dp : nat) : nat :=
  (if decide (1 < dp) then bytesPerRow * rowsPerImage * (dp - 1) else 0)
  + (if decide (0 < dp)
     then (if decide (1 < h) then bytesPerRow * (h - 1) else 0)
          + (if decide (0 < h) then w else 0)
     else 0).

Definition exec_copyBufferToBuffer (src srcOffset dst dstOffset size : nat)
  : M Device unit :=
  s <- the_buffer src;;
  t <- the_buffer dst;;
  if bool_decide
       (buf_map s = Unmapped ∧ buf_map t = Unmapped
        ∧ COPY_SRC ∈ buf_usage s ∧ COPY_DST ∈ buf_usage t
        ∧ srcOffset mod 4 = 0 ∧ dstOffset mod 4 = 0 ∧ size mod 4 = 0
        ∧ srcOffset + size ≤ buf_size s ∧ dstOffset + size ≤ buf_size t
        ∧ src ≠ dst)
  then
    match f32_view s, f32_view t with
    | Some from, Some to =>
        match ta_set to (take (size / 4) (drop (srcOffset / 4) from)) (dstOffset / 4) with
        | Some cells =>
            put_buffer dst {| buf_size := buf_size t; buf_usage := buf_usage t;
                              buf_map := Unmapped; buf_data := F32 cells |}
        | None => throw ValidationError
        end
    | _, _ => throw ValidationError
    end
  else throw ValidationError.

Definition exec_copyBufferToTexture (src bytesPerRow rowsPerImage dst : nat)
  (size : list nat) : M Device unit :=
  s <- the_buffer src;;
  d <- get;;
  match textures d !! dst, size with
  | Some tx, [w; h; dp] =>
      if bool_decide
           (buf_map s = Unmapped ∧ COPY_SRC ∈ buf_usage s
            ∧ tex_destroyed tx = false
            ∧ Forall2 le size (tex_size tx)
            ∧ bytesPerRow mod bytesPerRowAlignment = 0
            ∧ w ≤ bytesPerRow ∧ h ≤ rowsPerImage
            ∧ requiredBytes bytesPerRow rowsPerImage w h dp ≤ buf_size s)
      then ret tt
      else throw ValidationError
  | _, _ => throw ValidationError
  end.

(** The state a render pass carries from one command to the next. *)
Record PassState := {
  ps_pipeline : option nat;
  ps_bindGroup : option nat;
  ps_vertexBuffer : option nat;
  ps_indexBuffer : option nat;
}.

Definition uniform_of (d : Device) (entries : list Entry) : option (list num) :=
  match entries with
  | {| binding := 0; resource := BufferBinding b |} :: _ =>
      match buffers d !! b with
      | Some bf => f32_view bf
      | None => None
      end
  | _ => None
  end.

Definition observe (att : ColorAttachment) (ps : PassState) (c : PassCmd)
  : M Device unit :=
  d <- get;;
  let entries := match ps_bindGroup ps with
                 | Some bg => bindGroups d !! bg
                 | None => None
                 end in
  match ps_pipeline ps, entries, ps_vertexBuffer ps with
  | Some _, Some es, Some _ =>
      modify (set_presented (presented d ++
        [{| obs_clear := clearValue att; obs_pipeline := ps_pipeline ps;
            obs_bindings := entries; obs_uniform := uniform_of d es;
            obs_vertexBuffer := ps_vertexBuffer ps;
            obs_indexBuffer := ps_indexBuffer ps; obs_draw := c |}]))
  | _, _, _ => throw ValidationError
  end.

Fixpoint exec_pass (att : ColorAttachment) (ps : PassState) (cs : list PassCmd)
  : M Device unit :=
  match cs with
  | [] => ret tt
  | c :: cs' =>
      match c with
      | SetPipeline p =>
          exec_pass att {| ps_pipeline := Some p; ps_bindGroup := ps_bindGroup ps;
                           ps_vertexBuffer := ps_vertexBuffer ps;
                           ps_indexBuffer := ps_indexBuffer ps |} cs'
      | SetBindGroup _ bg =>
          exec_pass att {| ps_pipeline := ps_pipeline ps; ps_bindGroup := Some bg;
                           ps_vertexBuffer := ps_vertexBuffer ps;
                           ps_indexBuffer := ps_indexBuffer ps |} cs'
      | SetVertexBuffer _ b =>
          exec_pass att {| ps_pipeline := ps_pipeline ps; ps_bindGroup := ps_bindGroup ps;
                           ps_vertexBuffer := Some b;
                           ps_indexBuffer := ps_indexBuffer ps |} cs'
      | SetIndexBuffer b _ =>
          exec_pass att {| ps_pipeline := ps_pipeline ps; ps_bindGroup := ps_bindGroup ps;
                           ps_vertexBuffer := ps_vertexBuffer ps;
                           ps_indexBuffer := Some b |} cs'
      | Draw _ _ _ _ => observe att ps c;; exec_pass att ps cs'
      | DrawIndexed _ _ _ _ _ =>
          match ps_indexBuffer ps with
          | Some _ => observe att ps c;; exec_pass att ps cs'
          | None => throw ValidationError
          end
      end
  end.

Definition exec_cmd (c : Cmd) : M Device unit :=
  match c with
  | CopyBufferToBuffer src so dst do_ size => exec_copyBufferToBuffer src so dst do_ size
  | CopyBufferToTexture src bpr rpi dst size => exec_copyBufferToTexture src bpr rpi dst size
  | RenderPass att cs =>
      exec_pass att {| ps_pipeline := None; ps_bindGroup := None;
                       ps_vertexBuffer := None; ps_indexBuffer := None |} cs
  end.

Fixpoint exec_cmds (cs : list Cmd) : M Device unit :=
  match cs with
  | [] => ret tt
  | c :: cs' => exec_cmd c;; exec_cmds cs'
  end.

(** [device.queue.submit([commandEncoder.finish()])]: the commands run
    in the order they were recorded. *)
Definition submit : M Device unit :=
  p <- gets pass;;
  match p with
  | Some _ => throw ValidationError
  | None =>
      cs <- gets encoder;;
      modify (set_encoder []);;
      log (c_submit cs);;
      exec_cmds cs
  end.

End Device.
End Gpu.

(** ** What both scripts share *)

(** [getCubeMesh()] of volume.js: the vertex coordinates (three per
    vertex) and the indices. *)
Record Mesh `{Numbers} := { vertices : list num; indices : list Z }.

(** The two elements whose [style] attribute the scripts set. *)
Record Page := { canvas_style : string; no_webgpu_style : string }.

Definition show_notice (_ : Page) : Page :=
  {| canvas_style := "display:none;"; no_webgpu_style := "display:block;" |}.

Definition notice_shown (p : Page) : Prop :=
  canvas_style p = "display:none;"%string ∧ no_webgpu_style p = "display:block;"%string.

(** The loop over [compilationInfo.messages]: [hadError] is set when a
    message has type "error". *)
Definition hadError (types : list string) : bool :=
  existsb (λ t, String.eqb t "error") types.

(** [loadValue] and [clearValue] of [renderPassDesc]: [0.3, 0.3, 0.3, 1]. *)
Definition background : list Q := [0.3; 0.3; 0.3; 1]%Q.

(** How a run of a script ends its start-up. *)
Inductive Outcome (W : Type) :=
| Returned (p : Page)              (* [return] before the first frame is requested *)
| Threw (e : Error) (p : Page)     (* an exception left the function *)
| Started (w : W) (p : Page).      (* the frame loop is entered *)
Arguments Returned {W}.
Arguments Threw {W}.
Arguments Started {W}.

(** ** src/src/volume-raycaster.js *)
Module VolumeRaycaster.
Import Gpu.

Section Script.
Context `{Numbers} `{!GlMatrix} `{!ArcballCamera}.

(** What the host hands to the script: the browser's answers and the
    assets, in the order the script asks for them. *)
Record Host := {
  navigator_gpu : bool;              (* [navigator.gpu !== undefined] *)
  adapter : option unit;             (* [requestAdapter()]; [None] is [null] *)
  page0 : Page;
  compilationMessages : list string; (* [msg.type] of each message *)
  the_cube : Mesh;                   (* [getCubeMesh()] *)
  colormapImage : option (nat * nat);(* the decoded image's width and height *)
  volumeDims : list nat;             (* [getVolumeDimensions(volumes["Foot"])] *)
  volumeData : list Z;               (* [fetchVolume(volumes["Foot"])] *)
  camera0 : Camera;                  (* [new ArcballCamera(defaultEye, center, up, 2, ...)] *)
  proj0 : list num;                  (* [mat4.perspective(...)] *)
  hidden0 : bool;                    (* [document.hidden] when the loop starts *)
}.

Record World := {
  dev : Device;
  hidden : bool;                     (* [document.hidden] *)
  camera : Camera;
  proj : list num;
  projView : list num;
  cube : Mesh;
  vertexBuffer : nat;
  indexBuffer : nat;
  viewParamsBuffer : nat;
  sampler : nat;
  colormapTexture : nat;
  volumeTexture : nat;
  viewParamBG : nat;
  renderPipeline : nat;
  renderPassDesc : ColorAttachment;
}.

Definition set_dev (d : Device) (w : World) : World :=
  {| dev := d; hidden := hidden w; camera := camera w; proj := proj w;
     projView := projView w; cube := cube w; vertexBuffer := vertexBuffer w;
     indexBuffer := indexBuffer w; viewParamsBuffer := viewParamsBuffer w;
     sampler := sampler w; colormapTexture := colormapTexture w; volumeTexture := volumeTexture w;
     viewParamBG := viewParamBG w; renderPipeline := renderPipeline w;
     renderPassDesc := renderPassDesc w |}.
Definition set_hidden (h : bool) (w : World) : World :=
  {| dev := dev w; hidden := h; camera := camera w; proj := proj w;
     projView := projView w; cube := cube w; vertexBuffer := vertexBuffer w;
     indexBuffer := indexBuffer w; viewParamsBuffer := viewParamsBuffer w;
     sampler := sampler w; colormapTexture := colormapTexture w; volumeTexture := volumeTexture w;
     viewParamBG := viewParamBG w; renderPipeline := renderPipeline w;
     renderPassDesc := renderPassDesc w |}.
Definition set_camera (c : Camera) (w : World) : World :=
  {| dev := dev w; hidden := hidden w; camera := c; proj := proj w;
     projView := projView w; cube := cube w; vertexBuffer := vertexBuffer w;
     indexBuffer := indexBuffer w; viewParamsBuffer := viewParamsBuffer w;
     sampler := sampler w; colormapTexture := colormapTexture w; volumeTexture := volumeTexture w;
     viewParamBG := viewParamBG w; renderPipeline := renderPipeline w;
     renderPassDesc := renderPassDesc w |}.
Definition set_projView (m : list num) (w : World) : World :=
  {| dev := dev w; hidden := hidden w; camera := camera w; proj := proj w;
     projView := m; cube := cube w; vertexBuffer := vertexBuffer w;
     indexBuffer := indexBuffer w; viewParamsBuffer := viewParamsBuffer w;
     sampler := sampler w; colormapTexture := colormapTexture w; volumeTexture := volumeTexture w;
     viewParamBG := viewParamBG w; renderPipeline := renderPipeline w;
     renderPassDesc := renderPassDesc w |}.
Definition set_renderPassDesc (a : ColorAttachment) (w : World) : World :=
  {| dev := dev w; hidden := hidden w; camera := camera w; proj := proj w;
     projView := projView w; cube := cube w; vertexBuffer := vertexBuffer w;
     indexBuffer := indexBuffer w; viewParamsBuffer := viewParamsBuffer w;
     sampler := sampler w; colormapTexture := colormapTexture w; volumeTexture := volumeTexture w;
     viewParamBG := viewParamBG w; renderPipeline := renderPipeline w;
     renderPassDesc := a |}.

(** A device call made by the script. *)
Definition on_dev {A} (m : M Device A) : M World A := zoomM dev set_dev m.

(** *** Start-up (lines 8-207) *)

(** Lines 69-88: the colormap image is decoded and copied into a new
    2-D texture. *)
Definition upload_colormap (image : option (nat * nat)) : M Device nat :=
  match image with
  | None => throw AssetError
  | Some (width, height) =>
      colormapTexture <- createTexture [width; height; 1] "rgba8unorm" "2d";;
      copyExternalImageToTexture colormapTexture;;
      ret colormapTexture
  end.

(** Lines 90-119: the volume texture is created with the dimensions of
    the data set, the fetched bytes are staged in a buffer of their own
    length, and one copy from the buffer to the texture is submitted with
    [bytesPerRow: volumeDims[0]] and [rowsPerImage: volumeDims[1]]. *)
Definition upload_volume (volumeDims : list nat) (volumeData : list Z) : M Device nat :=
  volumeTexture <- createTexture volumeDims "r8unorm" "3d";;
  volumeUploadBuf <- createBuffer (length volumeData) [COPY_SRC] true;;
  getMappedRange volumeUploadBuf;;
  map_set_bytes volumeUploadBuf U8 1 volumeData;;
  unmap volumeUploadBuf;;
  createCommandEncoder;;
  copyBufferToTexture volumeUploadBuf (volumeDims !!! 0) (volumeDims !!! 1)
    volumeTexture volumeDims;;
  submit;;
  ret volumeTexture.

(** Lines 44-188, once the device is there and the shader compiled. *)
Definition setup (h : Host) : M Device World :=
  let cube := the_cube h in
  vertexBuffer <- createBuffer (length (vertices cube) * 4) [VERTEX] true;;
  getMappedRange vertexBuffer;;
  map_set vertexBuffer (vertices cube) 0;;
  unmap vertexBuffer;;
  indexBuffer <- createBuffer (length (indices cube) * 4) [INDEX] true;;
  getMappedRange indexBuffer;;
  map_set_bytes indexBuffer U16 2 (indices cube);;
  unmap indexBuffer;;
  viewParamsBuffer <- createBuffer (20 * 4) [UNIFORM; COPY_DST] false;;
  sampler <- createSampler;;
  colormapTexture <- upload_colormap (colormapImage h);;
  volumeTexture <- upload_volume (volumeDims h) (volumeData h);;
  viewParamBG <- createBindGroup 4
    [ {| binding := 0; resource := BufferBinding viewParamsBuffer |};
      {| binding := 1; resource := TextureView volumeTexture |};
      {| binding := 2; resource := TextureView colormapTexture |};
      {| binding := 3; resource := Sampler sampler |} ];;
  renderPipeline <- createRenderPipeline;;
  d <- get;;
  ret {| dev := d; hidden := hidden0 h; camera := camera0 h; proj := proj0 h;
         projView := mat4_create; cube := cube; vertexBuffer := vertexBuffer;
         indexBuffer := indexBuffer; viewParamsBuffer := viewParamsBuffer;
         sampler := sampler; colormapTexture := colormapTexture; volumeTexture := volumeTexture;
         viewParamBG := viewParamBG; renderPipeline := renderPipeline;
         renderPassDesc := {| view := None; clearValue := background |} |}.

(** Lines 8-43 and the hand-over to the frame loop.  There is no test
    of [adapter] before [adapter.requestDevice()]. *)
Definition main (h : Host) : Outcome World :=
  if negb (navigator_gpu h) then Returned (show_notice (page0 h))
  else
    match adapter h with
    | None => Threw TypeError (page0 h)
    | Some _ =>
        if hadError (compilationMessages h) then Returned (page0 h)
        else
          match setup h empty_device with
          | inl e => Threw e (page0 h)
          | inr (w, d) => Started (set_dev d w) (page0 h)
          end
    end.

(** *** The controller callbacks (lines 190-207) *)

Definition mousemove (prev cur : num * num) (buttons : Z) (w : World) : World :=
  if (buttons =? 1)%Z then set_camera (rotate (camera w) prev cur) w
  else if (buttons =? 2)%Z then
    set_camera (pan (camera w) (sub (fst cur) (fst prev), sub (snd prev) (snd cur))) w
  else w.

Definition wheel (amt : num) (w : World) : World :=
  set_camera (zoom (camera w) amt) w.

Definition pinch := wheel.

Definition twoFingerDrag (drag : num * num) (w : World) : World :=
  set_camera (pan (camera w) drag) w.

(** *** The frame callback (lines 209-240) *)

Definition frame : M World unit :=
  hid <- gets hidden;;
  if negb hid then
    cam <- gets camera;;
    pr <- gets proj;;
    modify (set_projView (mat4_mul pr (camera_matrix cam)));;
    upload <- on_dev (createBuffer (20 * 4) [COPY_SRC] true);;
    cam <- gets camera;;
    let eye := eyePos cam in
    on_dev (getMappedRange upload);;
    pv <- gets projView;;
    on_dev (map_set upload pv 0);;
    on_dev (map_set upload eye (length pv));;
    on_dev (unmap upload);;
    on_dev createCommandEncoder;;
    vpb <- gets viewParamsBuffer;;
    on_dev (copyBufferToBuffer upload 0 vpb 0 (20 * 4));;
    v <- on_dev getCurrentTextureView;;
    modify (λ w, set_renderPassDesc
      {| view := Some v; clearValue := clearValue (renderPassDesc w) |} w);;
    desc <- gets renderPassDesc;;
    on_dev (beginRenderPass desc);;
    p <- gets renderPipeline;;
    on_dev (setPipeline p);;
    bg <- gets viewParamBG;;
    on_dev (setBindGroup 0 bg);;
    vb <- gets vertexBuffer;;
    on_dev (setVertexBuffer 0 vb);;
    ib <- gets indexBuffer;;
    on_dev (setIndexBuffer ib "uint16");;
    c <- gets cube;;
    on_dev (draw (length (vertices c) / 3) 1 0 0);;
    on_dev endPass;;
    on_dev submit
  else ret tt.

(** *** The events of the page *)

Inductive Event :=
| Frame                                          (* the animation-frame callback fires *)
| MouseMove (prev cur : num * num) (buttons : Z)
| Wheel (amt : num)
| Pinch (amt : num)
| TwoFingerDrag (drag : num * num)
| Visibility (hid : bool).                       (* [document.hidden] changes *)

Definition step (e : Event) : M World unit :=
  match e with
  | Frame => frame
  | MouseMove prev cur buttons => modify (mousemove prev cur buttons)
  | Wheel amt => modify (wheel amt)
  | Pinch amt => modify (pinch amt)
  | TwoFingerDrag drag => modify (twoFingerDrag drag)
  | Visibility hid => modify (set_hidden hid)
  end.

Fixpoint run (es : list Event) : M World unit :=
  match es with
  | [] => ret tt
  | e :: es' => step e;; run es'
  end.

End Script.
End VolumeRaycaster.

(** ** src/unnamed/part_000 *)
Module Part000.
Import Gpu.

(** The [await] at which the frame loop is suspended. *)
Inductive Pc :=
| AwaitFrame      (* line 288: [await animationFrame()] *)
| AwaitImage      (* line 317: [await uploadImage(...)] *)
| AwaitMap.       (* line 330: [await upload.mapAsync(GPUMapMode.WRITE)] *)

#[global] Instance Pc_eq_dec : EqDecision Pc.
Proof. solve_decision. Defined.

Section Script.
Context `{Numbers} `{!GlMatrix} `{!ArcballCamera}.

Record Host := {
  navigator_gpu : bool;              (* [navigator.gpu !== undefined] *)
  adapter : option unit;             (* [requestAdapter()]; [None] is [null] *)
  page0 : Page;
  compilationMessages : list string; (* [msg.type] of each message *)
  the_cube : Mesh;                   (* [getCubeMesh()] *)
  location_hash : option string;     (* the data set named after [#], if any *)
  volumes : list string;             (* the keys of [volumes] *)
  colormapImage : option (nat * nat);(* the decoded image's width and height *)
  radarDims : list nat;              (* the extent of the radar volume *)
  radarDataSize : nat;               (* the byte size of its side data *)
  camera0 : Camera;                  (* [new ArcballCamera(defaultEye, center, up, 2, ...)] *)
  proj0 : list num;                  (* [mat4.perspective(...)] *)
  hidden0 : bool;                    (* [document.hidden] when the loop starts *)
  picker0 : string;                  (* [colormapPicker.value] after [fillSelector] *)
  volumePicker0 : string;            (* [volumePicker.value] after [fillSelector] *)
}.

(** The variables that are assigned once, during start-up. *)
Record Vars := {
  proj : list num;
  cube : Mesh;
  vertexBuffer : nat;
  indexBuffer : nat;
  viewParamsBuffer : nat;
  sampler : nat;
  volumeName : string;
  volumeTexture : nat;
  volumeDataBuffer : nat;
  bindGroupEntries : nat;  (* a reference into [heap] *)
  renderPipeline : nat;
  upload : nat;
}.

Record World := {
  dev : Device;
  heap : gmap nat (list Entry);  (* the script's arrays, by reference *)
  hidden : bool;  (* [document.hidden] *)
  pickerValue : string;  (* [colormapPicker.value] *)
  volumePickerValue : string;  (* [volumePicker.value] *)
  camera : Camera;
  projView : list num;
  colormapName : string;
  colormapTexture : nat;
  bindGroup : nat;
  renderPassDesc : ColorAttachment;
  pc : Pc;  (* the [await] the loop is suspended at *)
  vars : Vars;
}.

Definition set_dev (x : Device) (w : World) : World :=
  {| dev := x; heap := heap w; hidden := hidden w; pickerValue := pickerValue w;
     volumePickerValue := volumePickerValue w; camera := camera w; projView := projView
     w; colormapName := colormapName w; colormapTexture := colormapTexture w; bindGroup
     := bindGroup w; renderPassDesc := renderPassDesc w; pc := pc w; vars := vars w |}.
Definition set_heap (x : gmap nat (list Entry)) (w : World) : World :=
  {| dev := dev w; heap := x; hidden := hidden w; pickerValue := pickerValue w;
     volumePickerValue := volumePickerValue w; camera := camera w; projView := projView
     w; colormapName := colormapName w; colormapTexture := colormapTexture w; bindGroup
     := bindGroup w; renderPassDesc := renderPassDesc w; pc := pc w; vars := vars w |}.
Definition set_hidden (x : bool) (w : World) : World :=
  {| dev := dev w; heap := heap w; hidden := x; pickerValue := pickerValue w;
     volumePickerValue := volumePickerValue w; camera := camera w; projView := projView
     w; colormapName := colormapName w; colormapTexture := colormapTexture w; bindGroup
     := bindGroup w; renderPassDesc := renderPassDesc w; pc := pc w; vars := vars w |}.
Definition set_pickerValue (x : string) (w : World) : World :=
  {| dev := dev w; heap := heap w; hidden := hidden w; pickerValue := x;
     volumePickerValue := volumePickerValue w; camera := camera w; projView := projView
     w; colormapName := colormapName w; colormapTexture := colormapTexture w; bindGroup
     := bindGroup w; renderPassDesc := renderPassDesc w; pc := pc w; vars := vars w |}.
Definition set_volumePickerValue (x : string) (w : World) : World :=
  {| dev := dev w; heap := heap w; hidden := hidden w; pickerValue := pickerValue w;
     volumePickerValue := x; camera := camera w; projView := projView w; colormapName :=
     colormapName w; colormapTexture := colormapTexture w; bindGroup := bindGroup w;
     renderPassDesc := renderPassDesc w; pc := pc w; vars := vars w |}.
Definition set_camera (x : Camera) (w : World) : World :=
  {| dev := dev w; heap := heap w; hidden := hidden w; pickerValue := pickerValue w;
     volumePickerValue := volumePickerValue w; camera := x; projView := projView w;
     colormapName := colormapName w; colormapTexture := colormapTexture w; bindGroup :=
     bindGroup w; renderPassDesc := renderPassDesc w; pc := pc w; vars := vars w |}.
Definition set_projView (x : list num) (w : World) : World :=
  {| dev := dev w; heap := heap w; hidden := hidden w; pickerValue := pickerValue w;
     volumePickerValue := volumePickerValue w; camera := camera w; projView := x;
     colormapName := colormapName w; colormapTexture := colormapTexture w; bindGroup :=
     bindGroup w; renderPassDesc := renderPassDesc w; pc := pc w; vars := vars w |}.
Definition set_colormapName (x : string) (w : World) : World :=
  {| dev := dev w; heap := heap w; hidden := hidden w; pickerValue := pickerValue w;
     volumePickerValue := volumePickerValue w; camera := camera w; projView := projView
     w; colormapName := x; colormapTexture := colormapTexture w; bindGroup := bindGroup
     w; renderPassDesc := renderPassDesc w; pc := pc w; vars := vars w |}.
Definition set_colormapTexture (x : nat) (w : World) : World :=
  {| dev := dev w; heap := heap w; hidden := hidden w; pickerValue := pickerValue w;
     volumePickerValue := volumePickerValue w; camera := camera w; projView := projView
     w; colormapName := colormapName w; colormapTexture := x; bindGroup := bindGroup w;
     renderPassDesc := renderPassDesc w; pc := pc w; vars := vars w |}.
Definition set_bindGroup (x : nat) (w : World) : World :=
  {| dev := dev w; heap := heap w; hidden := hidden w; pickerValue := pickerValue w;
     volumePickerValue := volumePickerValue w; camera := camera w; projView := projView
     w; colormapName := colormapName w; colormapTexture := colormapTexture w; bindGroup
     := x; renderPassDesc := renderPassDesc w; pc := pc w; vars := vars w |}.
Definition set_renderPassDesc (x : ColorAttachment) (w : World) : World :=
  {| dev := dev w; heap := heap w; hidden := hidden w; pickerValue := pickerValue w;
     volumePickerValue := volumePickerValue w; camera := camera w; projView := projView
     w; colormapName := colormapName w; colormapTexture := colormapTexture w; bindGroup
     := bindGroup w; renderPassDesc := x; pc := pc w; vars := vars w |}.
Definition set_pc (x : Pc) (w : World) : World :=
  {| dev := dev w; heap := heap w; hidden := hidden w; pickerValue := pickerValue w;
     volumePickerValue := volumePickerValue w; camera := camera w; projView := projView
     w; colormapName := colormapName w; colormapTexture := colormapTexture w; bindGroup
     := bindGroup w; renderPassDesc := renderPassDesc w; pc := x; vars := vars w |}.

Definition on_dev {A} (m : M Device A) : M World A := zoomM dev set_dev m.

(** *** The helpers of volume.js *)

(** Modelled from the spec: [uploadImage(device, url)] of volume.js,
    which is not among the sources.  Section 4.2: it "decodes an image
    asset and uploads it as a 2-D texture", with an asset error when the
    image does not decode; the steps are those of lines 69-88 of
    volume-raycaster.js.  It is given the device and the address only. *)
Definition uploadImage (image : option (nat * nat)) : M Device nat :=
  match image with
  | None => throw AssetError
  | Some (width, height) =>
      texture <- createTexture [width; height; 1] "rgba8unorm" "2d";;
      copyExternalImageToTexture texture;;
      ret texture
  end.

(** Modelled from the spec: [uploadRadarVolume(device)] of volume.js,
    which is not among the sources.  Section 2: the volume store "loads
    or synthesizes a 3-D scalar field and exposes it as a sampleable 3-D
    texture". *)
Definition uploadRadarVolume (dims : list nat) : M Device nat :=
  createTexture dims "r8unorm" "3d".

(** Modelled from the spec: [uploadData(device)] of volume.js, which is
    not among the sources.  Section 2: "an optional auxiliary read-only
    structured buffer carrying per-voxel side data". *)
Definition uploadData (size : nat) : M Device nat :=
  createBuffer size [STORAGE; COPY_DST] false.

(** *** Start-up (lines 19-285) *)

(** Lines 67-95. *)
Definition setup_buffers (h : Host) : M Device (nat * nat * nat * nat) :=
  let cube := the_cube h in
  vertexBuffer <- createBuffer (length (vertices cube) * 4) [VERTEX] true;;
  getMappedRange vertexBuffer;;
  map_set vertexBuffer (vertices cube) 0;;
  unmap vertexBuffer;;
  indexBuffer <- createBuffer (length (indices cube) * 4) [INDEX] true;;
  getMappedRange indexBuffer;;
  map_set_bytes indexBuffer U16 2 (indices cube);;
  unmap indexBuffer;;
  viewParamsBuffer <- createBuffer (20 * 4) [UNIFORM; COPY_DST] false;;
  sampler <- createSampler;;
  ret (vertexBuffer, indexBuffer, viewParamsBuffer, sampler).

(** Lines 111-122: the data set to show; [None] when the page links to
    a data set that [volumes] does not have. *)
Definition linked_volume (h : Host) : option string :=
  match location_hash h with
  | None => Some "Bonsai"%string
  | Some linkedDataset =>
      if bool_decide (linkedDataset ∈ volumes h) then Some linkedDataset else None
  end.

(** Lines 124-285. *)
Definition setup (h : Host) (volumeName : string) (bufs : nat * nat * nat * nat)
  : M Device World :=
  let '(vertexBuffer, indexBuffer, viewParamsBuffer, sampler) := bufs in
  let colormapName := "dBZ Radarscope"%string in
  colormapTexture <- uploadImage (colormapImage h);;
  volumeTexture <- uploadRadarVolume (radarDims h);;
  volumeDataBuffer <- uploadData (radarDataSize h);;
  renderPipeline <- createRenderPipeline;;
  let bindGroupEntries :=
    [ {| binding := 0; resource := BufferBinding viewParamsBuffer |};
      {| binding := 1; resource := TextureView volumeTexture |};
      {| binding := 2; resource := TextureView colormapTexture |};
      {| binding := 3; resource := Sampler sampler |};
      {| binding := 4; resource := BufferBinding volumeDataBuffer |} ] in
  bindGroup <- createBindGroup 5 bindGroupEntries;;
  upload <- createBuffer (20 * 4) [MAP_WRITE; COPY_SRC] false;;
  d <- get;;
  ret {| dev := d; heap := {[ 0 := bindGroupEntries ]};
         hidden := hidden0 h; pickerValue := picker0 h;
         volumePickerValue := volumePicker0 h;
         camera := camera0 h; projView := mat4_create;
         colormapName := colormapName; colormapTexture := colormapTexture;
         bindGroup := bindGroup;
         renderPassDesc := {| view := None; clearValue := background |};
         pc := AwaitFrame;
         vars := {| proj := proj0 h; cube := the_cube h;
                    vertexBuffer := vertexBuffer; indexBuffer := indexBuffer;
                    viewParamsBuffer := viewParamsBuffer; sampler := sampler;
                    volumeName := volumeName; volumeTexture := volumeTexture;
                    volumeDataBuffer := volumeDataBuffer; bindGroupEntries := 0;
                    renderPipeline := renderPipeline; upload := upload |} |}.

Definition main (h : Host) : Outcome World :=
  if negb (navigator_gpu h) then Returned (show_notice (page0 h))
  else
    match adapter h with
    | None => Returned (show_notice (page0 h))
    | Some _ =>
        if hadError (compilationMessages h) then Returned (page0 h)
        else
          match setup_buffers h empty_device with
          | inl e => Threw e (page0 h)
          | inr (bufs, d) =>
              match linked_volume h with
              | None => Returned (page0 h)
              | Some volumeName =>
                  match setup h volumeName bufs d with
                  | inl e => Threw e (page0 h)
                  | inr (w, d') => Started (set_dev d' w) (page0 h)
                  end
              end
          end
    end.

(** *** The controller callbacks (lines 243-259) *)

Definition mousemove (prev cur : num * num) (buttons : Z) (w : World) : World :=
  if (buttons =? 1)%Z then set_camera (rotate (camera w) prev cur) w
  else if (buttons =? 2)%Z then
    set_camera (pan (camera w) (sub (fst cur) (fst prev), sub (snd prev) (snd cur))) w
  else w.

Definition wheel (amt : num) (w : World) : World :=
  set_camera (zoom (camera w) amt) w.

Definition pinch := wheel.

Definition twoFingerDrag (drag : num * num) (w : World) : World :=
  set_camera (pan (camera w) drag) w.

(** *** The frame loop (lines 287-354), from one [await] to the next *)

(** [bindGroupEntries[i].resource = r]: the entry object of the array
    that [bindGroupEntries] refers to is assigned in place. *)
Definition assign_resource (i : nat) (r : Resource) : M World unit :=
  w <- get;;
  match heap w !! bindGroupEntries (vars w) with
  | Some entries =>
      match entries !! i with
      | Some e =>
          modify (set_heap
            (<[bindGroupEntries (vars w) :=
                 <[i := {| binding := binding e; resource := r |}]> entries]> (heap w)))
      | None => throw TypeError
      end
  | None => throw TypeError
  end.

Definition read_entries : M World (list Entry) :=
  w <- get;;
  match heap w !! bindGroupEntries (vars w) with
  | Some entries => ret entries
  | None => throw TypeError
  end.

(** Lines 326-330: [projView] is recomputed and the staging buffer is
    asked to map; the loop then waits for the mapping. *)
Definition update_camera_buffer : M World unit :=
  w <- get;;
  modify (set_projView (mat4_mul (proj (vars w)) (camera_matrix (camera w))));;
  on_dev (mapAsync (upload (vars w)));;
  modify (set_pc AwaitMap).

(** Lines 289-317, entered when the animation frame arrives. *)
Definition after_frame : M World unit :=
  w <- get;;
  if hidden w then ret tt
  else if negb (String.eqb (colormapName w) (pickerValue w)) then
    modify (set_colormapName (pickerValue w));;
    modify (set_pc AwaitImage)
  else update_camera_buffer.

(** Lines 317-323, once [uploadImage] has settled: the body of the
    test on the selected colormap. *)
Definition swap_colormap (image : option (nat * nat)) : M World unit :=
  texture <- on_dev (uploadImage image);;
  modify (set_colormapTexture texture);;
  assign_resource 2 (TextureView texture);;
  entries <- read_entries;;
  bg <- on_dev (createBindGroup 5 entries);;
  modify (set_bindGroup bg).

(** Lines 317-330, entered when [uploadImage] settles. *)
Definition after_image (image : option (nat * nat)) : M World unit :=
  swap_colormap image;;
  update_camera_buffer.

(** Lines 331-353, entered when the mapping is there. *)
Definition after_map : M World unit :=
  w <- get;;
  let v := vars w in
  on_dev (mapResolved (upload v));;
  let eye := eyePos (camera w) in
  on_dev (getMappedRange (upload v));;
  on_dev (map_set (upload v) (projView w) 0);;
  on_dev (map_set (upload v) eye (length (projView w)));;
  on_dev (unmap (upload v));;
  on_dev createCommandEncoder;;
  on_dev (copyBufferToBuffer (upload v) 0 (viewParamsBuffer v) 0 (20 * 4));;
  sv <- on_dev getCurrentTextureView;;
  modify (λ w, set_renderPassDesc
    {| view := Some sv; clearValue := clearValue (renderPassDesc w) |} w);;
  desc <- gets renderPassDesc;;
  on_dev (beginRenderPass desc);;
  on_dev (setPipeline (renderPipeline v));;
  bg <- gets bindGroup;;
  on_dev (setBindGroup 0 bg);;
  on_dev (setVertexBuffer 0 (vertexBuffer v));;
  on_dev (setIndexBuffer (indexBuffer v) "uint16");;
  on_dev (draw (length (vertices (cube v)) / 3) 1 0 0);;
  on_dev endPass;;
  on_dev submit;;
  modify (set_pc AwaitFrame).

(** *** The events of the page *)

Inductive Event :=
| Frame                                          (* the animation frame arrives *)
| ImageLoaded (image : option (nat * nat))      (* [uploadImage] settles *)
| MapResolved                                    (* [mapAsync] settles *)
| MouseMove (prev cur : num * num) (buttons : Z)
| Wheel (amt : num)
| Pinch (amt : num)
| TwoFingerDrag (drag : num * num)
| Pick (name : string)                           (* the colormap selector changes *)
| PickVolume (name : string)                     (* the data set selector changes *)
| Visibility (hid : bool).                       (* [document.hidden] changes *)

(** A promise resumes the loop only at the [await] that waits for it. *)
Definition resume (at_ : Pc) (k : M World unit) : M World unit :=
  w <- get;;
  if decide (pc w = at_) then k else ret tt.

Definition step (e : Event) : M World unit :=
  match e with
  | Frame => resume AwaitFrame after_frame
  | ImageLoaded image => resume AwaitImage (after_image image)
  | MapResolved => resume AwaitMap after_map
  | MouseMove prev cur buttons => modify (mousemove prev cur buttons)
  | Wheel amt => modify (wheel amt)
  | Pinch amt => modify (pinch amt)
  | TwoFingerDrag drag => modify (twoFingerDrag drag)
  | Pick name => modify (set_pickerValue name)
  | PickVolume name => modify (set_volumePickerValue name)
  | Visibility hid => modify (set_hidden hid)
  end.

Fixpoint run (es : list Event) : M World unit :=
  match es with
  | [] => ret tt
  | e :: es' => step e;; run es'
  end.

End Script.
End Part000.

(** ** What a frame of volume-raycaster.js is expected to do *)
Module VolumeRaycasterSpec.
Import Gpu VolumeRaycaster.

Section Spec.
Context `{Numbers} `{!GlMatrix} `{!ArcballCamera}.

(** The view-parameter record of a frame: the 16 cells of the
    projection-view matrix, the eye position, and the cell that is left. *)
Definition record (w : World) : list num :=
  mat4_mul (proj w) (camera_matrix (camera w)) ++ eyePos (camera w) ++ [zero].

(** The resource set created at start-up. *)
Definition entries (w : World) : list Entry :=
  [ {| binding := 0; resource := BufferBinding (viewParamsBuffer w) |};
    {| binding := 1; resource := TextureView (volumeTexture w) |};
    {| binding := 2; resource := TextureView (colormapTexture w) |};
    {| binding := 3; resource := Sampler (sampler w) |} ].

Definition attachment (w : World) : ColorAttachment :=
  {| view := Some (surface (dev w)); clearValue := clearValue (renderPassDesc w) |}.

Definition pass_cmds (w : World) : list PassCmd :=
  [ SetPipeline (renderPipeline w);
    SetBindGroup 0 (viewParamBG w);
    SetVertexBuffer 0 (vertexBuffer w);
    SetIndexBuffer (indexBuffer w) "uint16";
    Draw (length (vertices (cube w)) / 3) 1 0 0 ].

(** The one command buffer a frame submits: the copy, then the pass. *)
Definition frame_cmds (w : World) : list Cmd :=
  [ CopyBufferToBuffer (next_id (dev w)) 0 (viewParamsBuffer w) 0 (20 * 4);
    RenderPass (attachment w) (pass_cmds w) ].

(** The calls of a frame, in order; [next_id (dev w)] is the staging
    buffer the frame creates. *)
Definition frame_calls (w : World) : list Call :=
  let upload := next_id (dev w) in
  [ c_createBuffer upload (20 * 4) [COPY_SRC] true;
    c_getMappedRange upload;
    c_set upload 0 16;
    c_set upload 16 3;
    c_unmap upload;
    c_createCommandEncoder;
    c_copyBufferToBuffer upload 0 (viewParamsBuffer w) 0 (20 * 4);
    c_getCurrentTexture (surface (dev w));
    c_beginRenderPass (attachment w) ]
  ++ map c_pass (pass_cmds w)
  ++ [ c_end; c_submit (frame_cmds w) ].

(** What the draw of the frame is executed with. *)
Definition observation (w : World) : Observation :=
  {| obs_clear := clearValue (renderPassDesc w);
     obs_pipeline := Some (renderPipeline w);
     obs_bindings := Some (entries w);
     obs_uniform := Some (record w);
     obs_vertexBuffer := Some (vertexBuffer w);
     obs_indexBuffer := Some (indexBuffer w);
     obs_draw := Draw (length (vertices (cube w)) / 3) 1 0 0 |}.

(** The state [w'] after a frame that started visible in [w]. *)
Record FramePost (w w' : World) : Prop := {
  fp_hidden : hidden w' = hidden w;
  fp_camera : camera w' = camera w;
  fp_proj : proj w' = proj w;
  fp_projView : projView w' = mat4_mul (proj w) (camera_matrix (camera w));
  fp_cube : cube w' = cube w;
  fp_vertexBuffer : vertexBuffer w' = vertexBuffer w;
  fp_indexBuffer : indexBuffer w' = indexBuffer w;
  fp_viewParamsBuffer : viewParamsBuffer w' = viewParamsBuffer w;
  fp_sampler : sampler w' = sampler w;
  fp_colormapTexture : colormapTexture w' = colormapTexture w;
  fp_volumeTexture : volumeTexture w' = volumeTexture w;
  fp_viewParamBG : viewParamBG w' = viewParamBG w;
  fp_renderPipeline : renderPipeline w' = renderPipeline w;
  fp_renderPassDesc : renderPassDesc w' = attachment w;
  fp_next_id : next_id (dev w') = S (next_id (dev w));
  fp_staging :
    buffers (dev w') !! next_id (dev w)
    = Some {| buf_size := 20 * 4; buf_usage := [COPY_SRC]; buf_map := Unmapped;
              buf_data := F32 (record w) |};
  fp_uniform :
    ∃ b, buffers (dev w) !! viewParamsBuffer w = Some b
         ∧ buffers (dev w') !! viewParamsBuffer w
           = Some {| buf_size := buf_size b; buf_usage := buf_usage b;
                     buf_map := Unmapped; buf_data := F32 (record w) |};
  fp_buffers : ∀ k, k ≠ next_id (dev w) → k ≠ viewParamsBuffer w →
    buffers (dev w') !! k = buffers (dev w) !! k;
  fp_textures : textures (dev w') = textures (dev w);
  fp_bindGroups : bindGroups (dev w') = bindGroups (dev w);
  fp_pass : pass (dev w') = None;
  fp_calls : calls (dev w') = calls (dev w) ++ frame_calls w;
  fp_presented : presented (dev w') = presented (dev w) ++ [observation w];
}.

(** What holds of every state the script reaches. *)
Record Inv (w : World) : Prop := {
  inv_uniform :
    ∃ b cells, buffers (dev w) !! viewParamsBuffer w = Some b
      ∧ buf_size b = 20 * 4 ∧ buf_map b = Unmapped ∧ COPY_DST ∈ buf_usage b
      ∧ f32_view b = Some cells ∧ length cells = 20;
  inv_bound : bindGroups (dev w) !! viewParamBG w = Some (entries w);
  inv_fresh : ∀ k, next_id (dev w) ≤ k → buffers (dev w) !! k = None;
  inv_pass : pass (dev w) = None;
  inv_clear : clearValue (renderPassDesc w) = background;
}.

(** What the inline volume upload leaves behind when it goes through:
    the staging buffer holds the fetched bytes as they came, and the one
    command submitted copies from it with a row pitch of the volume's
    width. *)
Definition staged (w h dp : nat) (data : list Z) (d d' : Device) : Prop :=
  buffers d' !! S (next_id d)
    = Some {| buf_size := length data; buf_usage := [COPY_SRC];
              buf_map := Unmapped; buf_data := U8 data |}
  ∧ last (calls d')
    = Some (c_submit [CopyBufferToTexture (S (next_id d)) w h (next_id d) [w; h; dp]]).

End Spec.
End VolumeRaycasterSpec.

(** ** What the frame loop of part_000 is expected to do *)
Module Part000Spec.
Import Gpu Part000.

Section Spec.
Context `{Numbers} `{!GlMatrix} `{!ArcballCamera}.

(** The bound tuple: uniform buffer, volume texture, colormap texture,
    sampler, storage buffer. *)
Definition entries (w : World) : list Entry :=
  [ {| binding := 0; resource := BufferBinding (viewParamsBuffer (vars w)) |};
    {| binding := 1; resource := TextureView (volumeTexture (vars w)) |};
    {| binding := 2; resource := TextureView (colormapTexture w) |};
    {| binding := 3; resource := Sampler (sampler (vars w)) |};
    {| binding := 4; resource := BufferBinding (volumeDataBuffer (vars w)) |} ].

(** The view-parameter record written once the staging buffer is
    mapped: [projView] as the frame recomputed it, the eye position read
    then, and the cell that is left. *)
Definition record (w : World) : list num :=
  projView w ++ eyePos (camera w) ++ [zero].

Definition attachment (w : World) : ColorAttachment :=
  {| view := Some (surface (dev w)); clearValue := clearValue (renderPassDesc w) |}.

Definition pass_cmds (w : World) : list PassCmd :=
  [ SetPipeline (renderPipeline (vars w));
    SetBindGroup 0 (bindGroup w);
    SetVertexBuffer 0 (vertexBuffer (vars w));
    SetIndexBuffer (indexBuffer (vars w)) "uint16";
    Draw (length (vertices (cube (vars w))) / 3) 1 0 0 ].

(** The one command buffer a frame submits: the copy, then the pass. *)
Definition frame_cmds (w : World) : list Cmd :=
  [ CopyBufferToBuffer (upload (vars w)) 0 (viewParamsBuffer (vars w)) 0 (20 * 4);
    RenderPass (attachment w) (pass_cmds w) ].

(** The calls of a frame from the moment the mapping is there. *)
Definition map_calls (w : World) : list Call :=
  let u := upload (vars w) in
  [ c_mapResolved u;
    c_getMappedRange u;
    c_set u 0 16;
    c_set u 16 3;
    c_unmap u;
    c_createCommandEncoder;
    c_copyBufferToBuffer u 0 (viewParamsBuffer (vars w)) 0 (20 * 4);
    c_getCurrentTexture (surface (dev w));
    c_beginRenderPass (attachment w) ]
  ++ map c_pass (pass_cmds w)
  ++ [ c_end; c_submit (frame_cmds w) ].

(** What the draw of the frame is executed with. *)
Definition observation (w : World) : Observation :=
  {| obs_clear := clearValue (renderPassDesc w);
     obs_pipeline := Some (renderPipeline (vars w));
     obs_bindings := Some (entries w);
     obs_uniform := Some (record w);
     obs_vertexBuffer := Some (vertexBuffer (vars w));
     obs_indexBuffer := Some (indexBuffer (vars w));
     obs_draw := Draw (length (vertices (cube (vars w))) / 3) 1 0 0 |}.

Definition with_map (st : MapState) (b : Buffer) : Buffer :=
  {| buf_size := buf_size b; buf_usage := buf_usage b; buf_map := st;
     buf_data := buf_data b |}.

Definition with_cells (cells : list num) (b : Buffer) : Buffer :=
  {| buf_size := buf_size b; buf_usage := buf_usage b; buf_map := Unmapped;
     buf_data := F32 cells |}.

(** The state after lines 326-330: [projView] recomputed from the
    camera as it is now, the staging buffer asked to map. *)
Definition recomputed (w : World) : World :=
  let d := dev w in
  set_pc AwaitMap
    (set_dev
       (set_calls (calls d ++ [c_mapAsync (upload (vars w))])
          (set_buffers (alter (with_map Pending) (upload (vars w)) (buffers d)) d))
       (set_projView (mat4_mul (proj (vars w)) (camera_matrix (camera w))) w)).

(** The state after lines 317-323: a new texture, the entry of slot 2
    of the array assigned, a new bind group made of the array. *)
Definition swapped (width height : nat) (w : World) : World :=
  let d := dev w in
  let texture := next_id d in
  let bg := S texture in
  let patched :=
    <[2 := {| binding := 2; resource := TextureView texture |}]> (entries w) in
  set_bindGroup bg
    (set_heap (<[bindGroupEntries (vars w) := patched]> (heap w))
       (set_colormapTexture texture
          (set_dev
             (set_calls (calls d ++ [c_createTexture texture;
                                     c_copyExternalImageToTexture texture;
                                     c_createBindGroup bg])
                (set_bindGroups (<[bg := patched]> (bindGroups d))
                   (set_textures
                      (<[texture := {| tex_size := [width; height; 1];
                                       tex_format := "rgba8unorm";
                                       tex_dimension := "2d";
                                       tex_destroyed := false |}]> (textures d))
                      (set_next_id (S bg) d))))
             w))).

(** The state after lines 331-353: the record staged, copied and drawn. *)
Definition drawn (w : World) : World :=
  let d := dev w in
  let v := vars w in
  set_pc AwaitFrame
    (set_renderPassDesc (attachment w)
       (set_dev
          (set_presented (presented d ++ [observation w])
             (set_calls (calls d ++ map_calls w)
                (set_surface (S (surface d))
                   (set_pass None
                      (set_encoder []
                         (set_buffers
                            (alter (with_cells (record w)) (viewParamsBuffer v)
                               (alter (with_cells (record w)) (upload v) (buffers d)))
                            d))))))
          w)).

(** What holds of every state the script reaches. *)
Record Inv (w : World) : Prop := {
  inv_uniform :
    ∃ b cells, buffers (dev w) !! viewParamsBuffer (vars w) = Some b
      ∧ buf_size b = 20 * 4 ∧ buf_map b = Unmapped ∧ COPY_DST ∈ buf_usage b
      ∧ f32_view b = Some cells ∧ length cells = 20;
  inv_upload :
    ∃ u cells, buffers (dev w) !! upload (vars w) = Some u
      ∧ buf_size u = 20 * 4 ∧ buf_usage u = [MAP_WRITE; COPY_SRC]
      ∧ buf_map u = (if decide (pc w = AwaitMap) then Pending else Unmapped)
      ∧ f32_view u = Some cells ∧ length cells = 20 ∧ cells !! 19 = Some zero;
  inv_distinct : upload (vars w) ≠ viewParamsBuffer (vars w);
  inv_heap : heap w !! bindGroupEntries (vars w) = Some (entries w);
  inv_bound : bindGroups (dev w) !! bindGroup w = Some (entries w);
  inv_volume : is_Some (textures (dev w) !! volumeTexture (vars w));
  inv_colormap : is_Some (textures (dev w) !! colormapTexture w);
  inv_data : is_Some (buffers (dev w) !! volumeDataBuffer (vars w));
  inv_live : ∀ k tx, textures (dev w) !! k = Some tx → tex_destroyed tx = false;
  inv_fresh : ∀ k, next_id (dev w) ≤ k →
    buffers (dev w) !! k = None ∧ textures (dev w) !! k = None
    ∧ bindGroups (dev w) !! k = None;
  inv_pass : pass (dev w) = None;
  inv_projView : length (projView w) = 16;
  inv_clear : clearValue (renderPassDesc w) = background;
  inv_no_destroy : ∀ id, c_destroy id ∉ calls (dev w);
  inv_pending : pc w = AwaitMap →
    ∃ cl, calls (dev w) = cl ++ [c_mapAsync (upload (vars w))];
}.

End Spec.
End Part000Spec.

(** ** Terms in which the properties of the frame loop are stated *)
Module Terms.
Import Gpu.


Definition is_destroy (c : Call) : bool :=
  match c with
  | c_destroy _ => true
  | _ => false
  end.

(** The draws of a render pass. *)
Definition is_draw (c : PassCmd) : bool :=
  match c with
  | Draw _ _ _ _ | DrawIndexed _ _ _ _ _ => true
  | _ => false
  end.

Definition is_indexed (c : PassCmd) : bool :=
  match c with
  | DrawIndexed _ _ _ _ _ => true
  | _ => false
  end.

(** What can happen on the page of part_000 while it is hidden and the
    loop waits for the next animation frame: animation frames, and
    changes of the two selectors. *)
Inductive Idle :=
| IdleFrame
| IdlePick (name : string)
| IdlePickVolume (name : string).

Definition idle_event `{Numbers} (i : Idle) : Part000.Event :=
  match i with
  | IdleFrame => Part000.Frame
  | IdlePick name => Part000.Pick name
  | IdlePickVolume name => Part000.PickVolume name
  end.

(** The colormap selected after a list of such events. *)
Fixpoint picked (evs : list Idle) (current : string) : string :=
  match evs with
  | [] => current
  | IdlePick name :: evs' => picked evs' name
  | _ :: evs' => picked evs' current
  end.

(** The frames of a list of events of volume-raycaster.js that find the
    page visible, [hid] being [document.hidden] before the first one. *)
Fixpoint visible_frames `{Numbers} (hid : bool) (es : list VolumeRaycaster.Event)
  : nat :=
  match es with
  | [] => 0
  | VolumeRaycaster.Frame :: es' => (if hid then 0 else 1) + visible_frames hid es'
  | VolumeRaycaster.Visibility hid' :: es' => visible_frames hid' es'
  | _ :: es' => visible_frames hid es'
  end.

(** What separates a state [w'] of volume-raycaster.js from an earlier
    state [w] when [n] frames have run in between while the page was
    visible. *)
Record Grown `{Numbers} `{!GlMatrix} `{!ArcballCamera}
  (n : nat) (w w' : VolumeRaycaster.World) : Prop := {
  gr_next_id :
    next_id (VolumeRaycaster.dev w') = next_id (VolumeRaycaster.dev w) + n;
  gr_size :
    size (buffers (VolumeRaycaster.dev w'))
    = size (buffers (VolumeRaycaster.dev w)) + n;
  gr_presented :
    length (presented (VolumeRaycaster.dev w'))
    = length (presented (VolumeRaycaster.dev w)) + n;
  gr_calls :
    ∃ new, calls (VolumeRaycaster.dev w') = calls (VolumeRaycaster.dev w) ++ new
           ∧ filter is_destroy new = [];
  gr_kept : ∀ k, k < next_id (VolumeRaycaster.dev w) →
    k ≠ VolumeRaycaster.viewParamsBuffer w →
    buffers (VolumeRaycaster.dev w') !! k = buffers (VolumeRaycaster.dev w) !! k;
  gr_textures :
    textures (VolumeRaycaster.dev w') = textures (VolumeRaycaster.dev w);
  gr_bindGroups :
    bindGroups (VolumeRaycaster.dev w') = bindGroups (VolumeRaycaster.dev w);
  gr_cube : VolumeRaycaster.cube w' = VolumeRaycaster.cube w;
  gr_proj : VolumeRaycaster.proj w' = VolumeRaycaster.proj w;
  gr_vertexBuffer : VolumeRaycaster.vertexBuffer w' = VolumeRaycaster.vertexBuffer w;
  gr_indexBuffer : VolumeRaycaster.indexBuffer w' = VolumeRaycaster.indexBuffer w;
  gr_viewParamsBuffer :
    VolumeRaycaster.viewParamsBuffer w' = VolumeRaycaster.viewParamsBuffer w;
  gr_sampler : VolumeRaycaster.sampler w' = VolumeRaycaster.sampler w;
  gr_colormapTexture :
    VolumeRaycaster.colormapTexture w' = VolumeRaycaster.colormapTexture w;
  gr_volumeTexture :
    VolumeRaycaster.volumeTexture w' = VolumeRaycaster.volumeTexture w;
  gr_viewParamBG : VolumeRaycaster.viewParamBG w' = VolumeRaycaster.viewParamBG w;
  gr_renderPipeline :
    VolumeRaycaster.renderPipeline w' = VolumeRaycaster.renderPipeline w;
}.

End Terms.

(** ** A small integer model of the libraries

    Numbers are integers, a matrix product is the integer product of
    column-major 4×4 matrices, and the camera is an eye position looking
    down the z axis.  It serves to run the scripts on concrete pages. *)
Module Sample.

#[export] Instance ZNumbers : Numbers := {| num := Z; zero := 0%Z; sub := Z.sub |}.

Definition zmul (a b : list Z) : list Z :=
  map (λ i, foldr Z.add 0%Z
              (map (λ k, (nth (4 * k + i mod 4) a 0 * nth (4 * (i / 4) + k) b 0)%Z)
                   (seq 0 4)))
      (seq 0 16).

#[export] Program Instance ZGlMatrix : GlMatrix :=
  {| mat4_create := [1;0;0;0; 0;1;0;0; 0;0;1;0; 0;0;0;1]%Z; mat4_mul := zmul |}.
Next Obligation. reflexivity. Qed.
Next Obligation. intros. unfold zmul. by rewrite length_map, length_seq. Qed.

#[export] Program Instance ZCamera : ArcballCamera :=
  {| Camera := Z * Z * Z;
     camera_matrix := λ '(x, y, z), [1;0;0;0; 0;1;0;0; 0;0;1;0; -x; -y; -z; 1]%Z;
     eyePos := λ '(x, y, z), [x; y; z];
     rotate := λ '(x, y, z) prev cur, (z, y, (-x)%Z);
     pan := λ '(x, y, z) d, ((x + fst d)%Z, (y + snd d)%Z, z);
     zoom := λ '(x, y, z) amt, (x, y, (z + amt)%Z) |}.
Next Obligation. by intros [[x y] z]. Qed.

Definition page : Page := {| canvas_style := "display:block;"; no_webgpu_style := "display:none;" |}.

Definition strip : Mesh :=
  {| vertices := [1;1;0; 0;1;0; 1;1;1; 0;1;1]%Z; indices := [0;1;2;3]%Z |}.

(** A page on which volume-raycaster.js starts: a 256×2×2 volume. *)
Definition host1 : VolumeRaycaster.Host :=
  {| VolumeRaycaster.navigator_gpu := true;
     VolumeRaycaster.adapter := Some tt;
     VolumeRaycaster.page0 := page;
     VolumeRaycaster.compilationMessages := [];
     VolumeRaycaster.the_cube := strip;
     VolumeRaycaster.colormapImage := Some (180, 1);
     VolumeRaycaster.volumeDims := [256; 2; 2];
     VolumeRaycaster.volumeData := replicate 1024 7%Z;
     VolumeRaycaster.camera0 := (0, 0, 2)%Z;
     VolumeRaycaster.proj0 := [2;0;0;0; 0;2;0;0; 0;0;1;0; 0;0;0;1]%Z;
     VolumeRaycaster.hidden0 := false |}.

(** The same page where [requestAdapter()] resolves to [null]. *)
Definition host1_no_adapter : VolumeRaycaster.Host :=
  {| VolumeRaycaster.navigator_gpu := true;
     VolumeRaycaster.adapter := None;
     VolumeRaycaster.page0 := page;
     VolumeRaycaster.compilationMessages := [];
     VolumeRaycaster.the_cube := strip;
     VolumeRaycaster.colormapImage := Some (180, 1);
     VolumeRaycaster.volumeDims := [256; 2; 2];
     VolumeRaycaster.volumeData := replicate 1024 7%Z;
     VolumeRaycaster.camera0 := (0, 0, 2)%Z;
     VolumeRaycaster.proj0 := [2;0;0;0; 0;2;0;0; 0;0;1;0; 0;0;0;1]%Z;
     VolumeRaycaster.hidden0 := false |}.

(** A page on which part_000 starts, the selector on the colormap that
    is loaded at start-up. *)
Definition host2 : Part000.Host :=
  {| Part000.navigator_gpu := true;
     Part000.adapter := Some tt;
     Part000.page0 := page;
     Part000.compilationMessages := [];
     Part000.the_cube := strip;
     Part000.location_hash := None;
     Part000.volumes := ["Bonsai"; "Foot"]%string;
     Part000.colormapImage := Some (180, 1);
     Part000.radarDims := [500; 500; 40];
     Part000.radarDataSize := 64;
     Part000.camera0 := (0, 0, 2)%Z;
     Part000.proj0 := [2;0;0;0; 0;2;0;0; 0;0;1;0; 0;0;0;1]%Z;
     Part000.hidden0 := false;
     Part000.picker0 := "dBZ Radarscope";
     Part000.volumePicker0 := "Bonsai" |}.

Definition host2_no_adapter : Part000.Host :=
  {| Part000.navigator_gpu := true;
     Part000.adapter := None;
     Part000.page0 := page;
     Part000.compilationMessages := [];
     Part000.the_cube := strip;
     Part000.location_hash := None;
     Part000.volumes := ["Bonsai"; "Foot"]%string;
     Part000.colormapImage := Some (180, 1);
     Part000.radarDims := [500; 500; 40];
     Part000.radarDataSize := 64;
     Part000.camera0 := (0, 0, 2)%Z;
     Part000.proj0 := [2;0;0;0; 0;2;0;0; 0;0;1;0; 0;0;0;1]%Z;
     Part000.hidden0 := false;
     Part000.picker0 := "dBZ Radarscope";
     Part000.volumePicker0 := "Bonsai" |}.

(** The state in which the frame loop is entered, and the state a list
    of events leads to. *)
Definition start1 : option VolumeRaycaster.World :=
  match VolumeRaycaster.main host1 with
  | Started w _ => Some w
  | _ => None
  end.

Definition after1 (es : list VolumeRaycaster.Event) : option VolumeRaycaster.World :=
  match start1 with
  | Some w0 =>
      match VolumeRaycaster.run es w0 with
      | inr (_, w) => Some w
      | inl _ => None
      end
  | None => None
  end.

Definition start2 : option Part000.World :=
  match Part000.main host2 with
  | Started w _ => Some w
  | _ => None
  end.

Definition after2 (es : list Part000.Event) : option Part000.World :=
  match start2 with
  | Some w0 =>
      match Part000.run es w0 with
      | inr (_, w) => Some w
      | inl _ => None
      end
  | None => None
  end.

(** The page of [host1] with the given shader compilation messages. *)
Definition host1_logging (msgs : list string) : VolumeRaycaster.Host :=
  {| VolumeRaycaster.navigator_gpu := true;
     VolumeRaycaster.adapter := Some tt;
     VolumeRaycaster.page0 := page;
     VolumeRaycaster.compilationMessages := msgs;
     VolumeRaycaster.the_cube := strip;
     VolumeRaycaster.colormapImage := Some (180, 1);
     VolumeRaycaster.volumeDims := [256; 2; 2];
     VolumeRaycaster.volumeData := replicate 1024 7%Z;
     VolumeRaycaster.camera0 := (0, 0, 2)%Z;
     VolumeRaycaster.proj0 := [2;0;0;0; 0;2;0;0; 0;0;1;0; 0;0;0;1]%Z;
     VolumeRaycaster.hidden0 := false |}.

(** The page of [host2] with the given shader compilation messages,
    link in its address and value of the colormap selector. *)
Definition host2_at (msgs : list string) (hash : option string) (picker : string)
  : Part000.Host :=
  {| Part000.navigator_gpu := true;
     Part000.adapter := Some tt;
     Part000.page0 := page;
     Part000.compilationMessages := msgs;
     Part000.the_cube := strip;
     Part000.location_hash := hash;
     Part000.volumes := ["Bonsai"; "Foot"]%string;
     Part000.colormapImage := Some (180, 1);
     Part000.radarDims := [500; 500; 40];
     Part000.radarDataSize := 64;
     Part000.camera0 := (0, 0, 2)%Z;
     Part000.proj0 := [2;0;0;0; 0;2;0;0; 0;0;1;0; 0;0;0;1]%Z;
     Part000.hidden0 := false;
     Part000.picker0 := picker;
     Part000.volumePicker0 := "Bonsai" |}.

End Sample.
(** * Proofs *)

(** ** Typed arrays *)

Lemma ta_set_length {A} (t s t' : list A) off :
  ta_set t s off = Some t' → length t' = length t.
Proof.
  unfold ta_set. case_decide; [|done]. intros [= <-].
  rewrite !length_app, length_take, length_drop. lia.
Qed.

Lemma ta_set_lookup_in {A} (t s t' : list A) off i :
  ta_set t s off = Some t' → off ≤ i < off + length s → t' !! i = s !! (i - off).
Proof.
  unfold ta_set. case_decide; [|done]. intros [= <-] Hi.
  rewrite lookup_app_r by (rewrite length_take; lia).
  rewrite length_take, Nat.min_l by lia.
  rewrite lookup_app_l by lia. done.
Qed.

Lemma ta_set_lookup_out {A} (t s t' : list A) off i :
  ta_set t s off = Some t' → i < off ∨ off + length s ≤ i → t' !! i = t !! i.
Proof.
  unfold ta_set. case_decide; [|done]. intros [= <-] [Hi|Hi].
  - rewrite lookup_app_l by (rewrite length_take; lia).
    by rewrite lookup_take_lt.
  - rewrite lookup_app_r by (rewrite length_take; lia).
    rewrite length_take, Nat.min_l by lia.
    rewrite lookup_app_r by lia.
    rewrite lookup_drop. f_equal. lia.
Qed.

(** The two writes of a frame into the 20 cells of the staging buffer:
    16 cells from cell 0, then 3 cells from cell 16.  Cell 19 keeps what
    it held. *)
Lemma staging_write {A} (cells pv eye : list A) :
  length cells = 20 → length pv = 16 → length eye = 3 →
  ∃ c1, ta_set cells pv 0 = Some c1 ∧
        ta_set c1 eye (length pv) = Some (pv ++ eye ++ drop 19 cells).
Proof.
  intros Hc Hp He. eexists. split.
  - unfold ta_set. rewrite decide_True by lia. reflexivity.
  - unfold ta_set. rewrite take_0. cbn [app].
    rewrite decide_True by (rewrite !length_app, length_drop; lia).
    rewrite take_app_length. do 3 f_equal.
    rewrite drop_app_ge by lia. rewrite drop_drop. f_equal. lia.
Qed.

Lemma drop_19_of_20 {A} (cells : list A) (x : A) :
  length cells = 20 → cells !! 19 = Some x → drop 19 cells = [x].
Proof.
  intros Hl Hx.
  do 20 (destruct cells as [|? cells]; [done|]).
  destruct cells; [|done]. by injection Hx as ->.
Qed.

(** The copy of all 80 bytes of one buffer onto another replaces the 20
    cells of the destination. *)
Lemma copy_whole {A} (cells r : list A) :
  length cells = 20 → length r = 20 →
  ta_set cells (take ((20 * 4) `div` 4) (drop (0 `div` 4) r)) (0 `div` 4) = Some r.
Proof.
  intros Hc Hr. change ((20 * 4) `div` 4) with 20. change (0 `div` 4) with 0.
  rewrite drop_0, take_ge by lia. unfold ta_set.
  rewrite decide_True by lia. rewrite take_0, drop_ge by lia.
  by rewrite app_nil_r.
Qed.

Lemma record_length `{Numbers} `{!GlMatrix} `{!ArcballCamera}
  (pr : list num) (c : Camera) (x : list num) :
  length x = 1 → length (mat4_mul pr (camera_matrix c) ++ eyePos c ++ x) = 20.
Proof. intros Hx. by rewrite !length_app, mat4_mul_length, eyePos_length, Hx. Qed.

(** A call that is none of the listed ones is not in the list. *)
Ltac not_listed H :=
  repeat (apply elem_of_cons in H as [H|H]; [discriminate H|]);
  by apply elem_of_nil in H.

(** ** The rules of [wp] and [wlp] *)

Lemma wp_ret {S A} (a : A) (Q : A → S → Prop) s : Q a s → wp (ret a) Q s.
Proof. done. Qed.

Lemma wp_bind {S A B} (m : M S A) (k : A → M S B) (Q : B → S → Prop) s :
  wp m (λ a s', wp (k a) Q s') s → wp (bind m k) Q s.
Proof. unfold wp, bind. by destruct (m s) as [|[]]. Qed.

Lemma wp_get {S} (Q : S → S → Prop) s : Q s s → wp get Q s.
Proof. done. Qed.

Lemma wp_gets {S A} (f : S → A) (v : A) (Q : A → S → Prop) s :
  f s = v → Q v s → wp (gets f) Q s.
Proof. by intros <-. Qed.

Lemma wp_modify {S} (f : S → S) (Q : unit → S → Prop) s :
  Q tt (f s) → wp (modify f) Q s.
Proof. done. Qed.

Lemma wp_zoomM {S T A} (p : S → T) (i : T → S → S) (m : M T A) (Q : A → S → Prop) s :
  wp m (λ a t, Q a (i t s)) (p s) → wp (zoomM p i m) Q s.
Proof. unfold wp, zoomM. by destruct (m (p s)) as [|[]]. Qed.

Lemma wp_elim {S A} (m : M S A) (Q : A → S → Prop) s :
  wp m Q s → ∃ a s', m s = inr (a, s') ∧ Q a s'.
Proof. unfold wp. destruct (m s) as [|[a s']]; [done|]. eauto. Qed.

Lemma wp_eq {S} (m : M S unit) s s' : wp m (λ _ t, t = s') s → m s = inr (tt, s').
Proof. unfold wp. destruct (m s) as [|[[] t]]; [done|]. by intros ->. Qed.

Lemma wlp_ret {S A} (a : A) (Q : A → S → Prop) s : Q a s → wlp (ret a) Q s.
Proof. done. Qed.

Lemma wlp_throw {S A} (e : Error) (Q : A → S → Prop) s : wlp (throw e) Q s.
Proof. done. Qed.

Lemma wlp_bind {S A B} (m : M S A) (k : A → M S B) (Q : B → S → Prop) s :
  wlp m (λ a s', wlp (k a) Q s') s → wlp (bind m k) Q s.
Proof. unfold wlp, bind. by destruct (m s) as [|[]]. Qed.

Lemma wlp_get {S} (Q : S → S → Prop) s : Q s s → wlp get Q s.
Proof. done. Qed.

Lemma wlp_gets {S A} (f : S → A) (v : A) (Q : A → S → Prop) s :
  f s = v → Q v s → wlp (gets f) Q s.
Proof. by intros <-. Qed.

Lemma wlp_modify {S} (f : S → S) (Q : unit → S → Prop) s :
  Q tt (f s) → wlp (modify f) Q s.
Proof. done. Qed.

Lemma wlp_zoomM {S T A} (p : S → T) (i : T → S → S) (m : M T A) (Q : A → S → Prop) s :
  wlp m (λ a t, Q a (i t s)) (p s) → wlp (zoomM p i m) Q s.
Proof. unfold wlp, zoomM. by destruct (m (p s)) as [|[]]. Qed.

Lemma wlp_elim {S A} (m : M S A) (Q : A → S → Prop) s a s' :
  wlp m Q s → m s = inr (a, s') → Q a s'.
Proof. unfold wlp. intros HQ E. by rewrite E in HQ. Qed.

(** ** Symbolic execution

    One step of execution looks at the head of the computation only and
    keeps the state in constructor form. *)

Ltac norm_state t :=
  eval cbv beta iota delta
    [VolumeRaycaster.set_dev VolumeRaycaster.set_hidden VolumeRaycaster.set_camera
     VolumeRaycaster.set_projView VolumeRaycaster.set_renderPassDesc
     VolumeRaycaster.dev VolumeRaycaster.hidden VolumeRaycaster.camera
     VolumeRaycaster.proj VolumeRaycaster.projView VolumeRaycaster.cube
     VolumeRaycaster.vertexBuffer VolumeRaycaster.indexBuffer
     VolumeRaycaster.viewParamsBuffer VolumeRaycaster.sampler VolumeRaycaster.colormapTexture
     VolumeRaycaster.volumeTexture VolumeRaycaster.viewParamBG
     VolumeRaycaster.renderPipeline VolumeRaycaster.renderPassDesc
     Part000.set_dev Part000.set_heap Part000.set_hidden Part000.set_pickerValue
     Part000.set_volumePickerValue Part000.set_camera Part000.set_projView
     Part000.set_colormapName Part000.set_colormapTexture Part000.set_bindGroup
     Part000.set_renderPassDesc Part000.set_pc
     Part000.dev Part000.heap Part000.hidden Part000.pickerValue
     Part000.volumePickerValue Part000.camera Part000.projView Part000.colormapName
     Part000.colormapTexture Part000.bindGroup Part000.renderPassDesc Part000.pc
     Part000.vars Part000.proj Part000.cube Part000.vertexBuffer Part000.indexBuffer
     Part000.viewParamsBuffer Part000.sampler Part000.volumeName Part000.volumeTexture
     Part000.volumeDataBuffer Part000.bindGroupEntries Part000.renderPipeline
     Part000.upload
     Gpu.set_next_id Gpu.set_buffers Gpu.set_textures Gpu.set_bindGroups
     Gpu.set_encoder Gpu.set_pass Gpu.set_surface Gpu.set_calls Gpu.set_presented
     Gpu.next_id Gpu.buffers Gpu.textures Gpu.bindGroups Gpu.encoder Gpu.pass
     Gpu.surface Gpu.calls Gpu.presented Gpu.view Gpu.clearValue
     Gpu.buf_map Gpu.buf_size Gpu.buf_usage Gpu.buf_data
     fst snd] in t.

Ltac norm_head t :=
  eval cbn beta iota delta
    [VolumeRaycaster.dev VolumeRaycaster.hidden VolumeRaycaster.camera
     VolumeRaycaster.proj VolumeRaycaster.projView VolumeRaycaster.cube
     VolumeRaycaster.vertexBuffer VolumeRaycaster.indexBuffer
     VolumeRaycaster.viewParamsBuffer VolumeRaycaster.sampler VolumeRaycaster.colormapTexture
     VolumeRaycaster.volumeTexture VolumeRaycaster.viewParamBG
     VolumeRaycaster.renderPipeline VolumeRaycaster.renderPassDesc
     Part000.dev Part000.heap Part000.hidden Part000.pickerValue
     Part000.volumePickerValue Part000.camera Part000.projView Part000.colormapName
     Part000.colormapTexture Part000.bindGroup Part000.renderPassDesc Part000.pc
     Part000.vars Part000.proj Part000.cube Part000.vertexBuffer Part000.indexBuffer
     Part000.viewParamsBuffer Part000.sampler Part000.volumeName Part000.volumeTexture
     Part000.volumeDataBuffer Part000.bindGroupEntries Part000.renderPipeline
     Part000.upload
     Gpu.next_id Gpu.buffers Gpu.textures Gpu.bindGroups Gpu.encoder Gpu.pass
     Gpu.surface Gpu.calls Gpu.presented Gpu.view Gpu.clearValue
     Gpu.buf_map Gpu.buf_size Gpu.buf_usage Gpu.buf_data Gpu.f32_view
     Gpu.ps_pipeline Gpu.ps_bindGroup Gpu.ps_vertexBuffer Gpu.ps_indexBuffer
     Gpu.uniform_of Gpu.binding Gpu.resource Gpu.exec_cmds Gpu.exec_pass
     Gpu.tex_destroyed Gpu.tex_size Gpu.resource_ok
     fst snd negb andb app forallb] in t.

Ltac unfold_head t :=
  eval cbv beta delta
    [VolumeRaycaster.on_dev VolumeRaycaster.upload_colormap VolumeRaycaster.upload_volume
     Part000.on_dev Part000.uploadImage Part000.uploadRadarVolume Part000.uploadData
     Part000.assign_resource Part000.read_entries Part000.update_camera_buffer
     Part000.swap_colormap
     Gpu.createBuffer Gpu.getMappedRange Gpu.map_set Gpu.map_set_bytes Gpu.unmap
     Gpu.mapAsync Gpu.mapResolved Gpu.createTexture Gpu.createBindGroup
     Gpu.createSampler Gpu.createRenderPipeline Gpu.copyExternalImageToTexture
     Gpu.createCommandEncoder Gpu.copyBufferToBuffer Gpu.copyBufferToTexture
     Gpu.getCurrentTextureView Gpu.beginRenderPass
     Gpu.setPipeline Gpu.setBindGroup Gpu.setVertexBuffer Gpu.setIndexBuffer Gpu.draw
     Gpu.endPass Gpu.submit Gpu.pass_cmd Gpu.log Gpu.fresh Gpu.put_buffer Gpu.the_buffer
     Gpu.exec_copyBufferToBuffer Gpu.exec_copyBufferToTexture Gpu.observe Gpu.exec_cmd]
  in t.

Ltac is_closed c :=
  match c with
  | context [?x] => is_var x; fail 1
  | _ => idtac
  end.

Ltac eval_cond c :=
  is_closed c;
  let c' := eval vm_compute in c in
  change c with c'; cbv iota.

Ltac wp_norm :=
  lazy beta;
  lazymatch goal with
  | |- wp (bind _ _) _ ?s => let s' := norm_state s in change s with s'
  | |- wp ?m ?Q ?s =>
      let m' := norm_head m in
      let s' := norm_state s in
      change (wp m' Q s')
  | |- wlp (bind _ _) _ ?s => let s' := norm_state s in change s with s'
  | |- wlp ?m ?Q ?s =>
      let m' := norm_head m in
      let s' := norm_state s in
      change (wlp m' Q s')
  | |- _ => idtac
  end;
  rewrite ?insert_insert_eq; cbn [app].

Ltac wp_step :=
  lazymatch goal with
  | |- wp (bind _ _) _ _ => apply wp_bind
  | |- wp (ret _) _ _ => apply wp_ret
  | |- wp get _ _ => apply wp_get
  | |- wp (gets ?f) ?Q ?s =>
      let v := norm_state (f s) in refine (wp_gets f v Q s eq_refl _)
  | |- wp (modify _) _ _ => apply wp_modify
  | |- wp (zoomM _ _ _) _ _ => apply wp_zoomM
  | |- wp (match <[?i:=_]> _ !! ?i with _ => _ end) _ _ => rewrite lookup_insert_eq
  | |- wp (match <[?i:=_]> _ !! ?j with _ => _ end) _ _ =>
      rewrite lookup_insert_ne by (done || lia)
  | |- wp (if ?c then _ else _) _ _ => eval_cond c
  | |- wp (match _ with _ => _ end) _ _ => progress (simpl (_ !! _)); cbv iota
  | |- wp ?m ?Q ?s => let m' := unfold_head m in progress change (wp m' Q s)
  end; wp_norm.

Ltac wp_go := repeat wp_step.

(** The same for [wlp]; a test that is not decided splits the goal, and
    the branch that throws is closed at once. *)
Ltac wlp_step :=
  lazymatch goal with
  | |- wlp (bind _ _) _ _ => apply wlp_bind
  | |- wlp (ret _) _ _ => apply wlp_ret
  | |- wlp (throw _) _ _ => apply wlp_throw
  | |- wlp get _ _ => apply wlp_get
  | |- wlp (gets ?f) ?Q ?s =>
      let v := norm_state (f s) in refine (wlp_gets f v Q s eq_refl _)
  | |- wlp (modify _) _ _ => apply wlp_modify
  | |- wlp (zoomM _ _ _) _ _ => apply wlp_zoomM
  | |- wlp (match <[?i:=_]> _ !! ?i with _ => _ end) _ _ => rewrite lookup_insert_eq
  | |- wlp (match <[?i:=_]> _ !! ?j with _ => _ end) _ _ =>
      rewrite lookup_insert_ne by (done || lia)
  | |- wlp (if ?c then _ else _) _ _ =>
      first [ eval_cond c | destruct c eqn:? ]
  | |- wlp (match ?c with _ => _ end) _ _ =>
      first [ progress (simpl (_ !! _)); cbv iota | destruct c eqn:? ]
  | |- wlp ?m ?Q ?s => let m' := unfold_head m in progress change (wlp m' Q s)
  end; wp_norm.

Ltac wlp_go := repeat wlp_step.

(** ** volume-raycaster.js: the frame *)
Module VolumeRaycasterFacts.
Import Gpu VolumeRaycaster VolumeRaycasterSpec.

Section Facts.
Context `{Numbers} `{!GlMatrix} `{!ArcballCamera}.

Lemma frame_hidden (w : World) : hidden w = true → frame w = inr (tt, w).
Proof. intros Hh. unfold frame, bind, gets. by rewrite Hh. Qed.

Lemma frame_visible (w : World) :
  Inv w → hidden w = false → wp frame (λ _ w', FramePost w w') w.
Proof.
  intros [(b & cells & Hb & Hsz & Hmap & Hus & Hview & Hlen) Hbg Hfresh Hp Hclear] Hh.
  destruct w as [d hid cam pr pv cu vb ib vpb sm ct vt bg rp [dv dc]].
  destruct d as [n bufs texs bgs enc ps sf cl prs].
  destruct b as [bs bu bm bd].
  unfold entries in Hbg.
  cbn in Hh, Hp, Hb, Hbg, Hfresh, Hclear, Hsz, Hmap, Hus. subst hid ps bs bm dc.
  assert (vpb ≠ n) as Hne.
  { intros ->. rewrite Hfresh in Hb by done. done. }
  destruct (staging_write (replicate 20 zero) (mat4_mul pr (camera_matrix cam))
              (eyePos cam)) as (c1 & Hs1 & Hs2);
    [by rewrite length_replicate | apply mat4_mul_length | apply eyePos_length |].
  unfold frame. wp_go.
  change ((20 * 4) `div` 4) with 20. rewrite Hs1. wp_go.
  rewrite Hs2. wp_go.
  rewrite Hb. wp_go.
  rewrite bool_decide_eq_true_2.
  2:{ repeat split; try done; try lia; by repeat constructor. }
  wp_norm. rewrite Hview.
  rewrite (drop_19_of_20 (replicate 20 zero) zero) by done.
  rewrite copy_whole by (done || by apply record_length).
  wp_go.
  rewrite Hbg. wp_norm. rewrite lookup_insert_eq. wp_go.
  split; cbn; try done.
  - by rewrite lookup_insert_ne, lookup_insert_eq.
  - eexists. split; [done|]. by rewrite lookup_insert_eq.
  - intros k ? ?. by rewrite !lookup_insert_ne.
  - rewrite mat4_mul_length, eyePos_length. by rewrite <- !app_assoc.
Qed.

Lemma FramePost_Inv (w w' : World) : Inv w → FramePost w w' → Inv w'.
Proof.
  intros [(b & cells & Hb & Hsz & Hmap & Hus & Hview & Hlen) Hbg Hfresh Hp Hclear] P.
  destruct P. split.
  - destruct fp_uniform0 as (b' & Hb' & Hnew). rewrite Hb in Hb'. injection Hb' as <-.
    rewrite fp_viewParamsBuffer0. eexists _, _. split; [exact Hnew|].
    cbn. repeat split; try done. by apply record_length.
  - rewrite fp_bindGroups0, fp_viewParamBG0, Hbg. unfold entries.
    by rewrite fp_viewParamsBuffer0, fp_volumeTexture0, fp_colormapTexture0, fp_sampler0.
  - intros k Hk. rewrite fp_next_id0 in Hk.
    rewrite fp_buffers0; [apply Hfresh; lia | lia |].
    intros ->. rewrite Hfresh in Hb by lia. done.
  - done.
  - by rewrite fp_renderPassDesc0.
Qed.

Lemma step_Inv (e : Event) (w : World) :
  Inv w → ∃ w', step e w = inr (tt, w') ∧ Inv w'.
Proof.
  intros HI. destruct e; cbn [step].
  - destruct (hidden w) eqn:Hh.
    + exists w. by rewrite frame_hidden.
    + destruct (wp_elim _ _ _ (frame_visible w HI Hh)) as ([] & w' & E & P).
      exists w'. split; [done|]. by eapply FramePost_Inv.
  - eexists. split; [done|]. unfold mousemove.
    destruct (buttons =? 1)%Z; [by destruct HI|].
    destruct (buttons =? 2)%Z; by destruct HI.
  - eexists. split; [done|]. by destruct HI.
  - eexists. split; [done|]. by destruct HI.
  - eexists. split; [done|]. by destruct HI.
  - eexists. split; [done|]. by destruct HI.
Qed.

Lemma run_Inv (es : list Event) (w : World) :
  Inv w → ∃ w', run es w = inr (tt, w') ∧ Inv w'.
Proof.
  revert w. induction es as [|e es IH]; intros w HI.
  - by exists w.
  - destruct (step_Inv e w HI) as (w1 & E1 & HI1).
    destruct (IH w1 HI1) as (w2 & E2 & HI2).
    exists w2. split; [|done]. cbn [run]. unfold bind. by rewrite E1.
Qed.



Lemma setup_Inv (h : Host) :
  wlp (setup h) (λ w d, Inv (set_dev d w)) empty_device.
Proof.
  destruct h as [gpu ad pg msgs [vs ixs] img dims data cam0 pr0 hid0].
  unfold setup, empty_device.
  cbn [the_cube volumeDims volumeData colormapImage camera0 proj0 hidden0 vertices indices].
  wlp_go.
  split; cbn.
  - eexists _, _. rewrite lookup_insert_ne, lookup_insert_eq by done.
    split; [done|]. cbn. repeat split; try done. by repeat constructor.
  - done.
  - intros k Hk. rewrite !lookup_insert_ne by lia. done.
  - done.
  - done.
Qed.

Lemma main_Inv (h : Host) (w : World) (p : Page) : main h = Started w p → Inv w.
Proof.
  unfold main. destruct (negb _); [done|]. destruct (adapter h); [|done].
  destruct (hadError _); [done|].
  destruct (setup h empty_device) as [e|[w' d]] eqn:E; [done|].
  intros [= <- <-]. by apply (wlp_elim _ _ _ _ _ (setup_Inv h) E).
Qed.

(** Every run of the events of the page from a started script goes
    through: no frame is refused by the device. *)
Lemma reachable_Inv (h : Host) (w0 : World) (p : Page) (es : list Event) :
  main h = Started w0 p → ∃ w, run es w0 = inr (tt, w) ∧ Inv w.
Proof. intros Hm. apply run_Inv. by eapply main_Inv. Qed.


(** An event of the camera controller changes the camera and nothing
    else. *)
Lemma step_camera (e : Event) (w : World) :
  e ≠ Frame → (∀ hid, e ≠ Visibility hid) →
  ∃ c, step e w = inr (tt, set_camera c w).
Proof.
  intros Hf Hv. destruct e; try done; cbn [step]; unfold modify; try (by eexists).
  - unfold mousemove. destruct (buttons =? 1)%Z; [by eexists|].
    destruct (buttons =? 2)%Z; [by eexists|].
    exists (camera w). by destruct w.
  - by destruct (Hv hid).
Qed.

(** A frame that runs while the page is visible, in a state the script
    reaches. *)
Lemma visible_frame (h : Host) (w0 w : World) (p : Page) (es : list Event) :
  main h = Started w0 p → run es w0 = inr (tt, w) → hidden w = false →
  ∃ w', step Frame w = inr (tt, w') ∧ FramePost w w' ∧ Inv w.
Proof.
  intros Hm Hr Hh.
  destruct (reachable_Inv h w0 p es Hm) as (w1 & Hr1 & HI).
  rewrite Hr in Hr1. injection Hr1 as <-.
  destruct (wp_elim _ _ _ (frame_visible w HI Hh)) as ([] & w' & E & P).
  by exists w'.
Qed.

End Facts.
End VolumeRaycasterFacts.

(** ** part_000: the frame loop *)
Module Part000Facts.
Import Gpu Part000 Part000Spec.

Section Facts.
Context `{Numbers} `{!GlMatrix} `{!ArcballCamera}.

Lemma insert_as_alter {A} (f : A → A) (m : gmap nat A) (k : nat) (x : A) :
  m !! k = Some x → <[k := f x]> m = alter f k m.
Proof.
  intros Hk. apply map_eq. intros i. destruct (decide (i = k)) as [->|Hne].
  - by rewrite lookup_insert_eq, lookup_alter_eq, Hk.
  - by rewrite lookup_insert_ne, lookup_alter_ne.
Qed.

Lemma update_camera_buffer_ok (w : World) :
  Inv w → pc w ≠ AwaitMap → update_camera_buffer w = inr (tt, recomputed w).
Proof.
  intros HI Hpc. apply wp_eq.
  destruct HI as [_ (u & cells & Hu & Hsz & Hus & Hmap & _) _ _ _ _ _ _ _ _ _ _ _ _ _].
  rewrite decide_False in Hmap by done.
  destruct w as [d hp hid pk vpk cam pv cn ct bg [dv dc] p v].
  destruct d as [n bufs texs bgs enc ps sf cl prs].
  destruct v as [pr cu vb ib vpb sm vn vt vdb ref rp up].
  destruct u as [us uu um ud].
  cbn in Hu, Hsz, Hus, Hmap. subst us uu um.
  unfold update_camera_buffer. wp_go.
  rewrite Hu. wp_go.
  unfold recomputed. cbn.
  by rewrite <- (insert_as_alter (with_map Pending) _ _ _ Hu).
Qed.

Lemma after_frame_hidden (w : World) : hidden w = true → after_frame w = inr (tt, w).
Proof. intros Hh. unfold after_frame, bind, get. by rewrite Hh. Qed.

Lemma after_frame_same (w : World) :
  Inv w → pc w ≠ AwaitMap → hidden w = false → colormapName w = pickerValue w →
  after_frame w = inr (tt, recomputed w).
Proof.
  intros HI Hpc Hh Hn. unfold after_frame, bind, get. rewrite Hh, Hn, String.eqb_refl.
  cbn [negb]. by apply update_camera_buffer_ok.
Qed.

Lemma after_frame_swap (w : World) :
  hidden w = false → colormapName w ≠ pickerValue w →
  after_frame w
  = inr (tt, set_pc AwaitImage (set_colormapName (pickerValue w) w)).
Proof.
  intros Hh Hn. unfold after_frame, bind, get. rewrite Hh.
  apply String.eqb_neq in Hn. by rewrite Hn.
Qed.

Lemma swap_colormap_None (w : World) : swap_colormap None w = inl AssetError.
Proof. done. Qed.

Lemma swap_colormap_zero (width height : nat) (w : World) :
  ¬ (0 < width ∧ 0 < height) →
  swap_colormap (Some (width, height)) w = inl ValidationError.
Proof.
  intros Hz. unfold swap_colormap, bind, on_dev, zoomM, uploadImage, createTexture.
  rewrite decide_False; [done|].
  intros Hall. apply Hz. by inversion Hall as [|? ? ? Hr]; inversion Hr.
Qed.

Lemma swap_colormap_ok (width height : nat) (w : World) :
  Inv w → 0 < width → 0 < height →
  swap_colormap (Some (width, height)) w = inr (tt, swapped width height w).
Proof.
  intros HI Hw Hh. apply wp_eq.
  destruct HI as [(b & _ & Hb & _) _ _ Hheap _ Hvol _ Hdata Hlive Hfresh _ _ _ _ _].
  destruct w as [d hp hid pk vpk cam pv cn ct bg [dv dc] p v].
  destruct d as [n bufs texs bgs enc ps sf cl prs].
  destruct v as [pr cu vb ib vpb sm vn vt vdb ref rp up].
  unfold entries in Hheap.
  cbn in Hb, Hheap, Hvol, Hdata, Hlive, Hfresh.
  destruct Hvol as [tv Htv]. destruct Hdata as [bd Hbd].
  assert (tex_destroyed tv = false) as Hlv by by eapply Hlive.
  assert (vt ≠ n) as Hne.
  { intros ->. destruct (Hfresh n) as (_ & Hn & _); [done|]. by rewrite Hn in Htv. }
  wp_go.
  rewrite decide_True by (repeat constructor; done). wp_go.
  rewrite Hheap. wp_go.
  lazymatch goal with |- wp (if ?c then _ else _) _ _ => replace c with true end.
  2:{ symmetry. simpl. rewrite Hb, Hbd, lookup_insert_ne, Htv, Hlv, lookup_insert_eq by done.
      by rewrite bool_decide_eq_true_2 by (by eexists). }
  wp_go.
  unfold swapped, entries. cbn. by rewrite <- !app_assoc.
Qed.

Lemma after_map_ok (w : World) :
  Inv w → pc w = AwaitMap → after_map w = inr (tt, drawn w).
Proof.
  intros HI Hpc. apply wp_eq.
  destruct HI as [(b & cells & Hb & Hsz & Hmap & Hus & Hview & Hlen)
                  (u & ucells & Hu & Husz & Huus & Humap & Huview & Hulen & Hu19)
                  Hne _ Hbg _ _ _ _ _ Hp Hpv Hclear _ _].
  rewrite decide_True in Humap by done.
  destruct w as [d hp hid pk vpk cam pv cn ct bg [dv dc] p v].
  destruct d as [n bufs texs bgs enc ps sf cl prs].
  destruct v as [pr cu vb ib vpb sm vn vt vdb ref rp up].
  destruct b as [bs bu bm bd]. destruct u as [us uu um ud].
  unfold entries in Hbg.
  cbn in Hpc, Hb, Hsz, Hmap, Hus, Hu, Husz, Huus, Humap, Hne, Hbg, Hp, Hpv, Hclear.
  subst p bs bm us uu um ps dc.
  destruct (staging_write ucells pv (eyePos cam)) as (c1 & Hs1 & Hs2);
    [done | done | apply eyePos_length |].
  rewrite (drop_19_of_20 ucells zero) in Hs2 by done.
  assert (∀ m, f32_view {| buf_size := 80; buf_usage := [MAP_WRITE; COPY_SRC];
                           buf_map := m; buf_data := ud |} = Some ucells) as Huv.
  { intros m. by destruct ud. }
  unfold after_map. wp_go.
  rewrite Hu. wp_go.
  rewrite Huv. wp_norm. rewrite Hs1. wp_go.
  rewrite Hs2. wp_go.
  rewrite Hb. wp_go.
  rewrite bool_decide_eq_true_2.
  2:{ repeat split; try done; try lia; by repeat constructor. }
  wp_norm. rewrite Hview.
  rewrite copy_whole.
  2: done.
  2:{ rewrite !length_app, Hpv, eyePos_length. done. }
  wp_go.
  rewrite Hbg. wp_norm. rewrite lookup_insert_eq. wp_go.
  unfold drawn, observation, record, map_calls, frame_cmds, pass_cmds, attachment, entries.
  cbn. rewrite Hpv, eyePos_length.
  rewrite <- (insert_as_alter (with_cells _) _ _ _ Hu).
  rewrite <- (insert_as_alter (with_cells _) _ vpb
                {| buf_size := 80; buf_usage := bu; buf_map := Unmapped; buf_data := bd |})
    by by rewrite lookup_insert_ne.
  unfold with_cells. cbn. by rewrite <- !app_assoc.
Qed.

(** *** The invariant is kept *)

Lemma recomputed_Inv (w : World) : Inv w → pc w ≠ AwaitMap → Inv (recomputed w).
Proof.
  intros [(b & cells & Hb & Hrest) (u & ucells & Hu & Husz & Huus & Humap & Huv & Hul & Hu19)
          Hne Hheap Hbg Hvol Hcm Hdata Hlive Hfresh Hp Hpv Hclear Hnd Hpend] Hpc.
  rewrite decide_False in Humap by done.
  split; cbn.
  - exists b, cells. by rewrite lookup_alter_ne.
  - exists (with_map Pending u), ucells. rewrite lookup_alter_eq, Hu.
    repeat split; try done.
  - done.
  - done.
  - done.
  - done.
  - done.
  - destruct (decide (upload (vars w) = volumeDataBuffer (vars w))) as [E|E].
    + rewrite <- E, lookup_alter_eq, Hu. by eexists.
    + by rewrite lookup_alter_ne.
  - done.
  - intros k Hk. destruct (Hfresh k Hk) as (Hkb & ? & ?). repeat split; try done.
    rewrite lookup_alter_ne; [done|]. intros <-. by rewrite Hu in Hkb.
  - done.
  - apply mat4_mul_length.
  - done.
  - intros id Hin. apply elem_of_app in Hin as [Hin|Hin]; [by eapply Hnd|].
    not_listed Hin.
  - intros _. by eexists.
Qed.

Lemma swapped_Inv (width height : nat) (w : World) :
  Inv w → pc w ≠ AwaitMap → Inv (swapped width height w).
Proof.
  intros [(b & cells & Hb & Hrest) (u & ucells & Hu & Hurest)
          Hne Hheap Hbg Hvol Hcm Hdata Hlive Hfresh Hp Hpv Hclear Hnd Hpend] Hpc.
  split; cbn.
  - by exists b, cells.
  - by exists u, ucells.
  - done.
  - by rewrite lookup_insert_eq.
  - by rewrite lookup_insert_eq.
  - destruct Hvol as [tv Htv]. exists tv. rewrite lookup_insert_ne; [done|].
    intros E. destruct (Hfresh (next_id (dev w))) as (_ & Hn & _); [done|].
    by rewrite E, Htv in Hn.
  - rewrite lookup_insert_eq. by eexists.
  - done.
  - intros k tx. destruct (decide (k = next_id (dev w))) as [->|E].
    + rewrite lookup_insert_eq. by intros [= <-].
    + rewrite lookup_insert_ne by done. apply Hlive.
  - intros k Hk. destruct (Hfresh k) as (? & ? & ?); [lia|].
    repeat split; [done| |]; by rewrite lookup_insert_ne by lia.
  - done.
  - done.
  - done.
  - intros id Hin. apply elem_of_app in Hin as [Hin|Hin]; [by eapply Hnd|].
    not_listed Hin.
  - done.
Qed.

Lemma drawn_Inv (w : World) : Inv w → pc w = AwaitMap → Inv (drawn w).
Proof.
  intros [(b & cells & Hb & Hsz & Hmap & Hus & Hview & Hlen)
          (u & ucells & Hu & Husz & Huus & Humap & Huv & Hul & Hu19)
          Hne Hheap Hbg Hvol Hcm Hdata Hlive Hfresh Hp Hpv Hclear Hnd Hpend] Hpc.
  assert (length (record w) = 20) as Hrl.
  { unfold record. by rewrite !length_app, Hpv, eyePos_length. }
  split; cbn.
  - exists (with_cells (record w) b), (record w).
    rewrite lookup_alter_eq, lookup_alter_ne, Hb by done. done.
  - exists (with_cells (record w) u), (record w).
    rewrite lookup_alter_ne, lookup_alter_eq, Hu by done.
    repeat split; try done. unfold record.
    rewrite lookup_app_r by lia. rewrite Hpv.
    rewrite lookup_app_r by (rewrite eyePos_length; lia).
    by rewrite eyePos_length.
  - done.
  - done.
  - done.
  - done.
  - done.
  - destruct Hdata as [bd Hbd].
    destruct (decide (viewParamsBuffer (vars w) = volumeDataBuffer (vars w))) as [E|E].
    { rewrite <- E, lookup_alter_eq, lookup_alter_ne, Hb by done. by eexists. }
    rewrite lookup_alter_ne by done.
    destruct (decide (upload (vars w) = volumeDataBuffer (vars w))) as [E'|E'].
    { rewrite <- E', lookup_alter_eq, Hu. by eexists. }
    rewrite lookup_alter_ne by done. by eexists.
  - done.
  - intros k Hk. destruct (Hfresh k Hk) as (Hkb & ? & ?). repeat split; try done.
    rewrite !lookup_alter_ne; [done| |].
    + intros <-. by rewrite Hu in Hkb.
    + intros <-. by rewrite Hb in Hkb.
  - done.
  - done.
  - done.
  - intros id Hin. apply elem_of_app in Hin as [Hin|Hin]; [by eapply Hnd|].
    unfold map_calls in Hin. cbn in Hin. not_listed Hin.
  - done.
Qed.

Lemma input_Inv (w w' : World) :
  dev w' = dev w → heap w' = heap w → projView w' = projView w →
  colormapTexture w' = colormapTexture w → bindGroup w' = bindGroup w →
  renderPassDesc w' = renderPassDesc w → vars w' = vars w →
  ((pc w' = AwaitMap) ↔ (pc w = AwaitMap)) →
  Inv w → Inv w'.
Proof.
  intros Hd Hh Hv Hc Hb Hr Hvs Hpc [I1 I2 I3 I4 I5 I6 I7 I8 I9 I10 I11 I12 I13 I14 I15].
  split; unfold entries in *; rewrite ?Hd, ?Hh, ?Hv, ?Hc, ?Hb, ?Hr, ?Hvs; try done.
  - destruct I2 as (u & cells & Hu & ? & ? & Hm & ? & ? & ?). exists u, cells.
    repeat split; try done. rewrite Hm.
    destruct (decide (pc w = AwaitMap)), (decide (pc w' = AwaitMap)); tauto.
  - intros Hp. apply I15. by apply Hpc.
Qed.


Lemma after_image_ok (width height : nat) (w : World) :
  Inv w → pc w ≠ AwaitMap → 0 < width → 0 < height →
  after_image (Some (width, height)) w
  = inr (tt, recomputed (swapped width height w)).
Proof.
  intros HI Hpc Hw Hh. unfold after_image, bind.
  rewrite swap_colormap_ok by done.
  apply update_camera_buffer_ok; [by apply swapped_Inv | done].
Qed.

Lemma after_image_inr (image : option (nat * nat)) (w w' : World) :
  Inv w → pc w ≠ AwaitMap → after_image image w = inr (tt, w') →
  ∃ width height, image = Some (width, height) ∧ 0 < width ∧ 0 < height
    ∧ w' = recomputed (swapped width height w).
Proof.
  intros HI Hpc E. destruct image as [[width height]|].
  - destruct (decide (0 < width ∧ 0 < height)) as [[Hw Hh]|Hz].
    + rewrite after_image_ok in E by done. injection E as <-. by eexists _, _.
    + unfold after_image, bind in E. by rewrite swap_colormap_zero in E.
  - done.
Qed.

Lemma loop_step_Inv (e : Event) (w w' : World) :
  Inv w → step e w = inr (tt, w') → Inv w'.
Proof.
  intros HI. destruct e; cbn [step]; unfold resume, bind, get.
  - destruct (decide (pc w = AwaitFrame)) as [Hpc|]; [|by intros [= <-]].
    assert (pc w ≠ AwaitMap) as Hpc' by (by rewrite Hpc).
    destruct (hidden w) eqn:Hh.
    { rewrite after_frame_hidden by done. by intros [= <-]. }
    destruct (decide (colormapName w = pickerValue w)) as [Hn|Hn].
    { rewrite after_frame_same by done. intros [= <-]. by apply recomputed_Inv. }
    rewrite after_frame_swap by done. intros [= <-].
    by eapply input_Inv; [..|exact HI].
  - destruct (decide (pc w = AwaitImage)) as [Hpc|]; [|by intros [= <-]].
    assert (pc w ≠ AwaitMap) as Hpc' by (by rewrite Hpc).
    intros E. apply after_image_inr in E as (width & height & _ & ? & ? & ->); try done.
    by apply recomputed_Inv; [apply swapped_Inv|].
  - destruct (decide (pc w = AwaitMap)) as [Hpc|]; [|by intros [= <-]].
    rewrite after_map_ok by done. intros [= <-]. by apply drawn_Inv.
  - unfold modify. intros [= <-]. eapply input_Inv; [..|exact HI]; try done;
      unfold mousemove; by repeat case_match.
  - unfold modify. intros [= <-]. by eapply input_Inv; [..|exact HI].
  - unfold modify. intros [= <-]. by eapply input_Inv; [..|exact HI].
  - unfold modify. intros [= <-]. by eapply input_Inv; [..|exact HI].
  - unfold modify. intros [= <-]. by eapply input_Inv; [..|exact HI].
  - unfold modify. intros [= <-]. by eapply input_Inv; [..|exact HI].
  - unfold modify. intros [= <-]. by eapply input_Inv; [..|exact HI].
Qed.

Lemma loop_run_Inv (es : list Event) (w w' : World) :
  Inv w → run es w = inr (tt, w') → Inv w'.
Proof.
  revert w. induction es as [|e es IH]; intros w HI; cbn [run].
  - by intros [= <-].
  - unfold bind. destruct (step e w) as [|[[] w1]] eqn:E; [done|].
    intros Hr. eapply IH; [|exact Hr]. by eapply loop_step_Inv.
Qed.

Lemma loop_setup_Inv (h : Host) (volumeName : string) :
  wlp (bufs <- setup_buffers h;; setup h volumeName bufs)
      (λ w d, Inv (set_dev d w)) empty_device.
Proof.
  destruct h as [gpu ad pg msgs [vs ixs] hash vols img rdims rsize cam0 pr0 hid0 pk0 vpk0].
  unfold setup_buffers, setup, empty_device.
  cbn [the_cube colormapImage radarDims radarDataSize camera0 proj0 hidden0 picker0
       volumePicker0 vertices indices].
  wlp_go.
  split; cbn.
  - eexists _, _. rewrite !lookup_insert_ne, lookup_insert_eq by done.
    split; [done|]. cbn. repeat split; try done. by repeat constructor.
  - eexists _, _. rewrite lookup_insert_eq. split; [done|]. cbn. by repeat split.
  - done.
  - done.
  - done.
  - by eexists.
  - rewrite lookup_insert_ne, lookup_insert_eq by done. by eexists.
  - rewrite lookup_insert_ne, lookup_insert_eq by done. by eexists.
  - intros k tx. destruct (decide (k = 5)) as [->|?].
    { rewrite lookup_insert_eq. by intros [= <-]. }
    rewrite lookup_insert_ne by done. destruct (decide (k = 4)) as [->|?].
    { rewrite lookup_insert_eq. by intros [= <-]. }
    by rewrite lookup_insert_ne.
  - intros k Hk. by rewrite !lookup_insert_ne by lia.
  - done.
  - apply mat4_create_length.
  - done.
  - intros id Hin. not_listed Hin.
  - done.
Qed.

Lemma loop_main_Inv (h : Host) (w : World) (p : Page) : main h = Started w p → Inv w.
Proof.
  unfold main. destruct (negb _); [done|]. destruct (adapter h); [|done].
  destruct (hadError _); [done|].
  destruct (setup_buffers h empty_device) as [e|[bufs d]] eqn:E1; [done|].
  destruct (linked_volume h) as [volumeName|]; [|done].
  destruct (setup h volumeName bufs d) as [e|[w' d']] eqn:E2; [done|].
  intros [= <- <-].
  apply (wlp_elim _ _ _ _ _ (loop_setup_Inv h volumeName)).
  unfold bind. by rewrite E1.
Qed.

(** Every state the script reaches satisfies the invariant. *)
Lemma loop_reachable_Inv (h : Host) (w0 w : World) (p : Page) (es : list Event) :
  main h = Started w0 p → run es w0 = inr (tt, w) → Inv w.
Proof. intros Hm. apply loop_run_Inv. by eapply loop_main_Inv. Qed.

(** *** How the loop moves from one [await] to the next *)

(** The loop reaches the mapping [await] by recomputing [projView],
    after a rebuild of the resource set or without one. *)
Lemma step_suspends (e : Event) (w w' : World) :
  Inv w → pc w ≠ AwaitMap → step e w = inr (tt, w') → pc w' = AwaitMap →
  (e = Frame ∧ hidden w = false ∧ colormapName w = pickerValue w ∧ w' = recomputed w)
  ∨ (∃ width height, e = ImageLoaded (Some (width, height))
       ∧ 0 < width ∧ 0 < height ∧ w' = recomputed (swapped width height w)).
Proof.
  intros HI Hpc. destruct e; cbn [step]; unfold resume, bind, get, modify.
  - destruct (decide (pc w = AwaitFrame)) as [Hp|]; [|intros [= <-]; congruence].
    destruct (hidden w) eqn:Hh.
    { rewrite after_frame_hidden by done. intros [= <-]. congruence. }
    destruct (decide (colormapName w = pickerValue w)) as [Hn|Hn].
    { rewrite after_frame_same by done. intros [= <-] _. by left. }
    rewrite after_frame_swap by done. by intros [= <-].
  - destruct (decide (pc w = AwaitImage)) as [Hp|]; [|intros [= <-]; congruence].
    intros E _. apply after_image_inr in E as (width & height & -> & ? & ? & ->); try done.
    right. by eexists _, _.
  - rewrite decide_False by done. intros [= <-]. congruence.
  - intros [= <-]. unfold mousemove. by repeat case_match.
  - by intros [= <-].
  - by intros [= <-].
  - by intros [= <-].
  - by intros [= <-].
  - by intros [= <-].
  - by intros [= <-].
Qed.

(** While the loop waits for the mapping, the events of the page reach
    the camera, the selectors and the visibility flag only. *)
Lemma step_waiting (e : Event) (w w' : World) :
  pc w = AwaitMap → e ≠ MapResolved → step e w = inr (tt, w') →
  pc w' = AwaitMap ∧ projView w' = projView w ∧ dev w' = dev w ∧ heap w' = heap w
  ∧ bindGroup w' = bindGroup w ∧ colormapTexture w' = colormapTexture w
  ∧ vars w' = vars w.
Proof.
  intros Hpc Hne. destruct e; cbn [step]; unfold resume, bind, get, modify, ret;
    rewrite ?Hpc; try done; try (by intros [= <-]).
  intros [= <-]. unfold mousemove. by repeat case_match.
Qed.

(** An event of the camera controller changes the camera and nothing
    else. *)
Lemma loop_step_camera (e : Event) (w : World) :
  match e with
  | MouseMove _ _ _ | Wheel _ | Pinch _ | TwoFingerDrag _ => True
  | _ => False
  end →
  ∃ c, step e w = inr (tt, set_camera c w).
Proof.
  destruct e; try done; intros _; cbn [step]; unfold modify;
    try (by eexists).
  unfold mousemove. destruct (buttons =? 1)%Z; [by eexists|].
  destruct (buttons =? 2)%Z; [by eexists|].
  exists (camera w). by destruct w.
Qed.

(** The frame that completes when the mapping is there, and the swap
    that completes when the image is there, in a state the script
    reaches. *)
Lemma mapped_frame (h : Host) (w0 w : World) (p : Page) (es : list Event) :
  main h = Started w0 p → run es w0 = inr (tt, w) → pc w = AwaitMap →
  step MapResolved w = inr (tt, drawn w) ∧ Inv w.
Proof.
  intros Hm Hr Hpc. pose proof (loop_reachable_Inv h w0 w p es Hm Hr) as HI.
  split; [|done]. cbn [step]. unfold resume, bind, get.
  rewrite decide_True by done. by apply after_map_ok.
Qed.

Lemma loaded_image (h : Host) (w0 w : World) (p : Page) (es : list Event)
  (width height : nat) :
  main h = Started w0 p → run es w0 = inr (tt, w) → pc w = AwaitImage →
  0 < width → 0 < height →
  step (ImageLoaded (Some (width, height))) w
  = inr (tt, recomputed (swapped width height w)) ∧ Inv w.
Proof.
  intros Hm Hr Hpc Hw Hh. pose proof (loop_reachable_Inv h w0 w p es Hm Hr) as HI.
  split; [|done]. cbn [step]. unfold resume, bind, get.
  rewrite decide_True by done. apply after_image_ok; try done. by rewrite Hpc.
Qed.

End Facts.
End Part000Facts.

(** ** Runs of the sample pages *)
Module SampleFacts.
Import Sample.

Lemma start1_started :
  ∃ w, VolumeRaycaster.main host1 = Started w page
       ∧ VolumeRaycaster.hidden w = false
       ∧ Gpu.next_id (VolumeRaycaster.dev w) = 9.
Proof. eexists. split; [vm_compute; reflexivity|]. by split. Qed.

Lemma start2_started :
  ∃ w, Part000.main host2 = Started w page
       ∧ Part000.hidden w = false
       ∧ Part000.pc w = Part000.AwaitFrame
       ∧ Part000.colormapName w = Part000.pickerValue w.
Proof. eexists. split; [vm_compute; reflexivity|]. by repeat split. Qed.

(** part_000 suspended at the mapping of the first frame. *)
Lemma start2_mapping :
  ∃ w0 w, Part000.main host2 = Started w0 page
       ∧ Part000.run [Part000.Frame] w0 = inr (tt, w)
       ∧ Part000.pc w = Part000.AwaitMap.
Proof. eexists _, _. split; [vm_compute; reflexivity|]. split; [vm_compute; reflexivity|]. done. Qed.

(** part_000 waiting for the image of a newly selected colormap. *)
Lemma start2_loading :
  ∃ w0 w, Part000.main host2 = Started w0 page
       ∧ Part000.run [Part000.Pick "Cool Warm"; Part000.Frame] w0 = inr (tt, w)
       ∧ Part000.pc w = Part000.AwaitImage.
Proof. eexists _, _. split; [vm_compute; reflexivity|]. split; [vm_compute; reflexivity|]. done. Qed.

End SampleFacts.

(** * The claims *)

Import Gpu.

(** ** The view-parameter record

    In volume-raycaster.js, every frame that runs while the page is
    visible stages the record -- the 16 cells of the projection-view
    matrix of the camera, then its eye position -- in a buffer that is
    unmapped when the frame ends, submits one command buffer in which
    the copy onto the uniform buffer comes before the render pass, and
    the draw is executed with exactly that record.  In part_000, a frame
    suspends for the mapping with [projView] recomputed for the camera
    as it is then; nothing touches [projView] or the device until the
    mapping is there; and then the frame stages [projView] followed by
    the eye position of the camera as it is by then, submits the copy
    before the render pass, and the draw is executed with exactly that
    record. *)
Lemma record_staged_then_copied `{Numbers} `{!GlMatrix} `{!ArcballCamera} :
  (∀ (h : VolumeRaycaster.Host) w0 p es w,
     VolumeRaycaster.main h = Started w0 p →
     VolumeRaycaster.run es w0 = inr (tt, w) →
     VolumeRaycaster.hidden w = false →
     ∃ w', VolumeRaycaster.step VolumeRaycaster.Frame w = inr (tt, w')
       ∧ buffers (VolumeRaycaster.dev w') !! next_id (VolumeRaycaster.dev w)
         = Some {| buf_size := 20 * 4; buf_usage := [COPY_SRC]; buf_map := Unmapped;
                   buf_data :=
                     F32 (mat4_mul (VolumeRaycaster.proj w)
                            (camera_matrix (VolumeRaycaster.camera w))
                          ++ eyePos (VolumeRaycaster.camera w) ++ [zero]) |}
       ∧ last (calls (VolumeRaycaster.dev w'))
         = Some (c_submit
             [ CopyBufferToBuffer (next_id (VolumeRaycaster.dev w)) 0
                 (VolumeRaycaster.viewParamsBuffer w) 0 (20 * 4);
               RenderPass (VolumeRaycasterSpec.attachment w)
                 (VolumeRaycasterSpec.pass_cmds w) ])
       ∧ ∃ o, presented (VolumeRaycaster.dev w')
              = presented (VolumeRaycaster.dev w) ++ [o]
            ∧ obs_uniform o
              = Some (mat4_mul (VolumeRaycaster.proj w)
                        (camera_matrix (VolumeRaycaster.camera w))
                      ++ eyePos (VolumeRaycaster.camera w) ++ [zero]))
  ∧
  (∀ (h : Part000.Host) w0 p es w,
     Part000.main h = Started w0 p →
     Part000.run es w0 = inr (tt, w) →
     (∀ e w', Part000.pc w ≠ Part000.AwaitMap →
        Part000.step e w = inr (tt, w') →
        Part000.pc w' = Part000.AwaitMap →
        Part000.projView w'
        = mat4_mul (Part000.proj (Part000.vars w'))
            (camera_matrix (Part000.camera w')))
     ∧ (∀ e w', Part000.pc w = Part000.AwaitMap →
        e ≠ Part000.MapResolved →
        Part000.step e w = inr (tt, w') →
        Part000.pc w' = Part000.AwaitMap
        ∧ Part000.projView w' = Part000.projView w
        ∧ Part000.dev w' = Part000.dev w)
     ∧ (Part000.pc w = Part000.AwaitMap →
        ∃ w', Part000.step Part000.MapResolved w = inr (tt, w')
          ∧ buffers (Part000.dev w') !! Part000.upload (Part000.vars w)
            = Some {| buf_size := 20 * 4; buf_usage := [MAP_WRITE; COPY_SRC];
                      buf_map := Unmapped;
                      buf_data := F32 (Part000.projView w
                                       ++ eyePos (Part000.camera w) ++ [zero]) |}
          ∧ last (calls (Part000.dev w'))
            = Some (c_submit
                [ CopyBufferToBuffer (Part000.upload (Part000.vars w)) 0
                    (Part000.viewParamsBuffer (Part000.vars w)) 0 (20 * 4);
                  RenderPass (Part000Spec.attachment w) (Part000Spec.pass_cmds w) ])
          ∧ ∃ o, presented (Part000.dev w') = presented (Part000.dev w) ++ [o]
               ∧ obs_uniform o
                 = Some (Part000.projView w ++ eyePos (Part000.camera w) ++ [zero]))).
Proof.
  split.
  - intros h w0 p es w Hm Hr Hh.
    destruct (VolumeRaycasterFacts.visible_frame h w0 w p es Hm Hr Hh)
      as (w' & E & P & _).
    exists w'. split; [done|]. destruct P. repeat split.
    + done.
    + rewrite fp_calls. by rewrite last_app.
    + eexists. by split.
  - intros h w0 p es w Hm Hr.
    pose proof (Part000Facts.loop_reachable_Inv h w0 w p es Hm Hr) as HI.
    split; [|split].
    + intros e w' Hpc Hs Hpc'.
      by destruct (Part000Facts.step_suspends e w w' HI Hpc Hs Hpc')
        as [(_ & _ & _ & ->)|(width & height & _ & _ & _ & ->)].
    + intros e w' Hpc Hne Hs.
      by destruct (Part000Facts.step_waiting e w w' Hpc Hne Hs) as (? & ? & ? & _).
    + intros Hpc. exists (Part000Spec.drawn w).
      destruct (Part000Spec.inv_upload w HI) as (u & ucells & Hu & Husz & Huus & _).
      pose proof (Part000Spec.inv_distinct w HI) as Hd.
      split; [|repeat split].
      * by apply (Part000Facts.mapped_frame h w0 w p es).
      * cbn. rewrite lookup_alter_ne by done.
        rewrite lookup_alter_eq, Hu. cbn. unfold Part000Spec.with_cells.
        by rewrite Husz, Huus.
      * cbn. by rewrite last_app.
      * eexists. by split.
Qed.

Section C1_sample.
Import Sample.

(** C1 does not hold of part_000.  On the sample page the first frame
    recomputes [projView] for the camera at (0, 0, 2) and waits for the
    mapping of the staging buffer; a mouse move with the left button
    down rotates the camera to (2, 0, 0) meanwhile; when the mapping is
    there the frame stages the matrix it had computed, followed by the
    eye position of the rotated camera.  The draw is executed with that
    record, which is the record of no camera state at all. *)
Lemma C1_record_mixes_two_camera_states :
  ∃ w0 w1 w2 w3 o,
    Part000.main host2 = Started w0 page
    ∧ Part000.run [Part000.Frame] w0 = inr (tt, w1)
    ∧ Part000.pc w1 = Part000.AwaitMap
    ∧ Part000.step (Part000.MouseMove (0, 0)%Z (1, 0)%Z 1) w1 = inr (tt, w2)
    ∧ Part000.step Part000.MapResolved w2 = inr (tt, w3)
    ∧ Part000.camera w1 = (0, 0, 2)%Z
    ∧ Part000.camera w2 = (2, 0, 0)%Z
    ∧ last (presented (Part000.dev w3)) = Some o
    ∧ obs_uniform o
      = Some (mat4_mul (Part000.proj (Part000.vars w1))
                (camera_matrix (Part000.camera w1))
              ++ eyePos (Part000.camera w2) ++ [zero])
    ∧ ∀ c : Camera,
        obs_uniform o
        ≠ Some (mat4_mul (Part000.proj (Part000.vars w1)) (camera_matrix c)
                ++ eyePos c ++ [zero]).
Proof.
  eexists _, _, _, _, _.
  split; [vm_compute; reflexivity|].
  split; [vm_compute; reflexivity|].
  split; [vm_compute; reflexivity|].
  split; [vm_compute; reflexivity|].
  split; [vm_compute; reflexivity|].
  split; [vm_compute; reflexivity|].
  split; [vm_compute; reflexivity|].
  split; [vm_compute; reflexivity|].
  split; [vm_compute; reflexivity|].
  intros [[x y] z] E. cbn [obs_uniform] in E. injection E as E _ _ Ex _ _.
  change (@num ZNumbers) with Z in *. lia.
Qed.
End C1_sample.

(** C7.  In volume-raycaster.js the calls of a visible frame start with
    the creation of the staging buffer mapped, the two writes, its
    unmapping, and only then the recording of the copy.  In part_000,
    while the loop waits for the mapping the last call made is
    [mapAsync] on the staging buffer and no event makes a device call;
    once the mapping is there the calls are the two writes, the
    unmapping, and only then the recording of the copy. *)
Theorem C7_write_completes_before_copy `{Numbers} `{!GlMatrix} `{!ArcballCamera} :
  (∀ (h : VolumeRaycaster.Host) w0 p es w,
     VolumeRaycaster.main h = Started w0 p →
     VolumeRaycaster.run es w0 = inr (tt, w) →
     VolumeRaycaster.hidden w = false →
     ∃ w' rest, VolumeRaycaster.step VolumeRaycaster.Frame w = inr (tt, w')
       ∧ let upload := next_id (VolumeRaycaster.dev w) in
         calls (VolumeRaycaster.dev w')
         = calls (VolumeRaycaster.dev w)
           ++ [ c_createBuffer upload (20 * 4) [COPY_SRC] true;
                c_getMappedRange upload;
                c_set upload 0 16;
                c_set upload 16 3;
                c_unmap upload;
                c_createCommandEncoder;
                c_copyBufferToBuffer upload 0 (VolumeRaycaster.viewParamsBuffer w) 0
                  (20 * 4) ]
           ++ rest)
  ∧
  (∀ (h : Part000.Host) w0 p es w,
     Part000.main h = Started w0 p →
     Part000.run es w0 = inr (tt, w) →
     Part000.pc w = Part000.AwaitMap →
     let upload := Part000.upload (Part000.vars w) in
     (∃ before, calls (Part000.dev w) = before ++ [c_mapAsync upload])
     ∧ (∃ b, buffers (Part000.dev w) !! upload = Some b ∧ buf_map b = Pending)
     ∧ (∀ e w', e ≠ Part000.MapResolved → Part000.step e w = inr (tt, w') →
          Part000.dev w' = Part000.dev w ∧ Part000.pc w' = Part000.AwaitMap)
     ∧ ∃ w' rest, Part000.step Part000.MapResolved w = inr (tt, w')
         ∧ calls (Part000.dev w')
           = calls (Part000.dev w)
             ++ [ c_mapResolved upload;
                  c_getMappedRange upload;
                  c_set upload 0 16;
                  c_set upload 16 3;
                  c_unmap upload;
                  c_createCommandEncoder;
                  c_copyBufferToBuffer upload 0
                    (Part000.viewParamsBuffer (Part000.vars w)) 0 (20 * 4) ]
             ++ rest).
Proof.
  split.
  - intros h w0 p es w Hm Hr Hh.
    destruct (VolumeRaycasterFacts.visible_frame h w0 w p es Hm Hr Hh)
      as (w' & E & P & _).
    exists w'. eexists. split; [done|]. destruct P. rewrite fp_calls.
    unfold VolumeRaycasterSpec.frame_calls. cbn. reflexivity.
  - intros h w0 p es w Hm Hr Hpc.
    destruct (Part000Facts.mapped_frame h w0 w p es Hm Hr Hpc) as [E HI].
    split; [|split; [|split]].
    + by apply (Part000Spec.inv_pending w HI).
    + destruct (Part000Spec.inv_upload w HI) as (u & ? & Hu & _ & _ & Hmap & _).
      rewrite decide_True in Hmap by done. by exists u.
    + intros e w' Hne Hs.
      by destruct (Part000Facts.step_waiting e w w' Hpc Hne Hs) as (? & ? & ? & _).
    + exists (Part000Spec.drawn w). eexists. split; [done|].
      cbn. reflexivity.
Qed.

Section C7_sample.
Import Sample.

(** C7 on the sample page of part_000: the mapping of the first frame. *)
Lemma C7_witness :
  ∃ w0 w w' rest, Part000.main host2 = Started w0 page
    ∧ Part000.run [Part000.Frame] w0 = inr (tt, w)
    ∧ Part000.step Part000.MapResolved w = inr (tt, w')
    ∧ calls (Part000.dev w')
      = calls (Part000.dev w)
        ++ [ c_mapResolved (Part000.upload (Part000.vars w));
             c_getMappedRange (Part000.upload (Part000.vars w));
             c_set (Part000.upload (Part000.vars w)) 0 16;
             c_set (Part000.upload (Part000.vars w)) 16 3;
             c_unmap (Part000.upload (Part000.vars w));
             c_createCommandEncoder;
             c_copyBufferToBuffer (Part000.upload (Part000.vars w)) 0
               (Part000.viewParamsBuffer (Part000.vars w)) 0 (20 * 4) ]
        ++ rest.
Proof.
  destruct SampleFacts.start2_mapping as (w0 & w & Hm & Hr & Hpc).
  destruct (proj2 C7_write_completes_before_copy host2 w0 page [Part000.Frame] w
              Hm Hr Hpc) as (_ & _ & _ & w' & rest & Hs & Hc).
  exists w0, w, w', rest.
  split; [exact Hm|]. split; [exact Hr|]. split; [exact Hs|exact Hc].
Defined.

End C7_sample.


Section C10_sample.
Import Sample.


End C10_sample.

(** C5 (as amended).  In both scripts the render pass of every visible
    frame clears to [0.3, 0.3, 0.3, 1], sets the pipeline, the resource
    set, the vertex buffer and the index buffer, and then makes one draw
    call, [draw(cube.vertices.length / 3, 1, 0, 0)]: the draw is not an
    indexed one, and it is the only draw the frame is executed with. *)
Theorem C5_one_draw_not_indexed `{Numbers} `{!GlMatrix} `{!ArcballCamera} :
  (∀ (h : VolumeRaycaster.Host) w0 p es w,
     VolumeRaycaster.main h = Started w0 p →
     VolumeRaycaster.run es w0 = inr (tt, w) →
     VolumeRaycaster.hidden w = false →
     ∃ w' copy o, VolumeRaycaster.step VolumeRaycaster.Frame w = inr (tt, w')
       ∧ last (calls (VolumeRaycaster.dev w'))
         = Some (c_submit
             [ copy;
               RenderPass
                 {| view := Some (surface (VolumeRaycaster.dev w));
                    clearValue := background |}
                 [ SetPipeline (VolumeRaycaster.renderPipeline w);
                   SetBindGroup 0 (VolumeRaycaster.viewParamBG w);
                   SetVertexBuffer 0 (VolumeRaycaster.vertexBuffer w);
                   SetIndexBuffer (VolumeRaycaster.indexBuffer w) "uint16";
                   Draw (length (vertices (VolumeRaycaster.cube w)) / 3) 1 0 0 ] ])
       ∧ presented (VolumeRaycaster.dev w')
         = presented (VolumeRaycaster.dev w) ++ [o]
       ∧ obs_clear o = background
       ∧ obs_draw o = Draw (length (vertices (VolumeRaycaster.cube w)) / 3) 1 0 0)
  ∧
  (∀ (h : Part000.Host) w0 p es w,
     Part000.main h = Started w0 p →
     Part000.run es w0 = inr (tt, w) →
     Part000.pc w = Part000.AwaitMap →
     ∃ w' copy o, Part000.step Part000.MapResolved w = inr (tt, w')
       ∧ last (calls (Part000.dev w'))
         = Some (c_submit
             [ copy;
               RenderPass
                 {| view := Some (surface (Part000.dev w)); clearValue := background |}
                 [ SetPipeline (Part000.renderPipeline (Part000.vars w));
                   SetBindGroup 0 (Part000.bindGroup w);
                   SetVertexBuffer 0 (Part000.vertexBuffer (Part000.vars w));
                   SetIndexBuffer (Part000.indexBuffer (Part000.vars w)) "uint16";
                   Draw (length (vertices (Part000.cube (Part000.vars w))) / 3) 1 0 0 ] ])
       ∧ presented (Part000.dev w') = presented (Part000.dev w) ++ [o]
       ∧ obs_clear o = background
       ∧ obs_draw o
         = Draw (length (vertices (Part000.cube (Part000.vars w))) / 3) 1 0 0).
Proof.
  split.
  - intros h w0 p es w Hm Hr Hh.
    destruct (VolumeRaycasterFacts.visible_frame h w0 w p es Hm Hr Hh)
      as (w' & E & P & HI).
    destruct P. exists w'. eexists _, _. split; [done|].
    pose proof (VolumeRaycasterSpec.inv_clear w HI) as Hc.
    split; [|split; [done|by split]].
    rewrite fp_calls, last_app.
    unfold VolumeRaycasterSpec.frame_calls, VolumeRaycasterSpec.frame_cmds,
      VolumeRaycasterSpec.attachment.
    by rewrite Hc.
  - intros h w0 p es w Hm Hr Hpc.
    destruct (Part000Facts.mapped_frame h w0 w p es Hm Hr Hpc) as [E HI].
    exists (Part000Spec.drawn w). eexists _, _. split; [done|].
    pose proof (Part000Spec.inv_clear w HI) as Hc.
    split; [|split; [done|by split]].
    unfold Part000Spec.drawn. cbn [Part000.dev Part000.set_pc Part000.set_renderPassDesc
      Part000.set_dev calls set_presented set_calls].
    rewrite last_app.
    unfold Part000Spec.map_calls, Part000Spec.frame_cmds, Part000Spec.attachment.
    by rewrite Hc.
Qed.

Section C5_sample.
Import Sample.

(** C5 on the sample page of volume-raycaster.js: the first frame. *)
Lemma C5_witness :
  ∃ w w' o, VolumeRaycaster.main host1 = Started w page
    ∧ VolumeRaycaster.step VolumeRaycaster.Frame w = inr (tt, w')
    ∧ presented (VolumeRaycaster.dev w') = presented (VolumeRaycaster.dev w) ++ [o]
    ∧ obs_draw o = Draw (length (vertices (VolumeRaycaster.cube w)) / 3) 1 0 0.
Proof.
  destruct SampleFacts.start1_started as (w & Hm & Hh & Hn).
  destruct (proj1 C5_one_draw_not_indexed host1 w page [] w Hm eq_refl Hh)
    as (w' & _ & o & Hs & _ & Hp & _ & Hd).
  exists w, w', o.
  split; [exact Hm|]. split; [exact Hs|]. split; [exact Hp|exact Hd].
Defined.

(** C5 as it is stated fails: on the sample page, whose mesh has four
    indices, the render pass of the first frame of volume-raycaster.js
    has no indexed draw; its one draw is [draw(4, 1, 0, 0)]. *)
Lemma C5_no_indexed_draw :
  ∃ w copy att cmds,
    after1 [VolumeRaycaster.Frame] = Some w
    ∧ last (calls (VolumeRaycaster.dev w)) = Some (c_submit [copy; RenderPass att cmds])
    ∧ filter Terms.is_indexed cmds = []
    ∧ filter Terms.is_draw cmds = [Draw 4 1 0 0]
    ∧ length (indices (VolumeRaycaster.cube w)) = 4.
Proof.
  eexists _, _, _, _. split; [vm_compute; reflexivity|].
  split; [vm_compute; reflexivity|]. by vm_compute.
Qed.

End C5_sample.

(** C6 (as amended).  In volume-raycaster.js a frame that finds the
    page hidden leaves the whole state as it is, so any number of them
    does.  In part_000, while the page is hidden and the loop waits for
    an animation frame, animation frames and changes of the selectors make
    no device call and leave the camera, the resource set and the loop
    where they are; only the selector values change.  The first frame
    after the page is visible again takes up a colormap selected
    meanwhile: it starts to load it. *)
Theorem C6_hidden_frames_do_nothing `{Numbers} `{!GlMatrix} `{!ArcballCamera} :
  (∀ (w : VolumeRaycaster.World) n,
     VolumeRaycaster.hidden w = true →
     VolumeRaycaster.run (replicate n VolumeRaycaster.Frame) w = inr (tt, w))
  ∧
  (∀ (w : Part000.World) (evs : list Terms.Idle),
     Part000.hidden w = true →
     Part000.pc w = Part000.AwaitFrame →
     ∃ w', Part000.run (map Terms.idle_event evs) w = inr (tt, w')
       ∧ Part000.dev w' = Part000.dev w
       ∧ Part000.camera w' = Part000.camera w
       ∧ Part000.projView w' = Part000.projView w
       ∧ Part000.heap w' = Part000.heap w
       ∧ Part000.bindGroup w' = Part000.bindGroup w
       ∧ Part000.colormapTexture w' = Part000.colormapTexture w
       ∧ Part000.colormapName w' = Part000.colormapName w
       ∧ Part000.vars w' = Part000.vars w
       ∧ Part000.hidden w' = true
       ∧ Part000.pc w' = Part000.AwaitFrame
       ∧ Part000.pickerValue w' = Terms.picked evs (Part000.pickerValue w)
       ∧ (Part000.pickerValue w' ≠ Part000.colormapName w' →
          Part000.run [Part000.Visibility false; Part000.Frame] w'
          = inr (tt, Part000.set_pc Part000.AwaitImage
                       (Part000.set_colormapName (Part000.pickerValue w')
                          (Part000.set_hidden false w'))))).
Proof.
  split.
  - intros w n Hh. induction n as [|n IH]; [done|].
    cbn [replicate VolumeRaycaster.run VolumeRaycaster.step]. unfold bind.
    by rewrite VolumeRaycasterFacts.frame_hidden.
  - intros w evs. revert w. induction evs as [|e evs IH]; intros w Hh Hpc.
    + exists w. repeat split; try done. intros Hn.
      cbn [Part000.run Part000.step]. unfold Part000.resume, bind, modify, get, ret.
      cbn [Part000.pc Part000.set_hidden]. rewrite Hpc, decide_True by done.
      rewrite Part000Facts.after_frame_swap; [done|done|].
      cbn. congruence.
    + destruct e as [|name|name]; cbn [map Terms.idle_event Part000.run Part000.step];
        unfold Part000.resume, bind, modify, get.
      * rewrite decide_True by done.
        rewrite Part000Facts.after_frame_hidden by done.
        destruct (IH w Hh Hpc) as (w' & Hr & P). by exists w'.
      * destruct (IH (Part000.set_pickerValue name w) Hh Hpc) as (w' & Hr & P).
        by exists w'.
      * destruct (IH (Part000.set_volumePickerValue name w) Hh Hpc) as (w' & Hr & P).
        by exists w'.
Qed.

Section C6_sample.
Import Sample.

(** C6 on the sample page of part_000, hidden right after start-up: two
    animation frames and a selection in between. *)
Lemma C6_witness :
  ∃ w0 w w', Part000.main host2 = Started w0 page
    ∧ Part000.run [Part000.Visibility true] w0 = inr (tt, w)
    ∧ Part000.run [Part000.Frame; Part000.Pick "Cool Warm"; Part000.Frame] w
      = inr (tt, w')
    ∧ Part000.dev w' = Part000.dev w
    ∧ Part000.pickerValue w' = "Cool Warm"%string.
Proof.
  destruct SampleFacts.start2_started as (w0 & Hm & Hh & Hpc & Hn).
  destruct (proj2 C6_hidden_frames_do_nothing (Part000.set_hidden true w0)
              [Terms.IdleFrame; Terms.IdlePick "Cool Warm"; Terms.IdleFrame]
              eq_refl Hpc)
    as (w' & Hr & Hd & _ & _ & _ & _ & _ & _ & _ & _ & _ & Hp & _).
  exists w0, (Part000.set_hidden true w0), w'.
  split; [exact Hm|]. split; [reflexivity|]. split; [exact Hr|].
  split; [exact Hd|exact Hp].
Defined.

(** C6 as it is stated fails in part_000: a frame that is waiting for
    the mapping of the staging buffer when the page is hidden goes on
    when the mapping is there, and submits its commands while the page
    is still hidden. *)
Lemma C6_frame_in_progress_submits_while_hidden :
  ∃ w0 w1 w2 w3 cmds,
    Part000.main host2 = Started w0 page
    ∧ Part000.run [Part000.Frame] w0 = inr (tt, w1)
    ∧ Part000.step (Part000.Visibility true) w1 = inr (tt, w2)
    ∧ Part000.hidden w2 = true
    ∧ Part000.step Part000.MapResolved w2 = inr (tt, w3)
    ∧ Part000.hidden w3 = true
    ∧ last (calls (Part000.dev w3)) = Some (c_submit cmds)
    ∧ length (calls (Part000.dev w3)) = length (calls (Part000.dev w2)) + 16
    ∧ length (presented (Part000.dev w3)) = length (presented (Part000.dev w2)) + 1.
Proof.
  eexists _, _, _, _, _.
  split; [vm_compute; reflexivity|].
  split; [vm_compute; reflexivity|].
  split; [vm_compute; reflexivity|].
  split; [vm_compute; reflexivity|].
  split; [vm_compute; reflexivity|].
  split; [vm_compute; reflexivity|].
  split; [vm_compute; reflexivity|].
  split; by vm_compute.
Qed.

End C6_sample.


(** C3.  In part_000, when the image of a newly selected colormap is
    there, the swap goes through and leaves the camera and the variables
    assigned at start-up (the volume texture and the pipeline among
    them) as they are; the volume texture object is untouched and is
    slot 1 of the new bind group; the device calls made are the creation
    of the colormap texture, the copy of the image into it and the
    creation of the bind group, before the frame goes on to ask for the
    mapping.  In both scripts the callbacks of the camera controller
    change the camera and nothing else: no device call is made. *)
Theorem C3_swap_and_camera_apart `{Numbers} `{!GlMatrix} `{!ArcballCamera} :
  (∀ (h : Part000.Host) w0 p es w width height,
     Part000.main h = Started w0 p →
     Part000.run es w0 = inr (tt, w) →
     Part000.pc w = Part000.AwaitImage →
     0 < width → 0 < height →
     ∃ w' entries,
       Part000.step (Part000.ImageLoaded (Some (width, height))) w = inr (tt, w')
       ∧ Part000.camera w' = Part000.camera w
       ∧ Part000.vars w' = Part000.vars w
       ∧ textures (Part000.dev w') !! Part000.volumeTexture (Part000.vars w)
         = textures (Part000.dev w) !! Part000.volumeTexture (Part000.vars w)
       ∧ bindGroups (Part000.dev w') !! Part000.bindGroup w' = Some entries
       ∧ entries !! 1
         = Some {| binding := 1;
                   resource := TextureView (Part000.volumeTexture (Part000.vars w)) |}
       ∧ Part000.bindGroup w' ≠ Part000.bindGroup w
       ∧ calls (Part000.dev w')
         = calls (Part000.dev w)
           ++ [ c_createTexture (Part000.colormapTexture w');
                c_copyExternalImageToTexture (Part000.colormapTexture w');
                c_createBindGroup (Part000.bindGroup w');
                c_mapAsync (Part000.upload (Part000.vars w)) ])
  ∧
  (∀ (w : Part000.World) e,
     match e with
     | Part000.MouseMove _ _ _ | Part000.Wheel _ | Part000.Pinch _
     | Part000.TwoFingerDrag _ => True
     | _ => False
     end →
     ∃ c, Part000.step e w = inr (tt, Part000.set_camera c w))
  ∧
  (∀ (w : VolumeRaycaster.World) e,
     e ≠ VolumeRaycaster.Frame → (∀ hid, e ≠ VolumeRaycaster.Visibility hid) →
     ∃ c, VolumeRaycaster.step e w = inr (tt, VolumeRaycaster.set_camera c w)).
Proof.
  split; [|split].
  - intros h w0 p es w width height Hm Hr Hpc Hw Hh.
    destruct (Part000Facts.loaded_image h w0 w p es width height Hm Hr Hpc Hw Hh)
      as [E HI].
    eexists _, _. split; [exact E|].
    destruct (Part000Spec.inv_fresh w HI (next_id (Part000.dev w))) as (_ & Ht & Hb);
      [done|].
    destruct (Part000Spec.inv_volume w HI) as [tv Htv].
    pose proof (Part000Spec.inv_bound w HI) as Hbg.
    repeat split.
    + cbn. rewrite lookup_insert_ne; [done|]. intros E'. by rewrite E', Htv in Ht.
    + cbn. by rewrite lookup_insert_eq.
    + done.
    + cbn. intros E'.
      destruct (Part000Spec.inv_fresh w HI (S (next_id (Part000.dev w))))
        as (_ & _ & Hb'); [lia|].
      by rewrite E', Hbg in Hb'.
    + cbn. by rewrite <- !app_assoc.
  - intros w e. apply Part000Facts.loop_step_camera.
  - intros w e. apply VolumeRaycasterFacts.step_camera.
Qed.

Section C3_sample.
Import Sample.

(** C3 on the sample page of part_000: a colormap is selected, the frame
    starts to load it, the image arrives. *)
Lemma C3_witness :
  ∃ w0 w w', Part000.main host2 = Started w0 page
    ∧ Part000.run [Part000.Pick "Cool Warm"; Part000.Frame] w0 = inr (tt, w)
    ∧ Part000.step (Part000.ImageLoaded (Some (4, 1))) w = inr (tt, w')
    ∧ Part000.camera w' = Part000.camera w
    ∧ Part000.vars w' = Part000.vars w
    ∧ Part000.bindGroup w' ≠ Part000.bindGroup w.
Proof.
  destruct SampleFacts.start2_loading as (w0 & w & Hm & Hr & Hpc).
  destruct (proj1 C3_swap_and_camera_apart host2 w0 page _ w 4 1 Hm Hr Hpc
              ltac:(lia) ltac:(lia))
    as (w' & es & Hs & Hc & Hv & _ & _ & _ & Hb & _).
  exists w0, w, w'.
  split; [exact Hm|]. split; [exact Hr|]. split; [exact Hs|].
  split; [exact Hc|]. split; [exact Hv|exact Hb].
Defined.

End C3_sample.

(** C2 (as amended).  In part_000, when a colormap is swapped the array
    that [bindGroupEntries] refers to is kept and its slot 2 is assigned
    in place, the four other entries staying as they are; a bind group
    with a handle that was not in use is then created from all five
    entries and becomes [bindGroup]; every bind group that existed
    before still holds the entries it held; and between the two no
    command is recorded, so the pass of the frame binds the new bind
    group whole. *)
Theorem C2_entries_patched_bind_group_rebuilt
  `{Numbers} `{!GlMatrix} `{!ArcballCamera} :
  ∀ (h : Part000.Host) w0 p es w width height,
    Part000.main h = Started w0 p →
    Part000.run es w0 = inr (tt, w) →
    Part000.pc w = Part000.AwaitImage →
    0 < width → 0 < height →
    ∃ w' old,
      Part000.step (Part000.ImageLoaded (Some (width, height))) w = inr (tt, w')
      ∧ Part000.heap w !! Part000.bindGroupEntries (Part000.vars w) = Some old
      ∧ bindGroups (Part000.dev w) !! Part000.bindGroup w = Some old
      ∧ Part000.bindGroupEntries (Part000.vars w')
        = Part000.bindGroupEntries (Part000.vars w)
      ∧ Part000.heap w'
        = <[Part000.bindGroupEntries (Part000.vars w) :=
              <[2 := {| binding := 2;
                        resource := TextureView (Part000.colormapTexture w') |}]> old]>
            (Part000.heap w)
      ∧ bindGroups (Part000.dev w) !! Part000.bindGroup w' = None
      ∧ bindGroups (Part000.dev w') !! Part000.bindGroup w'
        = Some (<[2 := {| binding := 2;
                          resource := TextureView (Part000.colormapTexture w') |}]> old)
      ∧ map binding (<[2 := {| binding := 2;
                               resource := TextureView (Part000.colormapTexture w') |}]>
                       old)
        = [0; 1; 2; 3; 4]
      ∧ (∀ k entries, bindGroups (Part000.dev w) !! k = Some entries →
           bindGroups (Part000.dev w') !! k = Some entries)
      ∧ calls (Part000.dev w')
        = calls (Part000.dev w)
          ++ [ c_createTexture (Part000.colormapTexture w');
               c_copyExternalImageToTexture (Part000.colormapTexture w');
               c_createBindGroup (Part000.bindGroup w');
               c_mapAsync (Part000.upload (Part000.vars w)) ]
      ∧ Part000Spec.pass_cmds w' !! 1 = Some (SetBindGroup 0 (Part000.bindGroup w')).
Proof.
  intros h w0 p es w width height Hm Hr Hpc Hw Hh.
  destruct (Part000Facts.loaded_image h w0 w p es width height Hm Hr Hpc Hw Hh)
    as [E HI].
  eexists _, _. split; [exact E|].
  pose proof (Part000Spec.inv_heap w HI) as Hheap.
  pose proof (Part000Spec.inv_bound w HI) as Hbg.
  destruct (Part000Spec.inv_fresh w HI (S (next_id (Part000.dev w))))
    as (_ & _ & Hb); [lia|].
  split; [exact Hheap|]. split; [exact Hbg|].
  repeat split; try done.
  - cbn. by rewrite lookup_insert_eq.
  - intros k entries Hk. cbn. rewrite lookup_insert_ne; [done|].
    intros <-. by rewrite Hb in Hk.
  - cbn. by rewrite <- !app_assoc.
Qed.

Section C2_sample.
Import Sample.

(** C2 on the sample page of part_000: a colormap is selected, the frame
    starts to load it, the image arrives. *)
Lemma C2_witness :
  ∃ w0 w w' old, Part000.main host2 = Started w0 page
    ∧ Part000.run [Part000.Pick "Cool Warm"; Part000.Frame] w0 = inr (tt, w)
    ∧ Part000.step (Part000.ImageLoaded (Some (4, 1))) w = inr (tt, w')
    ∧ bindGroups (Part000.dev w) !! Part000.bindGroup w = Some old
    ∧ bindGroups (Part000.dev w') !! Part000.bindGroup w'
      = Some (<[2 := {| binding := 2;
                        resource := TextureView (Part000.colormapTexture w') |}]> old)
    ∧ bindGroups (Part000.dev w) !! Part000.bindGroup w' = None.
Proof.
  destruct SampleFacts.start2_loading as (w0 & w & Hm & Hr & Hpc).
  destruct (C2_entries_patched_bind_group_rebuilt host2 w0 page _ w 4 1 Hm Hr Hpc
              ltac:(lia) ltac:(lia))
    as (w' & old & Hs & _ & Ho & _ & _ & Hf & Hn & _).
  exists w0, w, w', old.
  split; [exact Hm|]. split; [exact Hr|]. split; [exact Hs|].
  split; [exact Ho|]. split; [exact Hn|exact Hf].
Defined.

(** C2 as it is stated fails: on the sample page the swap leaves
    [bindGroupEntries] on the same array, the one whose entries made
    the bind group installed until then, and that array no longer holds
    what it held: its slot 2 was assigned in place. *)
Lemma C2_entries_assigned_in_place :
  ∃ w w',
    after2 [Part000.Pick "Cool Warm"; Part000.Frame] = Some w
    ∧ Part000.step (Part000.ImageLoaded (Some (4, 1))) w = inr (tt, w')
    ∧ Part000.heap w !! Part000.bindGroupEntries (Part000.vars w)
      = bindGroups (Part000.dev w) !! Part000.bindGroup w
    ∧ Part000.bindGroupEntries (Part000.vars w')
      = Part000.bindGroupEntries (Part000.vars w)
    ∧ Part000.heap w' !! Part000.bindGroupEntries (Part000.vars w)
      ≠ Part000.heap w !! Part000.bindGroupEntries (Part000.vars w)
    ∧ (Part000.heap w !! Part000.bindGroupEntries (Part000.vars w)) ≫= (.!! 2)
      = Some {| binding := 2; resource := TextureView 4 |}
    ∧ (Part000.heap w' !! Part000.bindGroupEntries (Part000.vars w)) ≫= (.!! 2)
      = Some {| binding := 2; resource := TextureView 10 |}.
Proof.
  eexists _, _. split; [vm_compute; reflexivity|].
  split; [vm_compute; reflexivity|].
  split; [by vm_compute|]. split; [done|].
  split; [by vm_compute|]. split; by vm_compute.
Qed.

End C2_sample.


Section C8_sample.
Import Sample.



End C8_sample.

(** C9, the case the claim misses.  In volume-raycaster.js, when
    [navigator.gpu] is there and [requestAdapter()] resolves to [null],
    [adapter.requestDevice()] throws a [TypeError]: the script stops
    with the page as it was, the notice not shown.  part_000 tests the
    adapter and shows the notice.  Both show it when [navigator.gpu] is
    missing, and neither enters the frame loop in any of these cases. *)
Theorem C9_no_adapter `{Numbers} `{!GlMatrix} `{!ArcballCamera} :
  (∀ h : VolumeRaycaster.Host,
     VolumeRaycaster.navigator_gpu h = false →
     VolumeRaycaster.main h = Returned (show_notice (VolumeRaycaster.page0 h)))
  ∧ (∀ h : VolumeRaycaster.Host,
     VolumeRaycaster.navigator_gpu h = true → VolumeRaycaster.adapter h = None →
     VolumeRaycaster.main h = Threw TypeError (VolumeRaycaster.page0 h))
  ∧ (∀ h : Part000.Host,
     Part000.navigator_gpu h = false ∨ Part000.adapter h = None →
     Part000.main h = Returned (show_notice (Part000.page0 h)))
  ∧ (∀ p, notice_shown (show_notice p)).
Proof.
  split; [|split; [|split]].
  - intros h Hg. unfold VolumeRaycaster.main. by rewrite Hg.
  - intros h Hg Ha. unfold VolumeRaycaster.main. by rewrite Hg, Ha.
  - intros h [Hg|Ha]; unfold Part000.main.
    + by rewrite Hg.
    + destruct (negb _); [done|]. by rewrite Ha.
  - done.
Qed.

Section C9_sample.
Import Sample.

(** C9 on the sample page with no adapter: volume-raycaster.js throws
    and the notice is not shown; part_000 shows it. *)
Lemma C9_witness :
  VolumeRaycaster.main host1_no_adapter = Threw TypeError page
  ∧ ¬ notice_shown page
  ∧ Part000.main host2_no_adapter = Returned (show_notice page).
Proof.
  split; [|split].
  - exact (proj1 (proj2 C9_no_adapter) host1_no_adapter eq_refl eq_refl).
  - by intros [? _].
  - exact (proj1 (proj2 (proj2 C9_no_adapter)) host2_no_adapter (or_intror eq_refl)).
Defined.

End C9_sample.
(** ** The inline volume upload (volume-raycaster.js, lines 93-119) *)

Lemma requiredBytes_exact (w h dp : nat) :
  0 < w → 0 < h → 0 < dp → requiredBytes w h w h dp = w * h * dp.
Proof.
  intros Hw Hh Hd. unfold requiredBytes.
  destruct dp as [|dp']; [lia|]. destruct h as [|h']; [lia|].
  repeat case_decide; replace (S dp' - 1) with dp' by lia;
    replace (S h' - 1) with h' by lia; nia.
Qed.

Section Upload.
Context `{Numbers} `{!GlMatrix} `{!ArcballCamera}.

Lemma upload_volume_returns (w h dp : nat) (data : list Z) (d : Device) :
  0 < w → 0 < h → 0 < dp →
  wlp (VolumeRaycaster.upload_volume [w; h; dp] data)
      (λ t d', (w mod 256 = 0 ∧ length data mod 4 = 0 ∧ w * h * dp ≤ length data)
               ∧ t = next_id d ∧ VolumeRaycasterSpec.staged w h dp data d d') d.
Proof.
  intros Hw Hh Hd.
  destruct d as [n bufs texs bgs enc ps sf cl prs].
  unfold VolumeRaycaster.upload_volume. wlp_go.
  apply bool_decide_eq_true in Heqb0.
  destruct Heqb0 as (_ & _ & _ & _ & Hal & _ & _ & Hreq).
  change ([w; h; dp] !!! 0) with w in *. change ([w; h; dp] !!! 1) with h in *.
  rewrite requiredBytes_exact in Hreq by done.
  apply negb_false_iff, Nat.eqb_eq in Heqb.
  split; [done|]. split; [done|]. unfold VolumeRaycasterSpec.staged. cbn.
  split; [|by rewrite last_app].
  by rewrite !lookup_insert_eq.
Qed.

Lemma upload_volume_succeeds (w h dp : nat) (data : list Z) (d : Device) :
  0 < w → 0 < h → 0 < dp →
  w mod 256 = 0 → length data mod 4 = 0 → w * h * dp ≤ length data →
  wp (VolumeRaycaster.upload_volume [w; h; dp] data) (λ _ _, True) d.
Proof.
  intros Hw Hh Hd Hal H4 Hlen.
  destruct d as [n bufs texs bgs enc ps sf cl prs].
  unfold VolumeRaycaster.upload_volume. wp_go.
  case_decide as Hpos; [|by destruct Hpos; repeat constructor].
  wp_go.
  rewrite H4. change (negb (0 =? 0)) with false. cbv iota.
  wp_go.
  case_decide; [|lia].
  wp_go.
  rewrite bool_decide_eq_true_2; [by wp_go|].
  change ([w; h; dp] !!! 0) with w. change ([w; h; dp] !!! 1) with h.
  rewrite requiredBytes_exact by done.
  repeat split; try done; try lia; try (by repeat constructor).
Qed.

End Upload.

(** ** C4 *)

Section C4.
Context `{Numbers} `{!GlMatrix} `{!ArcballCamera}.

(** C4 (as the code has it): for a volume of positive dimensions the
    inline upload of volume-raycaster.js goes through exactly when the
    volume's width is a multiple of the 256-byte row alignment, the
    byte length of the fetched data is a multiple of 4 and it is at
    least width × height × depth.  The script compares no lengths and
    pads no rows: when the upload goes through, the staging buffer
    holds the fetched bytes unchanged and the one command submitted
    copies from it with [bytesPerRow] the width and [rowsPerImage] the
    height of the volume. *)
Theorem C4_upload_needs_aligned_width (w h dp : nat) (data : list Z) (d : Device) :
  0 < w → 0 < h → 0 < dp →
  ((∃ r, VolumeRaycaster.upload_volume [w; h; dp] data d = inr r)
   ↔ w mod bytesPerRowAlignment = 0 ∧ length data mod 4 = 0
     ∧ w * h * dp ≤ length data)
  ∧ (∀ t d', VolumeRaycaster.upload_volume [w; h; dp] data d = inr (t, d') →
       t = next_id d ∧ VolumeRaycasterSpec.staged w h dp data d d').
Proof.
  intros Hw Hh Hd.
  pose proof (upload_volume_returns w h dp data d Hw Hh Hd) as Hret.
  split; [split|].
  - intros [[t d'] E]. by destruct (wlp_elim _ _ _ _ _ Hret E) as [? _].
  - intros (Hal & H4 & Hlen).
    destruct (wp_elim _ _ _ (upload_volume_succeeds w h dp data d Hw Hh Hd Hal H4 Hlen))
      as (t & d' & E & _).
    by exists (t, d').
  - intros t d' E. by destruct (wlp_elim _ _ _ _ _ Hret E) as [_ ?].
Qed.

End C4.

Section C4_sample.
Import Sample.

Lemma C4_witness :
  ((∃ r, VolumeRaycaster.upload_volume [256; 2; 1] (replicate 512 0%Z) empty_device = inr r)
   ↔ 256 mod bytesPerRowAlignment = 0 ∧ length (replicate 512 0%Z) mod 4 = 0
     ∧ 256 * 2 * 1 ≤ length (replicate 512 0%Z))
  ∧ (∀ t d', VolumeRaycaster.upload_volume [256; 2; 1] (replicate 512 0%Z) empty_device
             = inr (t, d') →
       t = next_id empty_device
       ∧ VolumeRaycasterSpec.staged 256 2 1 (replicate 512 0%Z) empty_device d').
Proof.
  apply (C4_upload_needs_aligned_width 256 2 1 (replicate 512 0%Z) empty_device); lia.
Defined.

(** C4 fails as stated, twice over.  A volume of 256 × 2 × 1 whose
    data is 516 bytes long, four more than width × height × depth, is
    uploaded all the same; and a volume of 3 × 1 × 1 with 4 bytes of
    data, whose rows are not aligned, is not padded: the command
    recorded has a row pitch of 3, and the upload is rejected. *)
Lemma C4_no_length_check_no_padding :
  (∃ r, VolumeRaycaster.upload_volume [256; 2; 1] (replicate 516 0%Z) empty_device = inr r)
  ∧ length (replicate 516 0%Z) ≠ 256 * 2 * 1
  ∧ VolumeRaycaster.upload_volume [3; 1; 1] (replicate 4 0%Z) empty_device
    = inl ValidationError.
Proof.
  split; [|split].
  - eexists. vm_compute. reflexivity.
  - by vm_compute.
  - by vm_compute.
Qed.

End C4_sample.

(** * Further properties *)

(** ** Start-up of volume-raycaster.js *)

(** Writing a typed array over all of a buffer that was just created. *)
Lemma ta_set_all {A} (x : A) (src : list A) :
  ta_set (replicate ((length src * 4) `div` 4) x) src 0 = Some src.
Proof.
  rewrite Nat.div_mul by done. unfold ta_set.
  rewrite decide_True by (rewrite length_replicate; lia).
  rewrite take_0, drop_ge by (rewrite length_replicate; lia).
  by rewrite app_nil_r.
Qed.

Lemma Forall_pos3 (a b c : nat) :
  Forall (λ n, 0 < n) [a; b; c] ↔ 0 < a ∧ 0 < b ∧ 0 < c.
Proof.
  split.
  - intros F. inversion F as [|? ? ? F1]. inversion F1 as [|? ? ? F2].
    by inversion F2.
  - intros (? & ? & ?). by repeat constructor.
Qed.

Section Startup.
Context `{Numbers} `{!GlMatrix} `{!ArcballCamera}.

(** What lines 44-188 leave behind when they go through, and what they
    need to. *)
Lemma setup_start (h : VolumeRaycaster.Host) :
  wlp (VolumeRaycaster.setup h)
    (λ w d,
       (∃ width height a b c,
          VolumeRaycaster.colormapImage h = Some (width, height)
          ∧ 0 < width ∧ 0 < height
          ∧ VolumeRaycaster.volumeDims h = [a; b; c]
          ∧ 0 < a ∧ 0 < b ∧ 0 < c
          ∧ a mod bytesPerRowAlignment = 0
          ∧ length (VolumeRaycaster.volumeData h) mod 4 = 0
          ∧ a * b * c ≤ length (VolumeRaycaster.volumeData h))
       ∧ VolumeRaycaster.vertexBuffer w = 0
       ∧ VolumeRaycaster.indexBuffer w = 1
       ∧ VolumeRaycaster.viewParamsBuffer w = 2
       ∧ VolumeRaycaster.cube w = VolumeRaycaster.the_cube h
       ∧ VolumeRaycaster.hidden w = VolumeRaycaster.hidden0 h
       ∧ VolumeRaycaster.camera w = VolumeRaycaster.camera0 h
       ∧ VolumeRaycaster.proj w = VolumeRaycaster.proj0 h
       ∧ buffers d !! 0
         = Some {| buf_size := length (vertices (VolumeRaycaster.the_cube h)) * 4;
                   buf_usage := [VERTEX]; buf_map := Unmapped;
                   buf_data := F32 (vertices (VolumeRaycaster.the_cube h)) |}
       ∧ buffers d !! 1
         = Some {| buf_size := length (indices (VolumeRaycaster.the_cube h)) * 4;
                   buf_usage := [INDEX]; buf_map := Unmapped;
                   buf_data := U16 (indices (VolumeRaycaster.the_cube h)) |}
       ∧ next_id d = 9
       ∧ size (buffers d) = 4
       ∧ presented d = []
       ∧ filter Terms.is_destroy (calls d) = [])
    empty_device.
Proof.
  destruct h as [gpu ad pg msgs [vs ixs] img dims data cam0 pr0 hid0].
  unfold VolumeRaycaster.setup, empty_device.
  cbn [VolumeRaycaster.the_cube VolumeRaycaster.volumeDims VolumeRaycaster.volumeData
       VolumeRaycaster.colormapImage VolumeRaycaster.camera0 VolumeRaycaster.proj0
       VolumeRaycaster.hidden0 vertices indices].
  wlp_go.
  rewrite ta_set_all in Heqo. injection Heqo as <-.
  apply bool_decide_eq_true in Heqb2.
  destruct Heqb2 as (_ & _ & _ & _ & Hal & _ & _ & Hreq).
  change ([n1; n2; n3] !!! 0) with n1 in *. change ([n1; n2; n3] !!! 1) with n2 in *.
  destruct (proj1 (Forall_pos3 _ _ _) f) as (? & ? & _).
  destruct (proj1 (Forall_pos3 _ _ _) f0) as (? & ? & ?).
  rewrite requiredBytes_exact in Hreq by done.
  apply negb_false_iff, Nat.eqb_eq in Heqb1.
  clear Heqb3.
  split.
  { exists n, n0, n1, n2, n3. repeat (split; [assumption || reflexivity|]). assumption. }
  cbn [VolumeRaycaster.vertexBuffer VolumeRaycaster.indexBuffer
       VolumeRaycaster.viewParamsBuffer VolumeRaycaster.cube VolumeRaycaster.hidden
       VolumeRaycaster.camera VolumeRaycaster.proj buffers next_id presented calls].
  do 7 (split; [reflexivity|]).
  split; [rewrite !lookup_insert_ne by done; by rewrite lookup_insert_eq|].
  split; [rewrite !lookup_insert_ne by done; by rewrite lookup_insert_eq|].
  split; [reflexivity|].
  split.
  { rewrite !map_size_insert_None, map_size_empty; [done|..];
      rewrite ?lookup_insert_ne by done; apply lookup_empty. }
  split; reflexivity.
Qed.


End Startup.

(** ** The frames of volume-raycaster.js, counted *)

Section Frames.
Context `{Numbers} `{!GlMatrix} `{!ArcballCamera}.
Import VolumeRaycaster VolumeRaycasterSpec VolumeRaycasterFacts.

Lemma Grown_refl (w : World) : Terms.Grown 0 w w.
Proof.
  split; try done; try lia.
  exists []. by rewrite app_nil_r.
Qed.

Lemma Grown_trans (n m : nat) (w w1 w2 : World) :
  Terms.Grown n w w1 → Terms.Grown m w1 w2 → Terms.Grown (n + m) w w2.
Proof.
  intros [] []. split; try congruence; try lia.
  - destruct gr_calls as (new1 & E1 & D1), gr_calls0 as (new2 & E2 & D2).
    exists (new1 ++ new2). rewrite E2, E1, <- app_assoc. split; [done|].
    by rewrite filter_app, D1, D2.
  - intros k Hk Hv. rewrite gr_kept0; [by apply gr_kept|lia|congruence].
Qed.

(** A frame that runs while the page is visible. *)
Lemma FramePost_Grown (w w' : World) : Inv w → FramePost w w' → Terms.Grown 1 w w'.
Proof.
  intros HI P. destruct P.
  destruct fp_uniform0 as (b & Hb & Hb').
  pose proof (inv_fresh w HI (next_id (dev w)) ltac:(lia)) as Hfresh.
  assert (viewParamsBuffer w ≠ next_id (dev w)) as Hne.
  { intros E. rewrite E in Hb. by rewrite Hfresh in Hb. }
  split; try done; try lia.
  - assert (buffers (dev w')
            = <[next_id (dev w) :=
                  {| buf_size := 20 * 4; buf_usage := [COPY_SRC];
                     buf_map := Unmapped; buf_data := F32 (record w) |}]>
                (<[viewParamsBuffer w :=
                     {| buf_size := buf_size b; buf_usage := buf_usage b;
                        buf_map := Unmapped; buf_data := F32 (record w) |}]>
                   (buffers (dev w)))) as ->.
    { apply map_eq. intros k.
      destruct (decide (k = next_id (dev w))) as [->|Hk1].
      { by rewrite lookup_insert_eq. }
      rewrite lookup_insert_ne by done.
      destruct (decide (k = viewParamsBuffer w)) as [->|Hk2].
      { by rewrite lookup_insert_eq. }
      rewrite lookup_insert_ne by done. by apply fp_buffers0. }
    rewrite map_size_insert_None by (by rewrite lookup_insert_ne).
    rewrite map_size_insert_Some by done. lia.
  - rewrite fp_presented0, length_app. cbn. lia.
  - exists (frame_calls w). split; [done|]. reflexivity.
  - intros k Hk Hv. apply fp_buffers0; [lia|done].
Qed.

Lemma step_Grown (e : Event) (w w' : World) :
  Inv w → step e w = inr (tt, w') →
  Terms.Grown (Terms.visible_frames (hidden w) [e]) w w'
  ∧ hidden w' = match e with Visibility hid => hid | _ => hidden w end.
Proof.
  intros HI Hs. destruct e; cbn [step Terms.visible_frames] in *.
  - destruct (hidden w) eqn:Hh.
    + rewrite frame_hidden in Hs by done. injection Hs as <-.
      split; [apply Grown_refl|done].
    + destruct (wp_elim _ _ _ (frame_visible w HI Hh)) as ([] & w1 & E & P).
      rewrite E in Hs. injection Hs as <-.
      split; [by apply FramePost_Grown|]. destruct P. congruence.
  - injection Hs as <-. unfold mousemove.
    destruct (buttons =? 1)%Z; [split; [|done]|].
    { split; try done; try lia. exists []. by rewrite app_nil_r. }
    destruct (buttons =? 2)%Z; split; try done; try apply Grown_refl.
    split; try done; try lia. exists []. by rewrite app_nil_r.
  - injection Hs as <-. split; [|done].
    split; try done; try lia. exists []. by rewrite app_nil_r.
  - injection Hs as <-. split; [|done].
    split; try done; try lia. exists []. by rewrite app_nil_r.
  - injection Hs as <-. split; [|done].
    split; try done; try lia. exists []. by rewrite app_nil_r.
  - injection Hs as <-. split; [|done].
    split; try done; try lia. exists []. by rewrite app_nil_r.
Qed.

End Frames.

Lemma hadError_spec (types : list string) :
  hadError types = true ↔ "error"%string ∈ types.
Proof.
  unfold hadError. rewrite existsb_exists. split.
  - intros (t & Hin & Ht). apply String.eqb_eq in Ht as ->.
    by apply list_elem_of_In.
  - intros Hin. exists "error"%string. split; [by apply list_elem_of_In|done].
Qed.


Section Started.
Context `{Numbers} `{!GlMatrix} `{!ArcballCamera}.
Import VolumeRaycaster VolumeRaycasterSpec VolumeRaycasterFacts.

(** The state in which the frame loop of volume-raycaster.js is
    entered. *)
Lemma main_start (h : Host) (w0 : World) (p : Page) :
  main h = Started w0 p →
  vertexBuffer w0 = 0 ∧ indexBuffer w0 = 1 ∧ viewParamsBuffer w0 = 2
  ∧ cube w0 = the_cube h ∧ hidden w0 = hidden0 h
  ∧ camera w0 = camera0 h ∧ proj w0 = proj0 h
  ∧ buffers (dev w0) !! 0
    = Some {| buf_size := length (vertices (the_cube h)) * 4;
              buf_usage := [VERTEX]; buf_map := Unmapped;
              buf_data := F32 (vertices (the_cube h)) |}
  ∧ buffers (dev w0) !! 1
    = Some {| buf_size := length (indices (the_cube h)) * 4;
              buf_usage := [INDEX]; buf_map := Unmapped;
              buf_data := U16 (indices (the_cube h)) |}
  ∧ next_id (dev w0) = 9
  ∧ size (buffers (dev w0)) = 4
  ∧ presented (dev w0) = []
  ∧ filter Terms.is_destroy (calls (dev w0)) = [].
Proof.
  unfold main. destruct (negb _); [done|]. destruct (adapter h); [|done].
  destruct (hadError _); [done|].
  destruct (setup h empty_device) as [e|[w' d]] eqn:E; [done|].
  intros [= <- <-].
  destruct (wlp_elim _ _ _ _ _ (setup_start h) E) as [_ P].
  by destruct w'.
Qed.

Lemma visible_frames_cons (hid : bool) (e : Event) (es : list Event) :
  Terms.visible_frames hid (e :: es)
  = Terms.visible_frames hid [e]
    + Terms.visible_frames (match e with Visibility hid' => hid' | _ => hid end) es.
Proof. destruct e; cbn; lia. Qed.

Lemma run_Grown (es : list Event) (w w' : World) :
  Inv w → run es w = inr (tt, w') →
  Terms.Grown (Terms.visible_frames (hidden w) es) w w'.
Proof.
  revert w. induction es as [|e es IH]; intros w HI Hr.
  - injection Hr as <-. apply Grown_refl.
  - destruct (step_Inv e w HI) as (w1 & E1 & HI1).
    cbn [run] in Hr. unfold bind in Hr. rewrite E1 in Hr.
    destruct (step_Grown e w w1 HI E1) as [G1 Hh].
    rewrite visible_frames_cons. eapply Grown_trans; [exact G1|].
    rewrite <- Hh. by apply IH.
Qed.

End Started.

(** ** What volume-raycaster.js does from start-up on *)

Section V1.
Context `{Numbers} `{!GlMatrix} `{!ArcballCamera}.
Import VolumeRaycaster VolumeRaycasterSpec VolumeRaycasterFacts.


(** X2.  When a shader compilation message is of type "error",
    volume-raycaster.js returns before its start-up creates anything and
    leaves the page as it is: the notice is not shown and the frame loop
    is not entered.  It returns before the first frame is requested in
    no other case than this one and the one of [navigator.gpu] missing,
    where it shows the notice. *)
Theorem X2_shader_error_stops (h : Host) :
  (navigator_gpu h = true → is_Some (adapter h) →
   "error"%string ∈ compilationMessages h →
   main h = Returned (page0 h))
  ∧ (∀ p, main h = Returned p →
       (navigator_gpu h = false ∧ p = show_notice (page0 h))
       ∨ (navigator_gpu h = true ∧ "error"%string ∈ compilationMessages h
          ∧ p = page0 h)).
Proof.
  unfold main. split.
  - intros -> [u ->] He. apply hadError_spec in He. by rewrite He.
  - intros p. destruct (navigator_gpu h); cbn [negb].
    + destruct (adapter h); [|done].
      destruct (hadError _) eqn:He.
      * intros [= <-]. right. by rewrite <- hadError_spec.
      * by destruct (setup h empty_device) as [e|[w' d]].
    + intros [= <-]. by left.
Qed.

(** X3.  Once volume-raycaster.js has entered its frame loop, no event
    of the page makes it fail: every sequence of animation frames,
    pointer events and changes of visibility runs to its end, no call of
    a frame being refused by the device. *)
Theorem X3_frames_never_fail (h : Host) (w0 : World) (p : Page) (es : list Event) :
  main h = Started w0 p → ∃ w, run es w0 = inr (tt, w).
Proof.
  intros Hm. destruct (reachable_Inv h w0 p es Hm) as (w & Hr & _). by exists w.
Qed.


(** X5.  The draws volume-raycaster.js has had executed are as many as
    the frames that found the page visible: a frame that finds it hidden
    draws nothing, and nothing else draws. *)
Theorem X5_one_draw_per_visible_frame (h : Host) (w0 w : World) (p : Page)
  (es : list Event) :
  main h = Started w0 p → run es w0 = inr (tt, w) →
  length (presented (dev w)) = Terms.visible_frames (hidden0 h) es.
Proof.
  intros Hm Hr.
  destruct (main_start h w0 p Hm)
    as (_ & _ & _ & _ & Hh & _ & _ & _ & _ & _ & _ & Hp & _).
  destruct (run_Grown es w0 w (main_Inv h w0 p Hm) Hr).
  rewrite Hh, Hp in *. done.
Qed.

(** X6.  volume-raycaster.js creates no texture and no bind group after
    start-up and assigns none of its handles again: in every state it
    reaches the textures and the bind groups of the device are those of
    start-up, and the bind group its frames bind is the one made at
    start-up of the uniform buffer, the volume texture, the colormap
    texture and the sampler. *)
Theorem X6_resource_set_fixed (h : Host) (w0 w : World) (p : Page)
  (es : list Event) :
  main h = Started w0 p → run es w0 = inr (tt, w) →
  textures (dev w) = textures (dev w0)
  ∧ bindGroups (dev w) = bindGroups (dev w0)
  ∧ viewParamBG w = viewParamBG w0
  ∧ bindGroups (dev w) !! viewParamBG w
    = Some [ {| binding := 0; resource := BufferBinding (viewParamsBuffer w0) |};
             {| binding := 1; resource := TextureView (volumeTexture w0) |};
             {| binding := 2; resource := TextureView (colormapTexture w0) |};
             {| binding := 3; resource := Sampler (sampler w0) |} ]
  ∧ renderPipeline w = renderPipeline w0
  ∧ vertexBuffer w = vertexBuffer w0
  ∧ indexBuffer w = indexBuffer w0.
Proof.
  intros Hm Hr.
  pose proof (main_Inv h w0 p Hm) as HI.
  destruct (run_Grown es w0 w HI Hr).
  repeat split; try done.
  rewrite gr_bindGroups, gr_viewParamBG. apply (inv_bound w0 HI).
Qed.


End V1.

Section V1_samples.
Import Sample.
Import VolumeRaycaster.


(** X2 on the sample page whose shader compiles with a warning and an
    error. *)
Lemma X2_witness :
  main (host1_logging ["warning"; "error"]%string) = Returned page.
Proof.
  apply (proj1 (X2_shader_error_stops (host1_logging ["warning"; "error"]%string)));
    [reflexivity|by exists tt|].
  by repeat constructor.
Defined.

(** X3 on the sample page: frames, a rotation, the page hidden and a
    frame meanwhile. *)
Lemma X3_witness :
  ∃ w0, main host1 = Started w0 page
    ∧ ∃ w, run [Frame; MouseMove (0, 0)%Z (1, 0)%Z 1; Frame; Visibility true; Frame] w0
           = inr (tt, w).
Proof.
  destruct SampleFacts.start1_started as (w0 & Hm & _).
  exists w0. split; [exact Hm|].
  exact (X3_frames_never_fail host1 w0 page _ Hm).
Defined.


(** X5 on the sample page: of three frames, two find the page visible. *)
Lemma X5_witness :
  ∃ w0 w, main host1 = Started w0 page
    ∧ run [Frame; Visibility true; Frame; Visibility false; Frame] w0 = inr (tt, w)
    ∧ length (presented (dev w)) = 2.
Proof.
  destruct SampleFacts.start1_started as (w0 & Hm & _).
  destruct (VolumeRaycasterFacts.reachable_Inv host1 w0 page
              [Frame; Visibility true; Frame; Visibility false; Frame] Hm)
    as (w & Hr & _).
  pose proof (X5_one_draw_per_visible_frame host1 w0 w page _ Hm Hr) as Hp.
  exists w0, w. split; [exact Hm|]. split; [exact Hr|exact Hp].
Defined.

(** X6 on the sample page: two frames and a turn of the wheel. *)
Lemma X6_witness :
  ∃ w0 w, main host1 = Started w0 page
    ∧ run [Frame; Wheel 1%Z; Frame] w0 = inr (tt, w)
    ∧ textures (dev w) = textures (dev w0)
    ∧ bindGroups (dev w) = bindGroups (dev w0)
    ∧ viewParamBG w = viewParamBG w0.
Proof.
  destruct SampleFacts.start1_started as (w0 & Hm & _).
  destruct (VolumeRaycasterFacts.reachable_Inv host1 w0 page
              [Frame; @Wheel ZNumbers 1%Z; Frame] Hm) as (w & Hr & _).
  destruct (X6_resource_set_fixed host1 w0 w page _ Hm Hr) as (Ht & Hb & Hv & _).
  exists w0, w. split; [exact Hm|]. split; [exact Hr|].
  split; [exact Ht|]. split; [exact Hb|exact Hv].
Defined.


End V1_samples.

(** ** Start-up of part_000 *)

Section LoopStartup.
Context `{Numbers} `{!GlMatrix} `{!ArcballCamera}.
Import Part000 Part000Spec Part000Facts.


Lemma loop_setup_start (h : Host) (name : string) :
  wlp (bufs <- setup_buffers h;; setup h name bufs)
      (λ w d,
         volumeName (vars w) = name
         ∧ colormapName w = "dBZ Radarscope"%string
         ∧ pickerValue w = picker0 h
         ∧ hidden w = hidden0 h
         ∧ camera w = camera0 h
         ∧ pc w = AwaitFrame
         ∧ upload (vars w) = 9
         ∧ next_id d = 10
         ∧ size (buffers d) = 5
         ∧ size (textures d) = 2
         ∧ presented d = [])
      empty_device.
Proof.
  destruct h as [gpu ad pg msgs [vs ixs] hash vols img rdims rsize cam0 pr0 hid0 pk0 vpk0].
  unfold setup_buffers, setup, empty_device.
  cbn [the_cube colormapImage radarDims radarDataSize camera0 proj0 hidden0 picker0
       volumePicker0 vertices indices].
  wlp_go.
  cbn [volumeName vars colormapName pickerValue hidden camera pc upload next_id
       buffers textures presented].
  do 8 (split; [reflexivity|]).
  split.
  { rewrite !map_size_insert_None, map_size_empty; [done|..];
      rewrite ?lookup_insert_ne by done; apply lookup_empty. }
  split; [|reflexivity].
  rewrite !map_size_insert_None, map_size_empty; [done|..];
    rewrite ?lookup_insert_ne by done; apply lookup_empty.
Qed.

Lemma loop_main_start (h : Host) (w0 : World) (p : Page) :
  main h = Started w0 p →
  linked_volume h = Some (volumeName (vars w0))
  ∧ colormapName w0 = "dBZ Radarscope"%string
  ∧ pickerValue w0 = picker0 h
  ∧ hidden w0 = hidden0 h
  ∧ camera w0 = camera0 h
  ∧ pc w0 = AwaitFrame
  ∧ upload (vars w0) = 9
  ∧ next_id (dev w0) = 10
  ∧ size (buffers (dev w0)) = 5
  ∧ size (textures (dev w0)) = 2
  ∧ presented (dev w0) = [].
Proof.
  unfold main. destruct (negb _); [done|]. destruct (adapter h); [|done].
  destruct (hadError _); [done|].
  destruct (setup_buffers h empty_device) as [e|[bufs d]] eqn:E1; [done|].
  destruct (linked_volume h) as [name|]; [|done].
  destruct (setup h name bufs d) as [e|[w' d']] eqn:E2; [done|].
  intros [= <- <-].
  assert ((bufs <- setup_buffers h;; setup h name bufs) empty_device = inr (w', d'))
    as E by (unfold bind; by rewrite E1).
  destruct (wlp_elim _ _ _ _ _ (loop_setup_start h name) E) as (<- & P).
  by destruct w'.
Qed.

End LoopStartup.

(** ** What part_000 does from start-up on *)

Section V2.
Context `{Numbers} `{!GlMatrix} `{!ArcballCamera}.
Import Part000 Part000Spec Part000Facts.

Lemma loop_step_buffers (e : Event) (w w' : World) :
  Inv w → step e w = inr (tt, w') →
  dom (buffers (dev w')) = dom (buffers (dev w)) ∧ vars w' = vars w.
Proof.
  intros HI. destruct e; cbn [step]; unfold resume, bind, get.
  - destruct (decide (pc w = AwaitFrame)) as [Hpc|]; [|by intros [= <-]].
    assert (pc w ≠ AwaitMap) as Hpc' by (by rewrite Hpc).
    destruct (hidden w) eqn:Hh.
    { rewrite after_frame_hidden by done. by intros [= <-]. }
    destruct (decide (colormapName w = pickerValue w)) as [Hn|Hn].
    { rewrite after_frame_same by done. intros [= <-]. cbn.
      by rewrite dom_alter_L. }
    rewrite after_frame_swap by done. by intros [= <-].
  - destruct (decide (pc w = AwaitImage)) as [Hpc|]; [|by intros [= <-]].
    assert (pc w ≠ AwaitMap) as Hpc' by (by rewrite Hpc).
    intros E. apply after_image_inr in E as (width & height & _ & ? & ? & ->); try done.
    cbn. by rewrite dom_alter_L.
  - destruct (decide (pc w = AwaitMap)) as [Hpc|]; [|by intros [= <-]].
    rewrite after_map_ok by done. intros [= <-]. cbn.
    by rewrite !dom_alter_L.
  - unfold modify. intros [= <-]. unfold mousemove. by repeat case_match.
  - unfold modify. by intros [= <-].
  - unfold modify. by intros [= <-].
  - unfold modify. by intros [= <-].
  - unfold modify. by intros [= <-].
  - unfold modify. by intros [= <-].
  - unfold modify. by intros [= <-].
Qed.

Lemma loop_run_buffers (es : list Event) (w w' : World) :
  Inv w → run es w = inr (tt, w') →
  dom (buffers (dev w')) = dom (buffers (dev w)) ∧ vars w' = vars w.
Proof.
  revert w. induction es as [|e es IH]; intros w HI Hr.
  - by injection Hr as <-.
  - cbn [run] in Hr. unfold bind in Hr.
    destruct (step e w) as [err|[[] w1]] eqn:E1; [done|].
    destruct (loop_step_buffers e w w1 HI E1) as [Hd Hv].
    destruct (IH w1 (loop_step_Inv e w w1 HI E1) Hr) as [Hd' Hv'].
    split; congruence.
Qed.

(** X8.  part_000 has one staging buffer, created before the loop: in
    every state the script reaches the device holds the buffers it held
    when the loop was entered and no other, the variables assigned at
    start-up keep their values, and the staging buffer, of 80 bytes, is
    waiting to be mapped exactly while the loop waits for the mapping
    and is unmapped otherwise. *)
Theorem X8_one_staging_buffer (h : Host) (w0 w : World) (p : Page)
  (es : list Event) :
  main h = Started w0 p → run es w0 = inr (tt, w) →
  dom (buffers (dev w)) = dom (buffers (dev w0))
  ∧ vars w = vars w0
  ∧ ∃ u, buffers (dev w) !! upload (vars w0) = Some u
      ∧ buf_size u = 20 * 4
      ∧ buf_usage u = [MAP_WRITE; COPY_SRC]
      ∧ buf_map u = if decide (pc w = AwaitMap) then Pending else Unmapped.
Proof.
  intros Hm Hr.
  pose proof (loop_main_Inv h w0 p Hm) as HI0.
  pose proof (loop_run_Inv es w0 w HI0 Hr) as HI.
  destruct (loop_run_buffers es w0 w HI0 Hr) as [Hd Hv].
  split; [done|]. split; [done|].
  destruct (inv_upload w HI) as (u & ? & Hu & Hsz & Hus & Hmap & _).
  rewrite Hv in Hu. by exists u.
Qed.

(** X9.  Once part_000 has entered its loop, the only event that can
    stop it is the colormap image of a swap that fails to load or has an
    empty extent: every other event, in every state the script reaches,
    is handled without an exception. *)
Theorem X9_only_the_image_can_fail (h : Host) (w0 w : World) (p : Page)
  (es : list Event) (e : Event) (err : Error) :
  main h = Started w0 p → run es w0 = inr (tt, w) →
  step e w = inl err →
  pc w = AwaitImage
  ∧ ∃ image, e = ImageLoaded image
      ∧ ∀ width height, image = Some (width, height) → ¬ (0 < width ∧ 0 < height).
Proof.
  intros Hm Hr.
  pose proof (loop_reachable_Inv h w0 w p es Hm Hr) as HI.
  destruct e; cbn [step]; unfold resume, bind, get; try done.
  - destruct (decide (pc w = AwaitFrame)) as [Hpc|]; [|done].
    assert (pc w ≠ AwaitMap) as Hpc' by (by rewrite Hpc).
    destruct (hidden w) eqn:Hh.
    { by rewrite after_frame_hidden. }
    destruct (decide (colormapName w = pickerValue w)) as [Hn|Hn].
    { by rewrite after_frame_same. }
    by rewrite after_frame_swap.
  - destruct (decide (pc w = AwaitImage)) as [Hpc|]; [|done].
    assert (pc w ≠ AwaitMap) as Hpc' by (by rewrite Hpc).
    intros E. split; [done|]. exists image. split; [done|].
    intros width height -> [Hw Hh].
    by rewrite after_image_ok in E.
  - destruct (decide (pc w = AwaitMap)) as [Hpc|]; [|done].
    by rewrite after_map_ok.
Qed.

End V2.

Section V2Frames.
Context `{Numbers} `{!GlMatrix} `{!ArcballCamera}.
Import Part000 Part000Spec Part000Facts.

(** X10.  A frame of part_000 that finds the page visible looks at the
    colormap selector once.  With the selection unchanged it makes one
    device call, [mapAsync] on the staging buffer, and creates no
    texture and no bind group.  With a new selection it takes the name
    and waits for the image, and makes no device call at all until the
    image is there: [projView] is not recomputed and the staging buffer
    is not asked for. *)
Theorem X10_frame_looks_at_the_selection (h : Host) (w0 w : World) (p : Page)
  (es : list Event) :
  main h = Started w0 p → run es w0 = inr (tt, w) →
  pc w = AwaitFrame → hidden w = false →
  ∃ w', step Frame w = inr (tt, w')
    ∧ textures (dev w') = textures (dev w)
    ∧ bindGroups (dev w') = bindGroups (dev w)
    ∧ bindGroup w' = bindGroup w
    ∧ colormapTexture w' = colormapTexture w
    ∧ colormapName w' = pickerValue w
    ∧ (colormapName w = pickerValue w →
         pc w' = AwaitMap
         ∧ calls (dev w') = calls (dev w) ++ [c_mapAsync (upload (vars w))]
         ∧ projView w'
           = mat4_mul (proj (vars w)) (camera_matrix (camera w)))
    ∧ (colormapName w ≠ pickerValue w →
         pc w' = AwaitImage ∧ dev w' = dev w ∧ projView w' = projView w).
Proof.
  intros Hm Hr Hpc Hh.
  pose proof (loop_reachable_Inv h w0 w p es Hm Hr) as HI.
  assert (pc w ≠ AwaitMap) as Hpc' by (by rewrite Hpc).
  cbn [step]. unfold resume, bind, get. rewrite decide_True by done.
  destruct (decide (colormapName w = pickerValue w)) as [Hn|Hn].
  - rewrite after_frame_same by done. eexists. split; [done|].
    by repeat split.
  - rewrite after_frame_swap by done. eexists. split; [done|].
    by repeat split.
Qed.

(** X11.  When nothing happens between the frame and the mapping of the
    staging buffer, the record is that of one camera state: the frame
    that finds the page visible and the selection unchanged, followed by
    the mapping, stages the projection-view matrix and the eye position
    of the camera as it was when the frame started, leaves that record
    in the uniform buffer, has the draw executed with it, and is back at
    the wait for the next animation frame. *)
Theorem X11_record_of_one_camera (h : Host) (w0 w : World) (p : Page)
  (es : list Event) :
  main h = Started w0 p → run es w0 = inr (tt, w) →
  pc w = AwaitFrame → hidden w = false → colormapName w = pickerValue w →
  let r := mat4_mul (proj (vars w)) (camera_matrix (camera w))
           ++ eyePos (camera w) ++ [zero] in
  ∃ w' u o,
    run [Frame; MapResolved] w = inr (tt, w')
    ∧ pc w' = AwaitFrame
    ∧ camera w' = camera w
    ∧ buffers (dev w') !! viewParamsBuffer (vars w) = Some u
    ∧ buf_map u = Unmapped
    ∧ buf_data u = F32 r
    ∧ presented (dev w') = presented (dev w) ++ [o]
    ∧ obs_uniform o = Some r.
Proof.
  intros Hm Hr Hpc Hh Hn r.
  pose proof (loop_reachable_Inv h w0 w p es Hm Hr) as HI.
  assert (pc w ≠ AwaitMap) as Hpc' by (by rewrite Hpc).
  pose proof (recomputed_Inv w HI Hpc') as HI1.
  destruct (inv_uniform (recomputed w) HI1) as (u & ? & Hu & _).
  exists (drawn (recomputed w)). eexists _, _.
  split.
  { cbn [run step]. unfold resume, bind, get, ret.
    rewrite decide_True by done. rewrite after_frame_same by done.
    rewrite decide_True by done. by rewrite after_map_ok. }
  split; [done|]. split; [done|].
  split.
  { cbn [drawn dev set_pc set_renderPassDesc set_dev buffers set_presented set_calls
         set_surface set_pass set_encoder set_buffers vars].
    change (vars (recomputed w)) with (vars w) in *.
    rewrite lookup_alter_eq, lookup_alter_ne by apply (inv_distinct w HI).
    rewrite Hu. reflexivity. }
  split; [done|]. split; [done|]. by split.
Qed.

(** X12.  part_000 puts up "dBZ Radarscope" at start-up whatever the
    colormap selector shows: when the selector shows another name, the
    first frame that finds the page visible takes that name and starts
    to load its image before anything is drawn. *)
Theorem X12_first_frame_reloads (h : Host) (w0 : World) (p : Page) :
  main h = Started w0 p →
  colormapName w0 = "dBZ Radarscope"%string
  ∧ (hidden0 h = false → picker0 h ≠ "dBZ Radarscope"%string →
     ∃ w, step Frame w0 = inr (tt, w)
       ∧ pc w = AwaitImage
       ∧ colormapName w = picker0 h
       ∧ dev w = dev w0
       ∧ presented (dev w) = []).
Proof.
  intros Hm.
  destruct (loop_main_start h w0 p Hm)
    as (_ & Hc & Hp & Hh & _ & Hpc & _ & _ & _ & _ & Hpr).
  split; [done|]. intros Hvis Hne.
  cbn [step]. unfold resume, bind, get. rewrite decide_True by done.
  rewrite after_frame_swap by congruence.
  eexists. split; [done|]. by repeat split.
Qed.


End V2Frames.

Section V2_samples.
Import Sample.
Import Part000.

(** X8 on the sample page: the first frame, waiting for the mapping. *)
Lemma X8_witness :
  ∃ w0 w, main host2 = Started w0 page
    ∧ run [Frame] w0 = inr (tt, w)
    ∧ dom (buffers (dev w)) = dom (buffers (dev w0))
    ∧ vars w = vars w0.
Proof.
  destruct SampleFacts.start2_mapping as (w0 & w & Hm & Hr & _).
  destruct (X8_one_staging_buffer host2 w0 w page _ Hm Hr) as (Hd & Hv & _).
  exists w0, w. split; [exact Hm|]. split; [exact Hr|]. split; [exact Hd|exact Hv].
Defined.

(** X9 on the sample page: the image of the colormap selected does not
    load. *)
Lemma X9_witness :
  ∃ w0 w, main host2 = Started w0 page
    ∧ run [Pick "Cool Warm"; Frame] w0 = inr (tt, w)
    ∧ step (ImageLoaded None) w = inl AssetError
    ∧ pc w = AwaitImage.
Proof.
  destruct SampleFacts.start2_loading as (w0 & w & Hm & Hr & Hpc).
  assert (step (ImageLoaded None) w = inl AssetError) as Hs.
  { cbn [step]. unfold resume, bind, get. rewrite decide_True by exact Hpc.
    unfold after_image, bind. by rewrite Part000Facts.swap_colormap_None. }
  destruct (X9_only_the_image_can_fail host2 w0 w page _ _ _ Hm Hr Hs) as (Hp & _).
  exists w0, w. split; [exact Hm|]. split; [exact Hr|]. split; [exact Hs|exact Hp].
Defined.

(** X10 on the sample page: the first frame, the selection unchanged. *)
Lemma X10_witness :
  ∃ w0 w', main host2 = Started w0 page
    ∧ step Frame w0 = inr (tt, w')
    ∧ textures (dev w') = textures (dev w0)
    ∧ colormapName w' = pickerValue w0.
Proof.
  destruct SampleFacts.start2_started as (w0 & Hm & Hh & Hpc & _).
  destruct (X10_frame_looks_at_the_selection host2 w0 w0 page [] Hm eq_refl Hpc Hh)
    as (w' & Hs & Ht & _ & _ & _ & Hn & _).
  exists w0, w'. split; [exact Hm|]. split; [exact Hs|]. split; [exact Ht|exact Hn].
Defined.

(** X11 on the sample page: the first frame and its mapping. *)
Lemma X11_witness :
  ∃ w0 w' o, main host2 = Started w0 page
    ∧ run [Frame; MapResolved] w0 = inr (tt, w')
    ∧ presented (dev w') = presented (dev w0) ++ [o]
    ∧ obs_uniform o
      = Some (mat4_mul (proj (vars w0)) (camera_matrix (camera w0))
              ++ eyePos (camera w0) ++ [zero]).
Proof.
  destruct SampleFacts.start2_started as (w0 & Hm & Hh & Hpc & Hn).
  destruct (X11_record_of_one_camera host2 w0 w0 page [] Hm eq_refl Hpc Hh Hn)
    as (w' & u & o & Hr & _ & _ & _ & _ & _ & Hp & Ho).
  exists w0, w', o. split; [exact Hm|]. split; [exact Hr|]. split; [exact Hp|exact Ho].
Defined.

(** X12 on the sample page with the selector on another colormap. *)
Lemma X12_witness :
  ∃ w0 w, main (host2_at [] None "Cool Warm") = Started w0 page
    ∧ step Frame w0 = inr (tt, w)
    ∧ pc w = AwaitImage
    ∧ colormapName w = "Cool Warm"%string.
Proof.
  assert (∃ w0, main (host2_at [] None "Cool Warm") = Started w0 page) as [w0 Hm].
  { eexists. vm_compute. reflexivity. }
  destruct (proj2 (X12_first_frame_reloads (host2_at [] None "Cool Warm") w0 page Hm)
              eq_refl ltac:(discriminate))
    as (w & Hs & Hpc & Hn & _).
  exists w0, w. split; [exact Hm|]. split; [exact Hs|]. split; [exact Hpc|exact Hn].
Defined.


End V2_samples.
